(** * Core::System: scheduling rounds and session lifecycle

    A shallow embedding of [src/core/core.cpp] (namespace [Core], class
    [System]): the scheduling round [RunLoop], the deferred reschedule
    ([PrepareReschedule] / [Reschedule]), the lifecycle operations [Init],
    [Load], [Shutdown] and [Reset], and the accessors of the subsystems.

    - Every smart-pointer member of [System] is a field that is either live
      or null; dereferencing a null one is a [Fault], so each operation
      returns in [Res].
    - Calls into collaborators whose code is not part of core.cpp (the
      kernel, the CPU engines, the per-core timers, the loader, the video
      core, ...) are recorded, in program order, in the [log] field, and
      their effect on the data [System] holds is taken from the
      [Collaborators] interface. *)

From stdpp Require Import base numbers list strings.
From Stdlib Require Import ZArith Lia.

Open Scope Z_scope.

(** ** Machine integers *)

(** A value reduced to [u64]. *)
Definition wrap_u64 (z : Z) : Z := z mod 2 ^ 64.

(** The [s64] a 64-bit pattern denotes: [s64 delay = a - b] on unsigned
    operands wraps and is then read as two's complement. *)
Definition to_s64 (z : Z) : Z := (z + 2 ^ 63) mod 2 ^ 64 - 2 ^ 63.

(** ** Faults and fallible results *)

Inductive Fault : Type :=
| NullDeref      (* [p->...] or [*p] on a null pointer *)
| UseAfterFree   (* a raw pointer into an element that no longer exists *)
| AssertFailed.  (* a failed [ASSERT] *)

Inductive Res (A : Type) : Type :=
| Ok (a : A)
| Err (f : Fault).
Arguments Ok {A} a.
Arguments Err {A} f.

Definition res_bind {A B : Type} (m : Res A) (k : A -> Res B) : Res B :=
  match m with
  | Ok a => k a
  | Err f => Err f
  end.

Notation "'do' x <- e ; k" := (res_bind e (fun x => k))
  (at level 10, x name, e at level 100, k at level 200).
Notation "'do' ' p <- e ; k" := (res_bind e (fun x => match x with p => k end))
  (at level 10, p pattern, e at level 100, k at level 200).

(** [*p] / [p->] on a smart pointer that holds a value. *)
Definition deref {A : Type} (p : option A) : Res A :=
  match p with
  | Some a => Ok a
  | None => Err NullDeref
  end.

(** [p->] on a smart pointer of which only liveness is tracked. *)
Definition live (p : bool) : Res unit :=
  if p then Ok tt else Err NullDeref.

(** A raw pointer to a vector element: valid while the element exists. *)
Definition element {A : Type} (l : list A) (i : nat) : Res A :=
  match l !! i with
  | Some a => Ok a
  | None => Err UseAfterFree
  end.

(** [ASSERT(opt)] followed by [*opt] on a [std::optional]. *)
Definition ASSERT_value {A : Type} (o : option A) : Res A :=
  match o with
  | Some a => Ok a
  | None => Err AssertFailed
  end.

(** A range-for over a vector of [n] elements, visiting positions
    [i], [i+1], ... in order. *)
Fixpoint for_each_index {A : Type} (body : nat -> A -> Res A) (n i : nat) (a : A) : Res A :=
  match n with
  | O => Ok a
  | S n' => do a' <- body i a ; for_each_index body n' (S i) a'
  end.

(** ** Result codes *)

(** [System::ResultStatus].  The enumerators core.cpp names, and
    [ErrorVideoCore] for the further kinds (declared in core.h) that
    [VideoCore::Init] can hand back through [Init]. *)
Inductive ResultStatus : Type :=
| Success
| ShutdownRequested
| ErrorGetLoader
| ErrorSystemMode
| ErrorLoader
| ErrorLoader_ErrorEncrypted
| ErrorLoader_ErrorInvalidFormat
| ErrorVideoCore (kind : nat).

Definition is_Success (r : ResultStatus) : bool :=
  match r with
  | Success => true
  | _ => false
  end.

Module Loader.

(** [Loader::ResultStatus]: the three enumerators core.cpp tells apart,
    and [Error] for every other one. *)
Inductive ResultStatus : Type :=
| Success
| ErrorEncrypted
| ErrorInvalidFormat
| Error (code : nat).

Definition is_Success (r : ResultStatus) : bool :=
  match r with
  | Success => true
  | _ => false
  end.

End Loader.

(** What an [AppLoader] answers, as core.cpp consumes it. *)
Record AppLoader : Type := {
  (* [std::pair<std::optional<u32>, Loader::ResultStatus>] *)
  LoadKernelSystemMode : option Z * Loader.ResultStatus;
  LoadKernelN3dsMode : option Z * Loader.ResultStatus;
  (* the status of [Load(process)] *)
  LoadProcess : Loader.ResultStatus;
  (* [ReadProgramId(out)]: [Some id] stores [id] and reports success,
     [None] reports an error and leaves [out] as it was *)
  ReadProgramId : option Z
}.

Module Settings.

(** The members of [Settings::values] core.cpp reads or writes. *)
Record Values : Type := {
  is_new_3ds : bool;
  use_cpu_jit : bool;
  enable_dsp_lle : bool;
  enable_dsp_lle_multithread : bool;
  sink_id : string;
  audio_device_id : string;
  enable_audio_stretching : bool;
  custom_textures : bool;
  preload_textures : bool;
  display_transfer_hack : bool;
  skip_slow_draw : bool;
  texture_load_hack : bool
}.

Definition set_display_transfer_hack (v : bool) (x : Values) : Values :=
  Build_Values (is_new_3ds x) (use_cpu_jit x) (enable_dsp_lle x)
    (enable_dsp_lle_multithread x) (sink_id x) (audio_device_id x)
    (enable_audio_stretching x) (custom_textures x) (preload_textures x)
    v (skip_slow_draw x) (texture_load_hack x).

Definition set_skip_slow_draw (v : bool) (x : Values) : Values :=
  Build_Values (is_new_3ds x) (use_cpu_jit x) (enable_dsp_lle x)
    (enable_dsp_lle_multithread x) (sink_id x) (audio_device_id x)
    (enable_audio_stretching x) (custom_textures x) (preload_textures x)
    (display_transfer_hack x) v (texture_load_hack x).

Definition set_texture_load_hack (v : bool) (x : Values) : Values :=
  Build_Values (is_new_3ds x) (use_cpu_jit x) (enable_dsp_lle x)
    (enable_dsp_lle_multithread x) (sink_id x) (audio_device_id x)
    (enable_audio_stretching x) (custom_textures x) (preload_textures x)
    (display_transfer_hack x) (skip_slow_draw x) v.

End Settings.

(** ** The Global Clock *)

(** Modelled from the spec: [Timing] (core/core_timing.h is not under src/).
    The Global Clock is a [u64] tick counter; [GetGlobalTicks] reads it and
    [AddToGlobalTicks n] advances it by [n]. *)
Record Timing : Type := { global_timer : Z }.

Definition GetGlobalTicks (t : Timing) : Z := global_timer t.

Definition AddToGlobalTicks (n : Z) (t : Timing) : Timing :=
  {| global_timer := wrap_u64 (global_timer t + n) |}.

(** ** Collaborator calls *)

(** One constructor per call core.cpp makes into a collaborator.  A core is
    named by its position in [cpu_cores] (the object the call is made on);
    the kernel's thread managers are named by [GetID()]. *)
Inductive Event : Type :=
| EvTimerAdvance (core : nat) (cycles : Z)
| EvSetRunningCPU (core : nat)
| EvTimerIdle (core : nat)
| EvCorePrepareReschedule (core : nat)
| EvCoreRun (core : nat)
| EvAddToGlobalTicks (ticks : Z)
| EvHWUpdate
| EvThreadManagerReschedule (id : nat)
| EvGetAndResetStats
| EvTelemetryAddField (name : string)
| EvGDBStubShutdown
| EvVideoCoreShutdown
| EvHWShutdown
| EvSendGameInfo
| EvKernelSetCPUs
| EvDspSetup
| EvHWInit
| EvServiceInit
| EvGDBStubInit
| EvVideoCoreInit
| EvTelemetryAddInitialInfo
| EvLoaderLoad
| EvSetCurrentProcess
| EvCreateTextureDir (title_id : Z)
| EvFindCustomTextures
| EvPreloadTextures
| EvCreateSaveData (title_id : Z)
| EvBeginSystemFrame.

(** The two [ARM_Interface] implementations [Init] chooses between. *)
Inductive CoreVariant : Type :=
| ARM_Dynarmic
| ARM_DynCom.

(** What core.cpp relies on but does not define.  Each member stands for
    the code named in its comment; none of it is under src/. *)
Class Collaborators : Type := {
  (* [Timing::Timer]: a core's timer *)
  Timer : Type;
  Timer_GetTicks : Timer -> Z;
  Timer_GetMaxSliceLength : Timer -> Z;
  Timer_Advance : Z -> Timer -> Timer;
  Timer_Idle : Timer -> Timer;
  (* [Timing::MAX_SLICE_LENGTH], [Timing(num_cores)], [Timing::GetTimer(i)] *)
  MAX_SLICE_LENGTH : Z;
  Timing_new : nat -> Timing;
  Timing_GetTimer : nat -> Timer;
  (* [Kernel::KernelSystem], with the memory and processes it reaches *)
  KernelSystem : Type;
  KernelSystem_new : Z -> nat -> Z -> KernelSystem;
  Kernel_SetCPUs : list nat -> KernelSystem -> KernelSystem;
  Kernel_SetRunningCPU : nat -> KernelSystem -> KernelSystem;
  (* [GetCurrentThreadManager().GetCurrentThread() == nullptr] *)
  Kernel_CurrentThreadIsNull : KernelSystem -> bool;
  (* [GetThreadManager(id).Reschedule()] *)
  Kernel_ThreadManagerReschedule : nat -> KernelSystem -> KernelSystem;
  Kernel_SetCurrentProcess : Loader.ResultStatus -> KernelSystem -> KernelSystem;
  (* the execution engine of a core: its state, and [Run()], which works on
     the core's own state and timer and on the kernel, and tells whether the
     kernel's reschedule callback ([PrepareReschedule]) was invoked *)
  CpuState : Type;
  ARM_new : CoreVariant -> nat -> CpuState;
  ARM_Run : nat -> CpuState -> Timer -> KernelSystem -> CpuState * Timer * KernelSystem * bool;
  (* [ARCHITECTURE_x86_64 || ARCHITECTURE_ARM64] *)
  host_has_dynarmic : bool;
  (* [Frontend::EmuWindow], [VideoCore::Init], [Loader::GetLoader] *)
  EmuWindow : Type;
  VideoCore_Init : EmuWindow -> ResultStatus;
  GetLoader : string -> option AppLoader;
  (* [Network::GetRoomMember().lock()] yields a member *)
  room_member_present : bool
}.

Section Model.

Context {C : Collaborators}.

(** ** The system object *)

(** A CPU core: [GetID()], the implementation behind it, and [GetTimer()]. *)
Record ARM : Type := {
  core_id : nat;
  variant : CoreVariant;
  cpu : CpuState;
  timer : Timer
}.

(** The members of [System] core.cpp uses, [Settings::values] and the call
    log.  A [unique_ptr]/[shared_ptr] member whose pointee core.cpp never
    looks into is a [bool] (live or null). *)
Record System : Type := {
  app_loader : option AppLoader;
  memory : bool;
  timing : option Timing;
  kernel : option KernelSystem;
  cpu_cores : list ARM;
  dsp_core : bool;
  telemetry_session : bool;
  rpc_server : bool;
  service_manager : bool;
  archive_manager : bool;
  cheat_engine : bool;
  perf_stats : bool;
  custom_tex_cache : bool;
  running_core : option nat;
  reschedule_pending : bool;
  reset_requested : bool;
  shutdown_requested : bool;
  status : ResultStatus;
  initalized : bool;
  m_emu_window : option EmuWindow;
  m_filepath : string;
  settings : Settings.Values;
  log : list Event
}.

(** Assignment to one member. *)

Definition set_app_loader (v : option AppLoader) (s : System) : System :=
  Build_System v (memory s) (timing s) (kernel s) (cpu_cores s) (dsp_core s)
    (telemetry_session s) (rpc_server s) (service_manager s) (archive_manager s)
    (cheat_engine s) (perf_stats s) (custom_tex_cache s) (running_core s)
    (reschedule_pending s) (reset_requested s) (shutdown_requested s) (status s)
    (initalized s) (m_emu_window s) (m_filepath s) (settings s) (log s).

Definition set_memory (v : bool) (s : System) : System :=
  Build_System (app_loader s) v (timing s) (kernel s) (cpu_cores s) (dsp_core s)
    (telemetry_session s) (rpc_server s) (service_manager s) (archive_manager s)
    (cheat_engine s) (perf_stats s) (custom_tex_cache s) (running_core s)
    (reschedule_pending s) (reset_requested s) (shutdown_requested s) (status s)
    (initalized s) (m_emu_window s) (m_filepath s) (settings s) (log s).

Definition set_timing (v : option Timing) (s : System) : System :=
  Build_System (app_loader s) (memory s) v (kernel s) (cpu_cores s) (dsp_core s)
    (telemetry_session s) (rpc_server s) (service_manager s) (archive_manager s)
    (cheat_engine s) (perf_stats s) (custom_tex_cache s) (running_core s)
    (reschedule_pending s) (reset_requested s) (shutdown_requested s) (status s)
    (initalized s) (m_emu_window s) (m_filepath s) (settings s) (log s).

Definition set_kernel (v : option KernelSystem) (s : System) : System :=
  Build_System (app_loader s) (memory s) (timing s) v (cpu_cores s) (dsp_core s)
    (telemetry_session s) (rpc_server s) (service_manager s) (archive_manager s)
    (cheat_engine s) (perf_stats s) (custom_tex_cache s) (running_core s)
    (reschedule_pending s) (reset_requested s) (shutdown_requested s) (status s)
    (initalized s) (m_emu_window s) (m_filepath s) (settings s) (log s).

Definition set_cpu_cores (v : list ARM) (s : System) : System :=
  Build_System (app_loader s) (memory s) (timing s) (kernel s) v (dsp_core s)
    (telemetry_session s) (rpc_server s) (service_manager s) (archive_manager s)
    (cheat_engine s) (perf_stats s) (custom_tex_cache s) (running_core s)
    (reschedule_pending s) (reset_requested s) (shutdown_requested s) (status s)
    (initalized s) (m_emu_window s) (m_filepath s) (settings s) (log s).

Definition set_dsp_core (v : bool) (s : System) : System :=
  Build_System (app_loader s) (memory s) (timing s) (kernel s) (cpu_cores s) v
    (telemetry_session s) (rpc_server s) (service_manager s) (archive_manager s)
    (cheat_engine s) (perf_stats s) (custom_tex_cache s) (running_core s)
    (reschedule_pending s) (reset_requested s) (shutdown_requested s) (status s)
    (initalized s) (m_emu_window s) (m_filepath s) (settings s) (log s).

Definition set_telemetry_session (v : bool) (s : System) : System :=
  Build_System (app_loader s) (memory s) (timing s) (kernel s) (cpu_cores s) (dsp_core s) v
    (rpc_server s) (service_manager s) (archive_manager s) (cheat_engine s) (perf_stats s)
    (custom_tex_cache s) (running_core s) (reschedule_pending s) (reset_requested s)
    (shutdown_requested s) (status s) (initalized s) (m_emu_window s) (m_filepath s)
    (settings s) (log s).

Definition set_rpc_server (v : bool) (s : System) : System :=
  Build_System (app_loader s) (memory s) (timing s) (kernel s) (cpu_cores s) (dsp_core s)
    (telemetry_session s) v (service_manager s) (archive_manager s) (cheat_engine s)
    (perf_stats s) (custom_tex_cache s) (running_core s) (reschedule_pending s)
    (reset_requested s) (shutdown_requested s) (status s) (initalized s) (m_emu_window s)
    (m_filepath s) (settings s) (log s).

Definition set_service_manager (v : bool) (s : System) : System :=
  Build_System (app_loader s) (memory s) (timing s) (kernel s) (cpu_cores s) (dsp_core s)
    (telemetry_session s) (rpc_server s) v (archive_manager s) (cheat_engine s)
    (perf_stats s) (custom_tex_cache s) (running_core s) (reschedule_pending s)
    (reset_requested s) (shutdown_requested s) (status s) (initalized s) (m_emu_window s)
    (m_filepath s) (settings s) (log s).

Definition set_archive_manager (v : bool) (s : System) : System :=
  Build_System (app_loader s) (memory s) (timing s) (kernel s) (cpu_cores s) (dsp_core s)
    (telemetry_session s) (rpc_server s) (service_manager s) v (cheat_engine s)
    (perf_stats s) (custom_tex_cache s) (running_core s) (reschedule_pending s)
    (reset_requested s) (shutdown_requested s) (status s) (initalized s) (m_emu_window s)
    (m_filepath s) (settings s) (log s).

Definition set_cheat_engine (v : bool) (s : System) : System :=
  Build_System (app_loader s) (memory s) (timing s) (kernel s) (cpu_cores s) (dsp_core s)
    (telemetry_session s) (rpc_server s) (service_manager s) (archive_manager s) v
    (perf_stats s) (custom_tex_cache s) (running_core s) (reschedule_pending s)
    (reset_requested s) (shutdown_requested s) (status s) (initalized s) (m_emu_window s)
    (m_filepath s) (settings s) (log s).

Definition set_perf_stats (v : bool) (s : System) : System :=
  Build_System (app_loader s) (memory s) (timing s) (kernel s) (cpu_cores s) (dsp_core s)
    (telemetry_session s) (rpc_server s) (service_manager s) (archive_manager s)
    (cheat_engine s) v (custom_tex_cache s) (running_core s) (reschedule_pending s)
    (reset_requested s) (shutdown_requested s) (status s) (initalized s) (m_emu_window s)
    (m_filepath s) (settings s) (log s).

Definition set_custom_tex_cache (v : bool) (s : System) : System :=
  Build_System (app_loader s) (memory s) (timing s) (kernel s) (cpu_cores s) (dsp_core s)
    (telemetry_session s) (rpc_server s) (service_manager s) (archive_manager s)
    (cheat_engine s) (perf_stats s) v (running_core s) (reschedule_pending s)
    (reset_requested s) (shutdown_requested s) (status s) (initalized s) (m_emu_window s)
    (m_filepath s) (settings s) (log s).

Definition set_running_core (v : option nat) (s : System) : System :=
  Build_System (app_loader s) (memory s) (timing s) (kernel s) (cpu_cores s) (dsp_core s)
    (telemetry_session s) (rpc_server s) (service_manager s) (archive_manager s)
    (cheat_engine s) (perf_stats s) (custom_tex_cache s) v (reschedule_pending s)
    (reset_requested s) (shutdown_requested s) (status s) (initalized s) (m_emu_window s)
    (m_filepath s) (settings s) (log s).

Definition set_reschedule_pending (v : bool) (s : System) : System :=
  Build_System (app_loader s) (memory s) (timing s) (kernel s) (cpu_cores s) (dsp_core s)
    (telemetry_session s) (rpc_server s) (service_manager s) (archive_manager s)
    (cheat_engine s) (perf_stats s) (custom_tex_cache s) (running_core s) v
    (reset_requested s) (shutdown_requested s) (status s) (initalized s) (m_emu_window s)
    (m_filepath s) (settings s) (log s).

Definition set_reset_requested (v : bool) (s : System) : System :=
  Build_System (app_loader s) (memory s) (timing s) (kernel s) (cpu_cores s) (dsp_core s)
    (telemetry_session s) (rpc_server s) (service_manager s) (archive_manager s)
    (cheat_engine s) (perf_stats s) (custom_tex_cache s) (running_core s)
    (reschedule_pending s) v (shutdown_requested s) (status s) (initalized s)
    (m_emu_window s) (m_filepath s) (settings s) (log s).

Definition set_shutdown_requested (v : bool) (s : System) : System :=
  Build_System (app_loader s) (memory s) (timing s) (kernel s) (cpu_cores s) (dsp_core s)
    (telemetry_session s) (rpc_server s) (service_manager s) (archive_manager s)
    (cheat_engine s) (perf_stats s) (custom_tex_cache s) (running_core s)
    (reschedule_pending s) (reset_requested s) v (status s) (initalized s) (m_emu_window s)
    (m_filepath s) (settings s) (log s).

Definition set_status (v : ResultStatus) (s : System) : System :=
  Build_System (app_loader s) (memory s) (timing s) (kernel s) (cpu_cores s) (dsp_core s)
    (telemetry_session s) (rpc_server s) (service_manager s) (archive_manager s)
    (cheat_engine s) (perf_stats s) (custom_tex_cache s) (running_core s)
    (reschedule_pending s) (reset_requested s) (shutdown_requested s) v (initalized s)
    (m_emu_window s) (m_filepath s) (settings s) (log s).

Definition set_initalized (v : bool) (s : System) : System :=
  Build_System (app_loader s) (memory s) (timing s) (kernel s) (cpu_cores s) (dsp_core s)
    (telemetry_session s) (rpc_server s) (service_manager s) (archive_manager s)
    (cheat_engine s) (perf_stats s) (custom_tex_cache s) (running_core s)
    (reschedule_pending s) (reset_requested s) (shutdown_requested s) (status s) v
    (m_emu_window s) (m_filepath s) (settings s) (log s).

Definition set_m_emu_window (v : option EmuWindow) (s : System) : System :=
  Build_System (app_loader s) (memory s) (timing s) (kernel s) (cpu_cores s) (dsp_core s)
    (telemetry_session s) (rpc_server s) (service_manager s) (archive_manager s)
    (cheat_engine s) (perf_stats s) (custom_tex_cache s) (running_core s)
    (reschedule_pending s) (reset_requested s) (shutdown_requested s) (status s)
    (initalized s) v (m_filepath s) (settings s) (log s).

Definition set_m_filepath (v : string) (s : System) : System :=
  Build_System (app_loader s) (memory s) (timing s) (kernel s) (cpu_cores s) (dsp_core s)
    (telemetry_session s) (rpc_server s) (service_manager s) (archive_manager s)
    (cheat_engine s) (perf_stats s) (custom_tex_cache s) (running_core s)
    (reschedule_pending s) (reset_requested s) (shutdown_requested s) (status s)
    (initalized s) (m_emu_window s) v (settings s) (log s).

Definition set_settings (v : Settings.Values) (s : System) : System :=
  Build_System (app_loader s) (memory s) (timing s) (kernel s) (cpu_cores s) (dsp_core s)
    (telemetry_session s) (rpc_server s) (service_manager s) (archive_manager s)
    (cheat_engine s) (perf_stats s) (custom_tex_cache s) (running_core s)
    (reschedule_pending s) (reset_requested s) (shutdown_requested s) (status s)
    (initalized s) (m_emu_window s) (m_filepath s) v (log s).

Definition set_log (v : list Event) (s : System) : System :=
  Build_System (app_loader s) (memory s) (timing s) (kernel s) (cpu_cores s) (dsp_core s)
    (telemetry_session s) (rpc_server s) (service_manager s) (archive_manager s)
    (cheat_engine s) (perf_stats s) (custom_tex_cache s) (running_core s)
    (reschedule_pending s) (reset_requested s) (shutdown_requested s) (status s)
    (initalized s) (m_emu_window s) (m_filepath s) (settings s) v.

(** A collaborator call is appended to the log. *)
Definition emit (e : Event) (s : System) : System := set_log (log s ++ [e]) s.

Definition emit_all (es : list Event) (s : System) : System := set_log (log s ++ es) s.

(** [cpu_cores[i]] is replaced by [c] (the vector keeps its length). *)
Definition set_core (i : nat) (c : ARM) (s : System) : System :=
  set_cpu_cores (<[i := c]> (cpu_cores s)) s.

Definition with_timer (t : Timer) (c : ARM) : ARM :=
  {| core_id := core_id c; variant := variant c; cpu := cpu c; timer := t |}.

(** ** Reschedule coordinator (core.cpp 208-227) *)

(** [running_core->PrepareReschedule(); reschedule_pending = true;]
    [running_core] is a raw pointer to an element of [cpu_cores]. *)
Definition PrepareReschedule (s : System) : Res System :=
  do i <- deref (running_core s) ;
  do _ <- element (cpu_cores s) i ;
  Ok (set_reschedule_pending true (emit (EvCorePrepareReschedule i) s)).

(** [kernel->GetThreadManager(core->GetID()).Reschedule()] for one core. *)
Definition Reschedule_core (c : ARM) (s : System) : Res System :=
  do k <- deref (kernel s) ;
  Ok (emit (EvThreadManagerReschedule (core_id c))
        (set_kernel (Some (Kernel_ThreadManagerReschedule (core_id c) k)) s)).

Fixpoint Reschedule_cores (cores : list ARM) (s : System) : Res System :=
  match cores with
  | [] => Ok s
  | c :: rest => do s' <- Reschedule_core c s ; Reschedule_cores rest s'
  end.

Definition Reschedule (s : System) : Res System :=
  if negb (reschedule_pending s) then Ok s
  else Reschedule_cores (cpu_cores s) (set_reschedule_pending false s).

(** ** Init (core.cpp 229-301) *)

Definition new_core (v : CoreVariant) (i : nat) : ARM :=
  {| core_id := i; variant := v; cpu := ARM_new v i; timer := Timing_GetTimer i |}.

Definition Init (emu_window : EmuWindow) (system_mode n3ds_mode : Z) (s : System)
  : ResultStatus * System :=
  let num_cores := if Settings.is_new_3ds (settings s) then 4%nat else 2%nat in
  let s := set_memory true s in
  let s := set_timing (Some (Timing_new num_cores)) s in
  let k := KernelSystem_new system_mode num_cores n3ds_mode in
  let v := if Settings.use_cpu_jit (settings s) && host_has_dynarmic
           then ARM_Dynarmic else ARM_DynCom in
  let s := set_cpu_cores (cpu_cores s ++ map (new_core v) (seq 0 num_cores)) s in
  let s := set_running_core (Some 0%nat) s in
  let id0 := match cpu_cores s with c :: _ => core_id c | [] => 0%nat end in
  let k := Kernel_SetRunningCPU id0 (Kernel_SetCPUs (map core_id (cpu_cores s)) k) in
  let s := emit (EvSetRunningCPU 0) (emit EvKernelSetCPUs (set_kernel (Some k) s)) in
  let s := emit EvDspSetup (set_dsp_core true s) in
  let s := set_telemetry_session true s in
  let s := set_rpc_server true s in
  let s := set_service_manager true s in
  let s := set_archive_manager true s in
  let s := emit_all [EvHWInit; EvServiceInit; EvGDBStubInit; EvVideoCoreInit] s in
  let result := VideoCore_Init emu_window in
  if negb (is_Success result) then (result, s)
  else (Success, set_initalized true s).

(** ** Shutdown (core.cpp 213-215, 375-410) *)

(** [perf_stats->GetAndResetStats(timing->GetGlobalTimeUs())] *)
Definition GetAndResetPerfStats (s : System) : Res System :=
  do _ <- live (perf_stats s) ;
  do _ <- deref (timing s) ;
  Ok (emit EvGetAndResetStats s).

Definition Shutdown_fields : list Event :=
  [EvTelemetryAddField "Shutdown_EmulationSpeed";
   EvTelemetryAddField "Shutdown_Framerate";
   EvTelemetryAddField "Shutdown_Frametime";
   EvTelemetryAddField "Mean_Frametime_MS"].

(** Lines 390-402: every owning member is reset. *)
Definition release_all (s : System) : System :=
  let s := set_telemetry_session false s in
  let s := set_perf_stats false s in
  let s := set_rpc_server false s in
  let s := set_cheat_engine false s in
  let s := set_archive_manager false s in
  let s := set_service_manager false s in
  let s := set_dsp_core false s in
  let s := set_cpu_cores [] s in
  let s := set_kernel None s in
  let s := set_timing None s in
  let s := set_memory false s in
  let s := set_app_loader None s in
  set_custom_tex_cache false s.

Definition Shutdown (s : System) : Res System :=
  do s <- GetAndResetPerfStats s ;
  do _ <- live (telemetry_session s) ;
  let s := emit_all Shutdown_fields s in
  let s := emit_all [EvGDBStubShutdown; EvVideoCoreShutdown; EvHWShutdown] s in
  let s := release_all s in
  Ok (if room_member_present then emit EvSendGameInfo s else s).

(** ** Load (core.cpp 112-206) *)

(** Lines 185-200: the per-title overrides. *)
Definition apply_title_overrides (title_id : Z) (s : System) : System :=
  if (title_id =? 0x0004000000068B00) || (title_id =? 0x0004000000061300)
     || (title_id =? 0x000400000004A700)
  then
    set_settings
      (Settings.set_texture_load_hack false
         (Settings.set_skip_slow_draw true
            (Settings.set_display_transfer_hack true (settings s)))) s
  else if title_id =? 0x00040000001D3A00 then
    emit (EvCreateSaveData title_id) s
  else s.

(** The [switch] of lines 125-132. *)
Definition system_mode_error (r : Loader.ResultStatus) : ResultStatus :=
  match r with
  | Loader.ErrorEncrypted => ErrorLoader_ErrorEncrypted
  | Loader.ErrorInvalidFormat => ErrorLoader_ErrorInvalidFormat
  | _ => ErrorSystemMode
  end.

(** The [switch] of lines 154-161. *)
Definition load_error (r : Loader.ResultStatus) : ResultStatus :=
  match r with
  | Loader.ErrorEncrypted => ErrorLoader_ErrorEncrypted
  | Loader.ErrorInvalidFormat => ErrorLoader_ErrorInvalidFormat
  | _ => ErrorLoader
  end.

(** The program identifier [Load] works with: [u64 title_id{0}], overwritten
    by a successful [ReadProgramId]. *)
Definition resolved_title_id (loader : AppLoader) : Z :=
  match ReadProgramId loader with
  | Some id => id
  | None => 0
  end.

Definition Load (emu_window : EmuWindow) (filepath : string) (s : System)
  : Res (ResultStatus * System) :=
  let s := set_app_loader (GetLoader filepath) s in
  match app_loader s with
  | None => Ok (ErrorGetLoader, s)
  | Some loader =>
    let system_mode := LoadKernelSystemMode loader in
    if negb (Loader.is_Success (snd system_mode)) then
      Ok (system_mode_error (snd system_mode), s)
    else
      do mode <- ASSERT_value (fst system_mode) ;
      let n3ds_mode := LoadKernelN3dsMode loader in
      do n3ds <- ASSERT_value (fst n3ds_mode) ;
      let '(init_result, s) := Init emu_window mode n3ds s in
      if negb (is_Success init_result) then
        do s <- Shutdown s ;
        Ok (init_result, s)
      else
        do _ <- live (telemetry_session s) ;
        let s := emit EvTelemetryAddInitialInfo s in
        let load_result := LoadProcess loader in
        let s := emit EvLoaderLoad s in
        do k <- deref (kernel s) ;
        let s := emit EvSetCurrentProcess
                   (set_kernel (Some (Kernel_SetCurrentProcess load_result k)) s) in
        if negb (Loader.is_Success load_result) then
          do s <- Shutdown s ;
          Ok (load_error load_result, s)
        else
          let s := set_cheat_engine true s in
          let title_id := resolved_title_id loader in
          let s := set_perf_stats true s in
          let s := set_custom_tex_cache true s in
          let s := if Settings.custom_textures (settings s)
                   then emit EvFindCustomTextures (emit (EvCreateTextureDir title_id) s)
                   else s in
          let s := if Settings.preload_textures (settings s)
                   then emit EvPreloadTextures s else s in
          let s := set_status Success s in
          let s := set_m_emu_window (Some emu_window) s in
          let s := set_m_filepath filepath s in
          let s := apply_title_overrides title_id s in
          do s <- GetAndResetPerfStats s ;
          do _ <- live (perf_stats s) ;
          let s := emit EvBeginSystemFrame s in
          Ok (status s, s)
  end.

(** ** Reset (core.cpp 412-420) *)

Definition Reset (s : System) : Res System :=
  do s <- Shutdown s ;
  do w <- deref (m_emu_window s) ;
  do '(_, s) <- Load w (m_filepath s) s ;
  Ok s.

(** ** RunLoop (core.cpp 42-106) *)

(** Line 49: [s64 delay = timing->GetGlobalTicks() - GetTicks()]. *)
Definition core_delay (global_ticks : Z) (c : ARM) : Z :=
  to_s64 (global_ticks - Timer_GetTicks (timer c)).

(** [cpu_cores[i]->GetTimer()->Advance(cycles)] *)
Definition advance_core (i : nat) (cycles : Z) (s : System) : Res System :=
  do c <- element (cpu_cores s) i ;
  Ok (emit (EvTimerAdvance i cycles) (set_core i (with_timer (Timer_Advance cycles (timer c)) c) s)).

(** The locals of the first loop: [max_delay], [current_core_to_execute]. *)
Definition CatchUp : Type := (System * Z * option nat)%type.

(** Lines 48-57, one iteration. *)
Definition catch_up_core (i : nat) (st : CatchUp) : Res CatchUp :=
  let '(s, max_delay, current_core_to_execute) := st in
  do tm <- deref (timing s) ;
  do c <- element (cpu_cores s) i ;
  let delay := core_delay (GetGlobalTicks tm) c in
  if 0 <? delay then
    do s <- advance_core i delay s ;
    if max_delay <? delay then Ok (s, delay, Some i)
    else Ok (s, max_delay, current_core_to_execute)
  else Ok st.

(** Lines 46-57. *)
Definition catch_up (s : System) : Res CatchUp :=
  for_each_index catch_up_core (length (cpu_cores s)) 0 (s, 0, None).

(** Lines 60-68 and 81-91: a core is made the running core and is idled or
    run. *)
Definition execute_core (i : nat) (s : System) : Res System :=
  do c <- element (cpu_cores s) i ;
  let s := set_running_core (Some i) s in
  do k <- deref (kernel s) ;
  let k := Kernel_SetRunningCPU (core_id c) k in
  let s := emit (EvSetRunningCPU i) (set_kernel (Some k) s) in
  if Kernel_CurrentThreadIsNull k then
    let s := emit (EvTimerIdle i) (set_core i (with_timer (Timer_Idle (timer c)) c) s) in
    PrepareReschedule s
  else
    let '(cpu', timer', k', requested) := ARM_Run (core_id c) (cpu c) (timer c) k in
    let c' := {| core_id := core_id c; variant := variant c; cpu := cpu'; timer := timer' |} in
    let s := emit (EvCoreRun i) (set_kernel (Some k') (set_core i c' s)) in
    if requested then PrepareReschedule s else Ok s.

(** Lines 73-76. *)
Definition compute_max_slice (cores : list ARM) : Z :=
  fold_left (fun max_slice c => Z.min max_slice (Timer_GetMaxSliceLength (timer c)))
    cores MAX_SLICE_LENGTH.

(** Lines 70-93: the synchronized branch. *)
Definition synchronized_round (s : System) : Res System :=
  let max_slice := compute_max_slice (cpu_cores s) in
  do s <- for_each_index (fun i => advance_core i max_slice) (length (cpu_cores s)) 0 s ;
  do s <- for_each_index execute_core (length (cpu_cores s)) 0 s ;
  do tm <- deref (timing s) ;
  Ok (emit (EvAddToGlobalTicks max_slice) (set_timing (Some (AddToGlobalTicks max_slice tm)) s)).

(** Lines 46-94: the execution phase of a round. *)
Definition execute_round (s : System) : Res System :=
  do '(s, max_delay, current_core_to_execute) <- catch_up s ;
  if 4096 <? max_delay then
    do i <- deref current_core_to_execute ;
    execute_core i s
  else synchronized_round s.

(** Lines 96-105. *)
Definition finish_round (s : System) : Res (ResultStatus * System) :=
  let s := emit EvHWUpdate s in
  do s <- Reschedule s ;
  if reset_requested s then
    do s <- Reset (set_reset_requested false s) ;
    Ok (status s, s)
  else if shutdown_requested s then
    Ok (ShutdownRequested, set_shutdown_requested false s)
  else Ok (status s, s).

Definition RunLoop (tight_loop : bool) (s : System) : Res (ResultStatus * System) :=
  do s <- execute_round s ;
  finish_round s.

Definition SingleStep (s : System) : Res (ResultStatus * System) := RunLoop false s.

(** ** Accessors (core.cpp 307-361) *)

(** Each accessor returns [*member]: a reference to the pointee of one
    smart-pointer member. *)
Definition ServiceManager (s : System) : Res unit := live (service_manager s).

Definition ArchiveManager (s : System) : Res unit := live (archive_manager s).

Definition Kernel (s : System) : Res KernelSystem := deref (kernel s).

Definition CoreTiming (s : System) : Res Timing := deref (timing s).

Definition Memory (s : System) : Res unit := live (memory s).

Definition CheatEngine (s : System) : Res unit := live (cheat_engine s).

Definition CustomTexCache (s : System) : Res unit := live (custom_tex_cache s).

End Model.


(** * Descriptions of a round *)

Section Descriptions.

Context {C : Collaborators}.

(** A core after the first loop of [RunLoop]: advanced by its delay when it
    was behind the Global Clock, untouched otherwise. *)
Definition caught_up (g : Z) (c : ARM) : ARM :=
  if 0 <? core_delay g c
  then with_timer (Timer_Advance (core_delay g c) (timer c)) c
  else c.

(** The [Advance] calls of the first loop, for the cores from position [i]. *)
Fixpoint catch_up_events (g : Z) (i : nat) (cores : list ARM) : list Event :=
  match cores with
  | [] => []
  | c :: rest =>
      (if 0 <? core_delay g c then [EvTimerAdvance i (core_delay g c)] else [])
        ++ catch_up_events g (S i) rest
  end.

(** [max_delay] and [current_core_to_execute] after the first loop. *)
Fixpoint most_delayed (g : Z) (i : nat) (cores : list ARM) (max_delay : Z)
    (current : option nat) : Z * option nat :=
  match cores with
  | [] => (max_delay, current)
  | c :: rest =>
      if (0 <? core_delay g c) && (max_delay <? core_delay g c)
      then most_delayed g (S i) rest (core_delay g c) (Some i)
      else most_delayed g (S i) rest max_delay current
  end.

(** Some core is more than 4096 ticks behind the Global Clock [g]. *)
Definition needs_catch_up (g : Z) (cores : list ARM) : bool :=
  existsb (fun c => 4096 <? core_delay g c) cores.

(** The [Advance(max_slice)] calls of the synchronized branch. *)
Fixpoint advance_events (max_slice : Z) (i : nat) (cores : list ARM) : list Event :=
  match cores with
  | [] => []
  | _ :: rest => EvTimerAdvance i max_slice :: advance_events max_slice (S i) rest
  end.

Definition advanced (max_slice : Z) (c : ARM) : ARM :=
  with_timer (Timer_Advance max_slice (timer c)) c.

(** The calls [execute_core i] makes: the core becomes the running CPU and is
    then idled (which requests a reschedule) or run (which may). *)
Definition core_block (i : nat) (l : list Event) : Prop :=
  l = [EvSetRunningCPU i; EvTimerIdle i; EvCorePrepareReschedule i]
  \/ l = [EvSetRunningCPU i; EvCoreRun i]
  \/ l = [EvSetRunningCPU i; EvCoreRun i; EvCorePrepareReschedule i].

Definition is_AddToGlobalTicks (e : Event) : bool :=
  match e with
  | EvAddToGlobalTicks _ => true
  | _ => false
  end.

(** How often [AddToGlobalTicks] was called. *)
Fixpoint count_AddToGlobalTicks (l : list Event) : nat :=
  match l with
  | [] => 0%nat
  | e :: rest => ((if is_AddToGlobalTicks e then 1 else 0) + count_AddToGlobalTicks rest)%nat
  end.

(** The [ThreadManager::Reschedule] calls of [Reschedule]. *)
Definition reschedule_events (cores : list ARM) : list Event :=
  map (fun c => EvThreadManagerReschedule (core_id c)) cores.

Definition rescheduled_kernel (cores : list ARM) (k : KernelSystem) : KernelSystem :=
  fold_left (fun k c => Kernel_ThreadManagerReschedule (core_id c) k) cores k.

Definition is_CorePrepareReschedule (e : Event) : bool :=
  match e with
  | EvCorePrepareReschedule _ => true
  | _ => false
  end.

(** Some core was asked to prepare for a reschedule. *)
Definition requests_reschedule (l : list Event) : bool := existsb is_CorePrepareReschedule l.

(** The members of [System] that the execution phase of a round never
    assigns. *)
Definition outside_execution (s : System) :=
  (app_loader s, memory s, timing s, dsp_core s, telemetry_session s, rpc_server s,
   service_manager s, archive_manager s, cheat_engine s, perf_stats s, custom_tex_cache s,
   reset_requested s, shutdown_requested s, status s, initalized s, m_emu_window s,
   m_filepath s, settings s).

(** The state in which the synchronized branch starts executing cores: every
    lagging core caught up, then every core advanced by [max_slice]. *)
Definition before_execution (tm : Timing) (s : System) : System :=
  let g := GetGlobalTicks tm in
  let cores := map (caught_up g) (cpu_cores s) in
  let max_slice := compute_max_slice cores in
  emit_all (catch_up_events g 0 (cpu_cores s) ++ advance_events max_slice 0 cores)
    (set_cpu_cores (map (advanced max_slice) cores) s).

(** The state in which the catch-up branch executes its one core. *)
Definition after_catch_up (tm : Timing) (s : System) : System :=
  emit_all (catch_up_events (GetGlobalTicks tm) 0 (cpu_cores s))
    (set_cpu_cores (map (caught_up (GetGlobalTicks tm)) (cpu_cores s)) s).

(** The slice length a synchronized round settles on. *)
Definition round_max_slice (tm : Timing) (s : System) : Z :=
  compute_max_slice (map (caught_up (GetGlobalTicks tm)) (cpu_cores s)).

(** The collaborator calls of a [Shutdown] that runs to its end. *)
Definition Shutdown_calls : list Event :=
  EvGetAndResetStats :: Shutdown_fields
    ++ [EvGDBStubShutdown; EvVideoCoreShutdown; EvHWShutdown]
    ++ (if room_member_present then [EvSendGameInfo] else []).

(** The state in which [Load] tears the system down after the loader failed
    to materialize the process. *)
Definition process_load_failed (w : EmuWindow) (m n : Z) (loader : AppLoader)
    (s : System) (k : KernelSystem) : System :=
  emit EvSetCurrentProcess
    (set_kernel (Some (Kernel_SetCurrentProcess (LoadProcess loader) k))
       (emit EvLoaderLoad
          (emit EvTelemetryAddInitialInfo (snd (Init w m n (set_app_loader (Some loader) s)))))).

(** The settings the per-title overrides never write. *)
Definition other_settings (v : Settings.Values) :=
  (Settings.is_new_3ds v, Settings.use_cpu_jit v, Settings.enable_dsp_lle v,
   Settings.enable_dsp_lle_multithread v, Settings.sink_id v, Settings.audio_device_id v,
   Settings.enable_audio_stretching v, Settings.custom_textures v,
   Settings.preload_textures v).

(** The paths through [Load]. *)
Inductive LoadPath (w : EmuWindow) (path : string) (s : System) : Prop :=
| NoLoader :
    GetLoader path = None ->
    LoadPath w path s
| SystemModeFailure (loader : AppLoader) :
    GetLoader path = Some loader ->
    Loader.is_Success (snd (LoadKernelSystemMode loader)) = false ->
    LoadPath w path s
| ModeAssertFailure (loader : AppLoader) :
    GetLoader path = Some loader ->
    Loader.is_Success (snd (LoadKernelSystemMode loader)) = true ->
    fst (LoadKernelSystemMode loader) = None \/ fst (LoadKernelN3dsMode loader) = None ->
    LoadPath w path s
| InitFailure (loader : AppLoader) (m n : Z) :
    GetLoader path = Some loader ->
    Loader.is_Success (snd (LoadKernelSystemMode loader)) = true ->
    fst (LoadKernelSystemMode loader) = Some m ->
    fst (LoadKernelN3dsMode loader) = Some n ->
    is_Success (VideoCore_Init w) = false ->
    LoadPath w path s
| ProcessFailure (loader : AppLoader) (m n : Z) :
    GetLoader path = Some loader ->
    Loader.is_Success (snd (LoadKernelSystemMode loader)) = true ->
    fst (LoadKernelSystemMode loader) = Some m ->
    fst (LoadKernelN3dsMode loader) = Some n ->
    is_Success (VideoCore_Init w) = true ->
    Loader.is_Success (LoadProcess loader) = false ->
    LoadPath w path s
| Loaded (loader : AppLoader) (m n : Z) :
    GetLoader path = Some loader ->
    Loader.is_Success (snd (LoadKernelSystemMode loader)) = true ->
    fst (LoadKernelSystemMode loader) = Some m ->
    fst (LoadKernelN3dsMode loader) = Some n ->
    is_Success (VideoCore_Init w) = true ->
    Loader.is_Success (LoadProcess loader) = true ->
    LoadPath w path s.

(** What the lifecycle operations leave alone: the scheduling flags, and how
    often [AddToGlobalTicks] was called. *)
Definition outside_lifecycle (s : System) :=
  (reschedule_pending s, reset_requested s, shutdown_requested s,
   count_AddToGlobalTicks (log s)).

(** Every timer has gained exactly [n] ticks between [s] and [s']. *)
Definition every_timer_gains (n : Z) (s s' : System) : Prop :=
  forall (i : nat) (c c' : ARM),
    cpu_cores s !! i = Some c -> cpu_cores s' !! i = Some c' ->
    Timer_GetTicks (timer c') = Timer_GetTicks (timer c) + n.

(** Every owning member of [System] is null. *)
Definition all_released (s : System) : Prop :=
  app_loader s = None /\ memory s = false /\ timing s = None /\ kernel s = None
  /\ cpu_cores s = [] /\ dsp_core s = false /\ telemetry_session s = false
  /\ rpc_server s = false /\ service_manager s = false /\ archive_manager s = false
  /\ cheat_engine s = false /\ perf_stats s = false /\ custom_tex_cache s = false.

(** Modelled from the spec: [Timing::Timer::Advance] (core/core_timing.cpp is
    not under src/): [Advance(n)] advances the timer's [u64] tick count by
    [n]. *)
Definition Advance_adds_ticks : Prop :=
  forall (n : Z) (t : Timer), Timer_GetTicks (Timer_Advance n t) = wrap_u64 (Timer_GetTicks t + n).

(** The program identifiers that share the first override entry. *)
Definition display_transfer_titles : list Z :=
  [0x0004000000068B00; 0x0004000000061300; 0x000400000004A700].

(** ** Descriptions of the lifecycle *)

(** Lines 232-235: how many cores [Init] creates. *)
Definition num_cores (v : Settings.Values) : nat :=
  if Settings.is_new_3ds v then 4%nat else 2%nat.

(** Lines 244-262: the engine [Init] gives every core. *)
Definition core_variant (v : Settings.Values) : CoreVariant :=
  if Settings.use_cpu_jit v && host_has_dynarmic then ARM_Dynarmic else ARM_DynCom.

(** The cores one call of [Init] pushes onto [cpu_cores]. *)
Definition fresh_cores (v : Settings.Values) : list ARM :=
  map (new_core (core_variant v)) (seq 0 (num_cores v)).

(** The kernel [Init] leaves: built for [num_cores] cores, told about every
    element of [cpu_cores], with [cpu_cores[0]] as the running CPU. *)
Definition Init_kernel (system_mode n3ds_mode : Z) (s : System) : KernelSystem :=
  Kernel_SetRunningCPU
    (match cpu_cores s ++ fresh_cores (settings s) with
     | c :: _ => core_id c
     | [] => 0%nat
     end)
    (Kernel_SetCPUs (map core_id (cpu_cores s ++ fresh_cores (settings s)))
       (KernelSystem_new system_mode (num_cores (settings s)) n3ds_mode)).

(** The collaborator calls of [Init]. *)
Definition Init_calls : list Event :=
  [EvKernelSetCPUs; EvSetRunningCPU 0; EvDspSetup;
   EvHWInit; EvServiceInit; EvGDBStubInit; EvVideoCoreInit].

(** The collaborator calls of a [Load] that succeeds, after those of
    [Init]. *)
Definition Load_calls (v : Settings.Values) (title_id : Z) : list Event :=
  [EvTelemetryAddInitialInfo; EvLoaderLoad; EvSetCurrentProcess]
    ++ (if Settings.custom_textures v
        then [EvCreateTextureDir title_id; EvFindCustomTextures] else [])
    ++ (if Settings.preload_textures v then [EvPreloadTextures] else [])
    ++ (if title_id =? 0x00040000001D3A00 then [EvCreateSaveData title_id] else [])
    ++ [EvGetAndResetStats; EvBeginSystemFrame].

(** [Settings::values] after the per-title overrides of lines 185-200. *)
Definition title_settings (title_id : Z) (v : Settings.Values) : Settings.Values :=
  if (title_id =? 0x0004000000068B00) || (title_id =? 0x0004000000061300)
     || (title_id =? 0x000400000004A700)
  then Settings.set_texture_load_hack false
         (Settings.set_skip_slow_draw true (Settings.set_display_transfer_hack true v))
  else v.

(** No override that was applied in [v] is undone in [v'], and the settings
    the overrides do not name are the same. *)
Definition overrides_kept (v v' : Settings.Values) : Prop :=
  other_settings v' = other_settings v
  /\ (Settings.display_transfer_hack v = true -> Settings.display_transfer_hack v' = true)
  /\ (Settings.skip_slow_draw v = true -> Settings.skip_slow_draw v' = true)
  /\ (Settings.texture_load_hack v = false -> Settings.texture_load_hack v' = false).

(** Every member an accessor dereferences is live, and so are the other
    subsystems of a session. *)
Definition all_live (s : System) : Prop :=
  memory s = true /\ is_Some (timing s) /\ is_Some (kernel s)
  /\ dsp_core s = true /\ telemetry_session s = true /\ rpc_server s = true
  /\ service_manager s = true /\ archive_manager s = true /\ cheat_engine s = true
  /\ perf_stats s = true /\ custom_tex_cache s = true.

(** The members of [System] only the lifecycle operations assign. *)
Definition session_members (s : System) :=
  (app_loader s, memory s, dsp_core s, telemetry_session s, rpc_server s,
   service_manager s, archive_manager s, cheat_engine s, perf_stats s, custom_tex_cache s,
   status s, initalized s, m_emu_window s, m_filepath s, settings s).

(** The members [Shutdown] neither releases nor assigns. *)
Definition kept_by_Shutdown (s : System) :=
  (running_core s, reschedule_pending s, reset_requested s, shutdown_requested s,
   status s, initalized s, m_emu_window s, m_filepath s, settings s).

(** The session a [Load] that succeeds leaves, for the loader of the file
    and the modes it reports. *)
Definition Loaded_system (w : EmuWindow) (path : string) (loader : AppLoader)
    (system_mode n3ds_mode : Z) (s : System) : System :=
  {| app_loader := Some loader;
     memory := true;
     timing := Some (Timing_new (num_cores (settings s)));
     kernel := Some (Kernel_SetCurrentProcess (LoadProcess loader)
                       (Init_kernel system_mode n3ds_mode s));
     cpu_cores := cpu_cores s ++ fresh_cores (settings s);
     dsp_core := true;
     telemetry_session := true;
     rpc_server := true;
     service_manager := true;
     archive_manager := true;
     cheat_engine := true;
     perf_stats := true;
     custom_tex_cache := true;
     running_core := Some 0%nat;
     reschedule_pending := reschedule_pending s;
     reset_requested := reset_requested s;
     shutdown_requested := shutdown_requested s;
     status := Success;
     initalized := true;
     m_emu_window := Some w;
     m_filepath := path;
     settings := title_settings (resolved_title_id loader) (settings s);
     log := log s ++ Init_calls ++ Load_calls (settings s) (resolved_title_id loader) |}.

End Descriptions.


(** * A concrete machine

    Collaborators simple enough to run a round on: a timer is a tick count
    and a largest slice, the kernel knows the running CPU and which CPUs have
    a current thread, an execution step leaves the timer alone. *)

Module Scenario.

Record SimpleTimer : Type := { ticks : Z; max_slice_length : Z }.

Record SimpleKernel : Type := { running_cpu : nat; has_thread : list nat }.

Definition retail_title : AppLoader :=
  {| LoadKernelSystemMode := (Some 2, Loader.Success);
     LoadKernelN3dsMode := (Some 0, Loader.Success);
     LoadProcess := Loader.Success;
     ReadProgramId := Some 0x0004000000061300 |}.

Definition plain_title : AppLoader :=
  {| LoadKernelSystemMode := (Some 2, Loader.Success);
     LoadKernelN3dsMode := (Some 0, Loader.Success);
     LoadProcess := Loader.Success;
     ReadProgramId := Some 0x0004000000030800 |}.

Definition encrypted_header : AppLoader :=
  {| LoadKernelSystemMode := (None, Loader.ErrorEncrypted);
     LoadKernelN3dsMode := (None, Loader.ErrorEncrypted);
     LoadProcess := Loader.ErrorEncrypted;
     ReadProgramId := None |}.

Definition encrypted_code : AppLoader :=
  {| LoadKernelSystemMode := (Some 2, Loader.Success);
     LoadKernelN3dsMode := (Some 0, Loader.Success);
     LoadProcess := Loader.ErrorEncrypted;
     ReadProgramId := None |}.

Definition files (path : string) : option AppLoader :=
  if String.eqb path "retail.3ds" then Some retail_title
  else if String.eqb path "plain.3ds" then Some plain_title
  else if String.eqb path "encrypted_header.3ds" then Some encrypted_header
  else if String.eqb path "encrypted_code.3ds" then Some encrypted_code
  else None.

Definition machine : Collaborators :=
  {| Timer := SimpleTimer;
     Timer_GetTicks := ticks;
     Timer_GetMaxSliceLength := max_slice_length;
     Timer_Advance := fun n t =>
       {| ticks := wrap_u64 (ticks t + n); max_slice_length := max_slice_length t |};
     Timer_Idle := fun t => t;
     MAX_SLICE_LENGTH := 20000;
     Timing_new := fun _ => {| global_timer := 0 |};
     Timing_GetTimer := fun _ => {| ticks := 0; max_slice_length := 20000 |};
     KernelSystem := SimpleKernel;
     KernelSystem_new := fun _ _ _ => {| running_cpu := 0; has_thread := [] |};
     Kernel_SetCPUs := fun _ k => k;
     Kernel_SetRunningCPU := fun i k => {| running_cpu := i; has_thread := has_thread k |};
     Kernel_CurrentThreadIsNull := fun k =>
       negb (existsb (Nat.eqb (running_cpu k)) (has_thread k));
     Kernel_ThreadManagerReschedule := fun _ k => k;
     Kernel_SetCurrentProcess := fun r k =>
       if Loader.is_Success r
       then {| running_cpu := running_cpu k; has_thread := [0%nat] |}
       else k;
     CpuState := unit;
     ARM_new := fun _ _ => tt;
     ARM_Run := fun _ st t k => (st, t, k, false);
     host_has_dynarmic := true;
     EmuWindow := unit;
     VideoCore_Init := fun _ => Success;
     GetLoader := files;
     room_member_present := false |}.

Definition default_settings : Settings.Values :=
  {| Settings.is_new_3ds := false;
     Settings.use_cpu_jit := true;
     Settings.enable_dsp_lle := false;
     Settings.enable_dsp_lle_multithread := false;
     Settings.sink_id := "auto";
     Settings.audio_device_id := "auto";
     Settings.enable_audio_stretching := true;
     Settings.custom_textures := false;
     Settings.preload_textures := false;
     Settings.display_transfer_hack := false;
     Settings.skip_slow_draw := false;
     Settings.texture_load_hack := true |}.

#[local] Existing Instance machine.

(** A system on which nothing was ever loaded. *)
Definition unloaded : @System machine :=
  {| app_loader := None; memory := false; timing := None; kernel := None;
     cpu_cores := []; dsp_core := false; telemetry_session := false;
     rpc_server := false; service_manager := false; archive_manager := false;
     cheat_engine := false; perf_stats := false; custom_tex_cache := false;
     running_core := None; reschedule_pending := false; reset_requested := false;
     shutdown_requested := false; status := Success; initalized := false;
     m_emu_window := None; m_filepath := ""; settings := default_settings; log := [] |}.

Definition core (i : nat) (t m : Z) : @ARM machine :=
  @Build_ARM machine i ARM_Dynarmic tt {| ticks := t; max_slice_length := m |}.

(** A running two-core session: the Global Clock at [g], core [i] at tick
    [ti] with largest slice [mi]; the CPUs listed in [threads] have a
    current thread. *)
Definition session (g t0 m0 t1 m1 : Z) (threads : list nat) : @System machine :=
  {| app_loader := Some plain_title; memory := true;
     timing := Some {| global_timer := g |};
     kernel := Some {| running_cpu := 0; has_thread := threads |};
     cpu_cores := [core 0 t0 m0; core 1 t1 m1];
     dsp_core := true; telemetry_session := true;
     rpc_server := true; service_manager := true; archive_manager := true;
     cheat_engine := true; perf_stats := true; custom_tex_cache := true;
     running_core := Some 0%nat; reschedule_pending := false; reset_requested := false;
     shutdown_requested := false; status := Success; initalized := true;
     m_emu_window := Some tt; m_filepath := "plain.3ds";
     settings := default_settings; log := [] |}.

(** The spec's first scenario: core 0 at tick 0, core 1 and the Global
    Clock at tick 5000. *)
Definition behind_session : @System machine :=
  session 5000 0 300 5000 150 [0%nat; 1%nat].

(** The spec's second scenario, both cores at the Global Clock: largest
    slices 300 and 150. *)
Definition level_session : @System machine :=
  session 5000 5000 300 5000 150 [0%nat; 1%nat].

(** The same with core 0 a hundred ticks behind the Global Clock. *)
Definition lagging_session : @System machine :=
  session 5000 4900 300 5000 150 [0%nat; 1%nat].

(** The same with no current thread on core 1. *)
Definition idle_session : @System machine :=
  session 5000 5000 300 5000 150 [0%nat].

(** The system after the execution phase of a round. *)
Definition after_round (s : @System machine) : @System machine :=
  match execute_round s with
  | Ok s1 => s1
  | Err _ => s
  end.

(** The system a call of [RunLoop] leaves. *)
Definition after_RunLoop (s : @System machine) : @System machine :=
  match RunLoop false s with
  | Ok (_, s') => s'
  | Err _ => s
  end.

(** The system a call of [Load] leaves. *)
Definition after_Load (path : string) (s : @System machine) : @System machine :=
  match Load tt path s with
  | Ok (_, s') => s'
  | Err _ => s
  end.

Definition behind_result : @System machine :=
  Eval vm_compute in after_RunLoop behind_session.

Definition level_round : @System machine :=
  Eval vm_compute in after_round level_session.

Definition level_result : @System machine :=
  Eval vm_compute in after_RunLoop level_session.

Definition lagging_round : @System machine :=
  Eval vm_compute in after_round lagging_session.

Definition idle_result : @System machine :=
  Eval vm_compute in after_RunLoop idle_session.

(** The level session with a shutdown requested. *)
Definition closing_session : @System machine :=
  Eval vm_compute in set_shutdown_requested true level_session.

Definition closing_round : @System machine :=
  Eval vm_compute in after_round closing_session.

(** The session a successful [Load] of plain.3ds leaves on [unloaded]. *)
Definition loaded : @System machine :=
  Eval vm_compute in after_Load "plain.3ds" unloaded.

(** That session after [Shutdown]. *)
Definition stopped : @System machine :=
  Eval vm_compute in
    match Shutdown loaded with
    | Ok s => s
    | Err _ => unloaded
    end.

(** What loading other titles leaves. *)
Definition retail_loaded : @System machine :=
  Eval vm_compute in after_Load "retail.3ds" unloaded.

Definition header_rejected : @System machine :=
  Eval vm_compute in after_Load "encrypted_header.3ds" unloaded.

Definition code_rejected : @System machine :=
  Eval vm_compute in after_Load "encrypted_code.3ds" loaded.

(** The loaded session after a second [Load] with no [Shutdown] between. *)
Definition loaded_twice : @System machine :=
  Eval vm_compute in after_Load "plain.3ds" loaded.

(** The stopped session after [Load] of plain.3ds. *)
Definition reloaded : @System machine :=
  Eval vm_compute in after_Load "plain.3ds" stopped.

(** Settings with custom textures and their preload switched on. *)
Definition texture_settings : Settings.Values :=
  {| Settings.is_new_3ds := false;
     Settings.use_cpu_jit := true;
     Settings.enable_dsp_lle := false;
     Settings.enable_dsp_lle_multithread := false;
     Settings.sink_id := "auto";
     Settings.audio_device_id := "auto";
     Settings.enable_audio_stretching := true;
     Settings.custom_textures := true;
     Settings.preload_textures := true;
     Settings.display_transfer_hack := false;
     Settings.skip_slow_draw := false;
     Settings.texture_load_hack := true |}.

Definition textured : @System machine :=
  Eval vm_compute in set_settings texture_settings unloaded.

Definition textured_loaded : @System machine :=
  Eval vm_compute in after_Load "retail.3ds" textured.

(** The level session with a reset requested, its file gone. *)
Definition orphaned_session : @System machine :=
  Eval vm_compute in set_reset_requested true (set_m_filepath "gone.3ds" level_session).

(** A title whose loader reports the system mode as read but hands out no
    value, and one whose loader hands out the New 3DS mode with an error
    status. *)
Definition headless_title : AppLoader :=
  {| LoadKernelSystemMode := (None, Loader.Success);
     LoadKernelN3dsMode := (Some 0, Loader.Success);
     LoadProcess := Loader.Success;
     ReadProgramId := None |}.

Definition odd_title : AppLoader :=
  {| LoadKernelSystemMode := (Some 2, Loader.Success);
     LoadKernelN3dsMode := (Some 0, Loader.Error 7);
     LoadProcess := Loader.Success;
     ReadProgramId := None |}.

(** The concrete machine with one title for every path. *)
Definition shelf (loader : AppLoader) : Collaborators :=
  {| Timer := @Timer machine;
     Timer_GetTicks := @Timer_GetTicks machine;
     Timer_GetMaxSliceLength := @Timer_GetMaxSliceLength machine;
     Timer_Advance := @Timer_Advance machine;
     Timer_Idle := @Timer_Idle machine;
     MAX_SLICE_LENGTH := @MAX_SLICE_LENGTH machine;
     Timing_new := @Timing_new machine;
     Timing_GetTimer := @Timing_GetTimer machine;
     KernelSystem := @KernelSystem machine;
     KernelSystem_new := @KernelSystem_new machine;
     Kernel_SetCPUs := @Kernel_SetCPUs machine;
     Kernel_SetRunningCPU := @Kernel_SetRunningCPU machine;
     Kernel_CurrentThreadIsNull := @Kernel_CurrentThreadIsNull machine;
     Kernel_ThreadManagerReschedule := @Kernel_ThreadManagerReschedule machine;
     Kernel_SetCurrentProcess := @Kernel_SetCurrentProcess machine;
     CpuState := @CpuState machine;
     ARM_new := @ARM_new machine;
     ARM_Run := @ARM_Run machine;
     host_has_dynarmic := @host_has_dynarmic machine;
     EmuWindow := @EmuWindow machine;
     VideoCore_Init := @VideoCore_Init machine;
     GetLoader := fun _ => Some loader;
     room_member_present := @room_member_present machine |}.

(** A system on which nothing was ever loaded, on any machine. *)
Definition blank (C : Collaborators) : @System C :=
  {| app_loader := None; memory := false; timing := None; kernel := None;
     cpu_cores := []; dsp_core := false; telemetry_session := false;
     rpc_server := false; service_manager := false; archive_manager := false;
     cheat_engine := false; perf_stats := false; custom_tex_cache := false;
     running_core := None; reschedule_pending := false; reset_requested := false;
     shutdown_requested := false; status := Success; initalized := false;
     m_emu_window := None; m_filepath := ""; settings := default_settings; log := [] |}.

(** A session whose Global Clock is [2^63 + 5] ticks ahead of core 0. *)
Definition far_session : @System machine :=
  session (2 ^ 63 + 5) 0 300 (2 ^ 63 + 5) 150 [0%nat; 1%nat].

(** A listed title is loaded and shut down, and an unlisted one is loaded
    after it. *)
Definition retail_stopped : @System machine :=
  Eval vm_compute in
    match Shutdown retail_loaded with
    | Ok s => s
    | Err _ => unloaded
    end.

Definition retail_then_plain : @System machine :=
  Eval vm_compute in after_Load "plain.3ds" retail_stopped.

End Scenario.


(** * Properties *)

Section Properties.

Context {C : Collaborators}.

(** ** Machine integers *)

Lemma to_s64_congruent (z : Z) : wrap_u64 (to_s64 z) = wrap_u64 z.
Proof.
  unfold wrap_u64, to_s64.
  rewrite Zminus_mod_idemp_l.
  replace (z + 2 ^ 63 - 2 ^ 63) with z by lia.
  reflexivity.
Qed.

Lemma wrap_u64_add_l (a b : Z) : wrap_u64 (wrap_u64 a + b) = wrap_u64 (a + b).
Proof. unfold wrap_u64. apply Zplus_mod_idemp_l. Qed.

Lemma wrap_u64_small (z : Z) : 0 <= z < 2 ^ 64 -> wrap_u64 z = z.
Proof. intros H. unfold wrap_u64. apply Z.mod_small. exact H. Qed.

(** ** Records *)

(** Two systems with the same members are the same system. *)
Lemma System_ext (s1 s2 : System) :
  app_loader s1 = app_loader s2 ->
  memory s1 = memory s2 ->
  timing s1 = timing s2 ->
  kernel s1 = kernel s2 ->
  cpu_cores s1 = cpu_cores s2 ->
  dsp_core s1 = dsp_core s2 ->
  telemetry_session s1 = telemetry_session s2 ->
  rpc_server s1 = rpc_server s2 ->
  service_manager s1 = service_manager s2 ->
  archive_manager s1 = archive_manager s2 ->
  cheat_engine s1 = cheat_engine s2 ->
  perf_stats s1 = perf_stats s2 ->
  custom_tex_cache s1 = custom_tex_cache s2 ->
  running_core s1 = running_core s2 ->
  reschedule_pending s1 = reschedule_pending s2 ->
  reset_requested s1 = reset_requested s2 ->
  shutdown_requested s1 = shutdown_requested s2 ->
  status s1 = status s2 ->
  initalized s1 = initalized s2 ->
  m_emu_window s1 = m_emu_window s2 ->
  m_filepath s1 = m_filepath s2 ->
  settings s1 = settings s2 ->
  log s1 = log s2 ->
  s1 = s2.
Proof. destruct s1, s2. cbn. intros. subst. reflexivity. Qed.

(** Member reads through member writes. *)
Ltac sys :=
  cbn [app_loader memory timing kernel cpu_cores dsp_core telemetry_session rpc_server
       service_manager archive_manager cheat_engine perf_stats custom_tex_cache running_core
       reschedule_pending reset_requested shutdown_requested status initalized m_emu_window
       m_filepath settings log
       set_app_loader set_memory set_timing set_kernel set_cpu_cores set_dsp_core
            set_telemetry_session set_rpc_server set_service_manager set_archive_manager
            set_cheat_engine set_perf_stats set_custom_tex_cache set_running_core
            set_reschedule_pending set_reset_requested set_shutdown_requested set_status
            set_initalized set_m_emu_window set_m_filepath set_settings set_log
       emit emit_all set_core release_all].

Ltac sys_in H :=
  cbn [app_loader memory timing kernel cpu_cores dsp_core telemetry_session rpc_server
       service_manager archive_manager cheat_engine perf_stats custom_tex_cache running_core
       reschedule_pending reset_requested shutdown_requested status initalized m_emu_window
       m_filepath settings log
       set_app_loader set_memory set_timing set_kernel set_cpu_cores set_dsp_core
            set_telemetry_session set_rpc_server set_service_manager set_archive_manager
            set_cheat_engine set_perf_stats set_custom_tex_cache set_running_core
            set_reschedule_pending set_reset_requested set_shutdown_requested set_status
            set_initalized set_m_emu_window set_m_filepath set_settings set_log
       emit emit_all set_core release_all] in H.

(** Equality of systems, member by member, up to reassociating the log. *)
Ltac system_eq :=
  apply System_ext; sys; rewrite <- ?app_assoc; try reflexivity.

Lemma emit_all_nil (s : System) : emit_all [] s = s.
Proof. system_eq. apply app_nil_r. Qed.

Lemma set_cpu_cores_same (s : System) : set_cpu_cores (cpu_cores s) s = s.
Proof. system_eq. Qed.

(** Counting calls in a log. *)
Lemma count_AddToGlobalTicks_app (l1 l2 : list Event) :
  count_AddToGlobalTicks (l1 ++ l2)
  = (count_AddToGlobalTicks l1 + count_AddToGlobalTicks l2)%nat.
Proof.
  induction l1 as [|e l1 IH]; cbn [app count_AddToGlobalTicks]; [reflexivity|].
  rewrite IH. lia.
Qed.

Ltac count_calls :=
  rewrite ?count_AddToGlobalTicks_app;
  cbn [count_AddToGlobalTicks is_AddToGlobalTicks Nat.add app].

Lemma outside_lifecycle_eq (s1 s2 : System) :
  reschedule_pending s1 = reschedule_pending s2 ->
  reset_requested s1 = reset_requested s2 ->
  shutdown_requested s1 = shutdown_requested s2 ->
  count_AddToGlobalTicks (log s1) = count_AddToGlobalTicks (log s2) ->
  outside_lifecycle s1 = outside_lifecycle s2.
Proof. unfold outside_lifecycle. intros -> -> -> ->. reflexivity. Qed.

Lemma outside_lifecycle_inv (s1 s2 : System) :
  outside_lifecycle s1 = outside_lifecycle s2 ->
  reschedule_pending s1 = reschedule_pending s2
  /\ reset_requested s1 = reset_requested s2
  /\ shutdown_requested s1 = shutdown_requested s2
  /\ count_AddToGlobalTicks (log s1) = count_AddToGlobalTicks (log s2).
Proof. unfold outside_lifecycle. intros H. injection H as H1 H2 H3 H4. auto. Qed.

Ltac lifecycle_eq :=
  apply outside_lifecycle_eq; sys; count_calls; try reflexivity; try assumption; try lia.

(** ** The first loop of RunLoop *)

Lemma catch_up_from (tm : Timing) (todo : list ARM) :
  forall (done : list ARM) (s : System) (max_delay : Z) (current : option nat),
    timing s = Some tm ->
    cpu_cores s = done ++ todo ->
    for_each_index catch_up_core (length todo) (length done) (s, max_delay, current)
    = Ok (emit_all (catch_up_events (GetGlobalTicks tm) (length done) todo)
            (set_cpu_cores (done ++ map (caught_up (GetGlobalTicks tm)) todo) s),
          fst (most_delayed (GetGlobalTicks tm) (length done) todo max_delay current),
          snd (most_delayed (GetGlobalTicks tm) (length done) todo max_delay current)).
Proof.
  induction todo as [|c rest IH]; intros done s max_delay current Htm Hcores.
  - cbn. rewrite <- Hcores, set_cpu_cores_same, emit_all_nil. reflexivity.
  - cbn [length for_each_index catch_up_events most_delayed map].
    unfold catch_up_core at 1. rewrite Htm. cbn [deref res_bind].
    unfold element at 1. rewrite Hcores, list_lookup_middle by reflexivity.
    cbn [res_bind].
    destruct (0 <? core_delay (GetGlobalTicks tm) c) eqn:Hlag.
    + unfold advance_core, element. rewrite Hcores, list_lookup_middle by reflexivity.
      cbn [res_bind].
      set (c' := with_timer _ c).
      set (s' := emit _ (set_core _ c' s)).
      assert (Hs' : cpu_cores s' = (done ++ [c']) ++ rest).
      { subst s'. sys. rewrite Hcores.
        replace (length done) with (length done + 0)%nat by lia.
        rewrite insert_app_r. cbn [insert list_insert]. rewrite <- app_assoc. reflexivity. }
      assert (Hlen : S (length done) = length (done ++ [c'])).
      { rewrite length_app. cbn. lia. }
      assert (Hc' : caught_up (GetGlobalTicks tm) c = c').
      { unfold caught_up. rewrite Hlag. reflexivity. }
      cbn [andb].
      destruct (max_delay <? core_delay (GetGlobalTicks tm) c) eqn:Hmax;
        cbn [res_bind]; rewrite Hlen, (IH (done ++ [c']) s' _ _ Htm Hs');
        rewrite Hc'; subst s'; rewrite <- Hlen;
        do 3 f_equal; system_eq.
    + cbn [andb res_bind].
      assert (Hs' : cpu_cores s = (done ++ [c]) ++ rest).
      { rewrite Hcores, <- app_assoc. reflexivity. }
      assert (Hlen : S (length done) = length (done ++ [c])).
      { rewrite length_app. cbn. lia. }
      rewrite Hlen, (IH (done ++ [c]) s _ _ Htm Hs'), <- Hlen.
      unfold caught_up. rewrite Hlag. cbn [app]. rewrite <- app_assoc. reflexivity.
Qed.

Lemma catch_up_spec (s : System) (tm : Timing) :
  timing s = Some tm ->
  catch_up s
  = Ok (emit_all (catch_up_events (GetGlobalTicks tm) 0 (cpu_cores s))
          (set_cpu_cores (map (caught_up (GetGlobalTicks tm)) (cpu_cores s)) s),
        fst (most_delayed (GetGlobalTicks tm) 0 (cpu_cores s) 0 None),
        snd (most_delayed (GetGlobalTicks tm) 0 (cpu_cores s) 0 None)).
Proof.
  intros Htm. unfold catch_up.
  exact (catch_up_from tm (cpu_cores s) [] s 0 None Htm eq_refl).
Qed.

(** What the first loop leaves in [max_delay] and [current_core_to_execute]:
    the largest delay seen, and the first core that has it. *)
Lemma most_delayed_spec (g : Z) (cores : list ARM) :
  forall (i : nat) (max_delay : Z) (current : option nat),
    0 <= max_delay ->
    max_delay <= fst (most_delayed g i cores max_delay current)
    /\ Forall (fun c => core_delay g c <= fst (most_delayed g i cores max_delay current)) cores
    /\ ((fst (most_delayed g i cores max_delay current) = max_delay
         /\ snd (most_delayed g i cores max_delay current) = current)
        \/ (max_delay < fst (most_delayed g i cores max_delay current)
            /\ exists (j : nat) (c : ARM),
                snd (most_delayed g i cores max_delay current) = Some (i + j)%nat
                /\ cores !! j = Some c
                /\ core_delay g c = fst (most_delayed g i cores max_delay current)
                /\ forall (j' : nat) (c' : ARM),
                    (j' < j)%nat -> cores !! j' = Some c' ->
                    core_delay g c' < core_delay g c)).
Proof.
  induction cores as [|c rest IH]; intros i max_delay current Hpos.
  - cbn. split; [lia|]. split; [constructor|]. left. split; reflexivity.
  - cbn [most_delayed].
    destruct (0 <? core_delay g c) eqn:Hlag; cbn [andb];
      [destruct (max_delay <? core_delay g c) eqn:Hmax|].
    + apply Z.ltb_lt in Hlag, Hmax.
      destruct (IH (S i) (core_delay g c) (Some i)) as (Hle & Hall & Hcase); [lia|].
      split; [lia|]. split; [constructor; [exact Hle | exact Hall]|].
      right. split; [lia|].
      destruct Hcase as [[Heq Hcur] | (Hlt & j & c0 & Hcur & Hj & Hd & Hfirst)].
      * exists 0%nat, c. rewrite Hcur, Heq.
        split; [f_equal; lia|]. split; [reflexivity|]. split; [reflexivity|].
        intros j' c' Hj'. lia.
      * exists (S j), c0. rewrite Hcur.
        split; [f_equal; lia|]. split; [exact Hj|]. split; [exact Hd|].
        intros [|j'] c' Hj' Hc'.
        -- cbn in Hc'. injection Hc' as <-. lia.
        -- cbn in Hc'. apply (Hfirst j' c'); [lia | exact Hc'].
    + apply Z.ltb_lt in Hlag. apply Z.ltb_ge in Hmax.
      destruct (IH (S i) max_delay current Hpos) as (Hle & Hall & Hcase).
      split; [exact Hle|]. split; [constructor; [lia | exact Hall]|].
      destruct Hcase as [[Heq Hcur] | (Hlt & j & c0 & Hcur & Hj & Hd & Hfirst)].
      * left. split; assumption.
      * right. split; [exact Hlt|]. exists (S j), c0. rewrite Hcur.
        split; [f_equal; lia|]. split; [exact Hj|]. split; [exact Hd|].
        intros [|j'] c' Hj' Hc'.
        -- cbn in Hc'. injection Hc' as <-. lia.
        -- cbn in Hc'. apply (Hfirst j' c'); [lia | exact Hc'].
    + apply Z.ltb_ge in Hlag.
      destruct (IH (S i) max_delay current Hpos) as (Hle & Hall & Hcase).
      split; [exact Hle|]. split; [constructor; [lia | exact Hall]|].
      destruct Hcase as [[Heq Hcur] | (Hlt & j & c0 & Hcur & Hj & Hd & Hfirst)].
      * left. split; assumption.
      * right. split; [exact Hlt|]. exists (S j), c0. rewrite Hcur.
        split; [f_equal; lia|]. split; [exact Hj|]. split; [exact Hd|].
        intros [|j'] c' Hj' Hc'.
        -- cbn in Hc'. injection Hc' as <-. lia.
        -- cbn in Hc'. apply (Hfirst j' c'); [lia | exact Hc'].
Qed.

(** The branch [RunLoop] takes is decided by whether some core lags by more
    than 4096 ticks. *)
Lemma most_delayed_threshold (g : Z) (cores : list ARM) :
  (4096 <? fst (most_delayed g 0 cores 0 None)) = needs_catch_up g cores.
Proof.
  destruct (most_delayed_spec g cores 0 0 None) as (Hle & Hall & Hcase); [lia|].
  unfold needs_catch_up.
  destruct (existsb _ cores) eqn:Hex.
  - apply existsb_exists in Hex. destruct Hex as (c & Hin & Hc).
    apply Z.ltb_lt in Hc. apply Z.ltb_lt.
    rewrite Forall_forall in Hall.
    specialize (Hall c). rewrite list_elem_of_In in Hall. specialize (Hall Hin). lia.
  - apply Z.ltb_ge.
    destruct Hcase as [[Heq _] | (_ & j & c & _ & Hj & Hd & _)]; [lia|].
    rewrite <- Hd.
    apply list_elem_of_lookup_2, list_elem_of_In in Hj.
    assert (Hnot : (4096 <? core_delay g c) = false).
    { destruct (4096 <? core_delay g c) eqn:E; [|reflexivity].
      assert (existsb (fun c => 4096 <? core_delay g c) cores = true)
        by (apply existsb_exists; exists c; split; assumption).
      congruence. }
    apply Z.ltb_ge in Hnot. exact Hnot.
Qed.

(** ** The Advance loop of the synchronized branch *)

Lemma advance_from (max_slice : Z) (todo : list ARM) :
  forall (done : list ARM) (s : System),
    cpu_cores s = done ++ todo ->
    for_each_index (fun i => advance_core i max_slice) (length todo) (length done) s
    = Ok (emit_all (advance_events max_slice (length done) todo)
            (set_cpu_cores (done ++ map (advanced max_slice) todo) s)).
Proof.
  induction todo as [|c rest IH]; intros done s Hcores.
  - cbn. rewrite <- Hcores, set_cpu_cores_same, emit_all_nil. reflexivity.
  - cbn [length for_each_index advance_events map].
    unfold advance_core at 1, element.
    rewrite Hcores, list_lookup_middle by reflexivity.
    cbn [res_bind].
    set (c' := with_timer _ c).
    set (s' := emit _ (set_core _ c' s)).
    assert (Hs' : cpu_cores s' = (done ++ [c']) ++ rest).
    { subst s'. sys. rewrite Hcores.
      replace (length done) with (length done + 0)%nat by lia.
      rewrite insert_app_r. cbn [insert list_insert]. rewrite <- app_assoc. reflexivity. }
    assert (Hlen : S (length done) = length (done ++ [c'])).
    { rewrite length_app. cbn. lia. }
    rewrite Hlen, (IH (done ++ [c']) s' Hs').
    subst s'. rewrite <- Hlen. f_equal. system_eq.
Qed.

(** ** Executing a core *)

Lemma map_core_id_insert (l : list ARM) (i : nat) (c c' : ARM) :
  l !! i = Some c -> core_id c' = core_id c ->
  map core_id (<[i := c']> l) = map core_id l.
Proof.
  revert i. induction l as [|x l IH]; intros [|i] Hl Hid; cbn in *; try discriminate.
  - injection Hl as ->. rewrite Hid. reflexivity.
  - f_equal. exact (IH i Hl Hid).
Qed.

Lemma execute_core_idle (s : System) (i : nat) (c : ARM) (k : KernelSystem) :
  cpu_cores s !! i = Some c ->
  kernel s = Some k ->
  Kernel_CurrentThreadIsNull (Kernel_SetRunningCPU (core_id c) k) = true ->
  execute_core i s
  = Ok (set_reschedule_pending true
          (emit_all [EvSetRunningCPU i; EvTimerIdle i; EvCorePrepareReschedule i]
             (set_core i (with_timer (Timer_Idle (timer c)) c)
                (set_kernel (Some (Kernel_SetRunningCPU (core_id c) k))
                   (set_running_core (Some i) s))))).
Proof.
  intros Hc Hk Hnull.
  unfold execute_core, element. rewrite Hc. cbn [res_bind].
  sys. rewrite Hk. cbn [deref res_bind].
  rewrite Hnull.
  unfold PrepareReschedule, element. sys. cbn [deref res_bind].
  rewrite list_lookup_insert_eq by (eapply lookup_lt_Some; exact Hc).
  cbn [res_bind]. f_equal. system_eq.
Qed.

Lemma execute_core_run (s : System) (i : nat) (c : ARM) (k k' : KernelSystem)
    (cpu' : CpuState) (timer' : Timer) (requested : bool) :
  cpu_cores s !! i = Some c ->
  kernel s = Some k ->
  Kernel_CurrentThreadIsNull (Kernel_SetRunningCPU (core_id c) k) = false ->
  ARM_Run (core_id c) (cpu c) (timer c) (Kernel_SetRunningCPU (core_id c) k)
  = (cpu', timer', k', requested) ->
  execute_core i s
  = Ok (set_reschedule_pending (reschedule_pending s || requested)
          (emit_all ([EvSetRunningCPU i; EvCoreRun i]
                       ++ (if requested then [EvCorePrepareReschedule i] else []))
             (set_core i {| core_id := core_id c; variant := variant c;
                            cpu := cpu'; timer := timer' |}
                (set_kernel (Some k') (set_running_core (Some i) s))))).
Proof.
  intros Hc Hk Hnull Hrun.
  unfold execute_core, element. rewrite Hc. cbn [res_bind].
  sys. rewrite Hk. cbn [deref res_bind].
  rewrite Hnull, Hrun.
  destruct requested.
  - unfold PrepareReschedule, element. sys. cbn [deref res_bind].
    rewrite list_lookup_insert_eq by (eapply lookup_lt_Some; exact Hc).
    cbn [res_bind]. f_equal. system_eq. symmetry. apply orb_true_r.
  - f_equal. system_eq. symmetry. apply orb_false_r.
Qed.

(** What one execution step does to the system, whichever way it goes. *)
Lemma execute_core_spec (s : System) (i : nat) (c : ARM) (k : KernelSystem) :
  cpu_cores s !! i = Some c ->
  kernel s = Some k ->
  exists (s' : System) (blk : list Event),
    execute_core i s = Ok s'
    /\ core_block i blk
    /\ log s' = log s ++ blk
    /\ outside_execution s' = outside_execution s
    /\ is_Some (kernel s')
    /\ length (cpu_cores s') = length (cpu_cores s)
    /\ map core_id (cpu_cores s') = map core_id (cpu_cores s)
    /\ running_core s' = Some i
    /\ reschedule_pending s' = reschedule_pending s || requests_reschedule blk
    /\ (forall j : nat, j <> i -> cpu_cores s' !! j = cpu_cores s !! j).
Proof.
  intros Hc Hk.
  destruct (Kernel_CurrentThreadIsNull (Kernel_SetRunningCPU (core_id c) k)) eqn:Hnull.
  - eexists _, _. split; [exact (execute_core_idle s i c k Hc Hk Hnull)|].
    split; [left; reflexivity|].
    unfold outside_execution. sys. rewrite length_insert, orb_true_r.
    rewrite (map_core_id_insert _ _ c) by (exact Hc || reflexivity).
    repeat split; eauto.
    intros j Hj. apply list_lookup_insert_ne. congruence.
  - destruct (ARM_Run (core_id c) (cpu c) (timer c) (Kernel_SetRunningCPU (core_id c) k))
      as [[[cpu' timer'] k'] requested] eqn:Hrun.
    eexists _, ([EvSetRunningCPU i; EvCoreRun i]
                  ++ (if requested then [EvCorePrepareReschedule i] else [])).
    split; [exact (execute_core_run s i c k k' cpu' timer' requested Hc Hk Hnull Hrun)|].
    split; [destruct requested; [right; right | right; left]; reflexivity|].
    unfold outside_execution. sys. rewrite length_insert.
    rewrite (map_core_id_insert _ _ c) by (exact Hc || reflexivity).
    repeat split; eauto.
    + destruct requested; cbn; [rewrite orb_true_r | rewrite orb_false_r]; reflexivity.
    + intros j Hj. apply list_lookup_insert_ne. congruence.
Qed.

Lemma requests_reschedule_app (l1 l2 : list Event) :
  requests_reschedule (l1 ++ l2) = requests_reschedule l1 || requests_reschedule l2.
Proof. apply existsb_app. Qed.

(** ** The execution loop of the synchronized branch *)

Lemma execute_cores_from (n : nat) :
  forall (i : nat) (s : System) (k : KernelSystem),
    kernel s = Some k ->
    (i + n <= length (cpu_cores s))%nat ->
    exists (s' : System) (blocks : list (list Event)),
      for_each_index execute_core n i s = Ok s'
      /\ Forall2 core_block (seq i n) blocks
      /\ log s' = log s ++ concat blocks
      /\ outside_execution s' = outside_execution s
      /\ is_Some (kernel s')
      /\ length (cpu_cores s') = length (cpu_cores s)
      /\ map core_id (cpu_cores s') = map core_id (cpu_cores s)
      /\ reschedule_pending s' = reschedule_pending s || requests_reschedule (concat blocks).
Proof.
  induction n as [|n IH]; intros i s k Hk Hlen.
  - exists s, []. cbn [for_each_index seq concat requests_reschedule existsb].
    rewrite app_nil_r, orb_false_r. repeat split; eauto; constructor.
  - destruct (lookup_lt_is_Some_2 (cpu_cores s) i) as [c Hc]; [lia|].
    destruct (execute_core_spec s i c k Hc Hk)
      as (s1 & blk & Hexec & Hblk & Hlog & Hout & [k1 Hk1] & Hl1 & Hids & _ & Hpend & _).
    destruct (IH (S i) s1 k1 Hk1) as (s2 & blocks & Hloop & Hb & Hlog2 & Hout2 & Hk2 & Hl2 & Hids2 & Hpend2);
      [lia|].
    exists s2, (blk :: blocks).
    cbn [for_each_index]. rewrite Hexec. cbn [res_bind].
    split; [exact Hloop|].
    split; [cbn [seq]; constructor; assumption|].
    split; [cbn [concat]; rewrite Hlog2, Hlog, <- app_assoc; reflexivity|].
    split; [congruence|].
    split; [exact Hk2|].
    split; [congruence|].
    split; [congruence|].
    cbn [concat]. rewrite Hpend2, Hpend, requests_reschedule_app, orb_assoc. reflexivity.
Qed.

Lemma execute_round_synchronized (s : System) (tm : Timing) (k : KernelSystem) :
  timing s = Some tm ->
  kernel s = Some k ->
  needs_catch_up (GetGlobalTicks tm) (cpu_cores s) = false ->
  exists (s2 : System) (blocks : list (list Event)),
    for_each_index (fun i => advance_core i (round_max_slice tm s))
      (length (cpu_cores s)) 0 (after_catch_up tm s) = Ok (before_execution tm s)
    /\ for_each_index execute_core (length (cpu_cores s)) 0 (before_execution tm s) = Ok s2
    /\ Forall2 core_block (seq 0 (length (cpu_cores s))) blocks
    /\ log s2 = log (before_execution tm s) ++ concat blocks
    /\ outside_execution s2 = outside_execution s
    /\ is_Some (kernel s2)
    /\ map core_id (cpu_cores s2) = map core_id (cpu_cores s)
    /\ reschedule_pending s2 = reschedule_pending s || requests_reschedule (concat blocks)
    /\ execute_round s
       = Ok (emit (EvAddToGlobalTicks (round_max_slice tm s))
               (set_timing (Some (AddToGlobalTicks (round_max_slice tm s) tm)) s2)).
Proof.
  intros Htm Hk Hsync.
  set (s0 := after_catch_up tm s).
  assert (Hadv : for_each_index (fun i => advance_core i (round_max_slice tm s))
                   (length (cpu_cores s0)) 0 s0 = Ok (before_execution tm s)).
  { pose proof (advance_from (round_max_slice tm s) (cpu_cores s0) [] s0 eq_refl) as Hx.
    cbn [app length] in Hx. rewrite Hx.
    subst s0. unfold before_execution, after_catch_up, round_max_slice.
    f_equal. system_eq. }
  assert (Hlen0 : length (cpu_cores s0) = length (cpu_cores s)).
  { subst s0. unfold after_catch_up. sys. apply length_map. }
  assert (Hlen1 : length (cpu_cores (before_execution tm s)) = length (cpu_cores s)).
  { unfold before_execution. sys. rewrite !length_map. reflexivity. }
  destruct (execute_cores_from (length (cpu_cores s)) 0 (before_execution tm s) k)
    as (s2 & blocks & Hloop & Hb & Hlog & Hout & Hk2 & Hl2 & Hids & Hpend);
    [exact Hk | rewrite Hlen1; lia |].
  exists s2, blocks.
  split; [rewrite <- Hlen0; exact Hadv|].
  split; [exact Hloop|]. split; [exact Hb|]. split; [exact Hlog|].
  split; [rewrite Hout; reflexivity|].
  split; [exact Hk2|].
  split.
  { rewrite Hids. unfold before_execution. sys. rewrite !map_map. apply map_ext. intros c.
    unfold advanced, caught_up. destruct (0 <? _); reflexivity. }
  split; [exact Hpend|].
  unfold execute_round. rewrite (catch_up_spec s tm Htm). cbn [res_bind].
  rewrite (most_delayed_threshold (GetGlobalTicks tm) (cpu_cores s)), Hsync.
  fold (after_catch_up tm s). fold s0. unfold synchronized_round.
  change (compute_max_slice (cpu_cores s0)) with (round_max_slice tm s).
  rewrite Hadv. cbn [res_bind]. rewrite Hlen1, Hloop. cbn [res_bind].
  assert (Htm2 : timing s2 = Some tm).
  { unfold outside_execution in Hout. injection Hout as _ _ Ht. rewrite Ht. exact Htm. }
  rewrite Htm2. reflexivity.
Qed.

Lemma execute_round_catch_up (s : System) (tm : Timing) :
  timing s = Some tm ->
  needs_catch_up (GetGlobalTicks tm) (cpu_cores s) = true ->
  exists (i : nat) (c : ARM),
    cpu_cores s !! i = Some c
    /\ 4096 < core_delay (GetGlobalTicks tm) c
    /\ Forall (fun c' => core_delay (GetGlobalTicks tm) c' <= core_delay (GetGlobalTicks tm) c)
         (cpu_cores s)
    /\ (forall (j : nat) (c' : ARM),
          (j < i)%nat -> cpu_cores s !! j = Some c' ->
          core_delay (GetGlobalTicks tm) c' < core_delay (GetGlobalTicks tm) c)
    /\ execute_round s = execute_core i (after_catch_up tm s).
Proof.
  intros Htm Hlag.
  set (g := GetGlobalTicks tm) in *.
  pose proof (most_delayed_threshold g (cpu_cores s)) as Hthr. rewrite Hlag in Hthr.
  destruct (most_delayed_spec g (cpu_cores s) 0 0 None) as (_ & Hall & Hcase); [lia|].
  apply Z.ltb_lt in Hthr.
  destruct Hcase as [[Heq _] | (_ & j & c & Hcur & Hj & Hd & Hfirst)]; [lia|].
  exists j, c.
  split; [exact Hj|]. split; [lia|].
  split; [rewrite Hd; exact Hall|].
  split; [exact Hfirst|].
  unfold execute_round. rewrite (catch_up_spec s tm Htm). cbn [res_bind].
  fold g. apply Z.ltb_lt in Hthr. rewrite Hthr, Hcur. reflexivity.
Qed.

(** ** Reschedule *)

Lemma set_kernel_same (s : System) (k : KernelSystem) :
  kernel s = Some k -> set_kernel (Some k) s = s.
Proof. intros H. system_eq. symmetry. exact H. Qed.

Lemma Reschedule_cores_spec (cores : list ARM) :
  forall (s : System) (k : KernelSystem),
    kernel s = Some k ->
    Reschedule_cores cores s
    = Ok (emit_all (reschedule_events cores)
            (set_kernel (Some (rescheduled_kernel cores k)) s)).
Proof.
  induction cores as [|c rest IH]; intros s k Hk.
  - cbn. rewrite (set_kernel_same s k Hk), emit_all_nil. reflexivity.
  - cbn [Reschedule_cores]. unfold Reschedule_core. rewrite Hk. cbn [deref res_bind].
    match goal with
    | |- context [Reschedule_cores rest ?x] =>
        rewrite (IH x (Kernel_ThreadManagerReschedule (core_id c) k) eq_refl)
    end.
    f_equal. system_eq.
Qed.

Lemma Reschedule_pending (s : System) (k : KernelSystem) :
  reschedule_pending s = true ->
  kernel s = Some k ->
  Reschedule s
  = Ok (emit_all (reschedule_events (cpu_cores s))
          (set_kernel (Some (rescheduled_kernel (cpu_cores s) k))
             (set_reschedule_pending false s))).
Proof.
  intros Hp Hk. unfold Reschedule. rewrite Hp. cbn [negb].
  exact (Reschedule_cores_spec (cpu_cores s) (set_reschedule_pending false s) k Hk).
Qed.

Lemma Reschedule_not_pending (s : System) :
  reschedule_pending s = false -> Reschedule s = Ok s.
Proof. intros Hp. unfold Reschedule. rewrite Hp. reflexivity. Qed.

(** C8. [PrepareReschedule] forwards the request to the running core and
    raises [reschedule_pending]; [Reschedule] does nothing when no request is
    pending, and otherwise lowers the flag and has the thread manager of every
    core of [cpu_cores], in order, reschedule. *)
Theorem C8_reschedule_coordinator (s : System) :
  (forall (i : nat) (c : ARM),
      running_core s = Some i -> cpu_cores s !! i = Some c ->
      PrepareReschedule s
      = Ok (set_reschedule_pending true (emit (EvCorePrepareReschedule i) s)))
  /\ (reschedule_pending s = false -> Reschedule s = Ok s)
  /\ (forall k : KernelSystem,
        reschedule_pending s = true -> kernel s = Some k ->
        exists s' : System,
          Reschedule s = Ok s'
          /\ reschedule_pending s' = false
          /\ log s' = log s ++ map (fun c => EvThreadManagerReschedule (core_id c)) (cpu_cores s)
          /\ kernel s'
             = Some (fold_left (fun k c => Kernel_ThreadManagerReschedule (core_id c) k)
                       (cpu_cores s) k)
          /\ cpu_cores s' = cpu_cores s
          /\ outside_execution s' = outside_execution s
          /\ running_core s' = running_core s).
Proof.
  split; [|split].
  - intros i c Hrun Hc. unfold PrepareReschedule, element.
    rewrite Hrun. cbn [deref res_bind]. rewrite Hc. reflexivity.
  - apply Reschedule_not_pending.
  - intros k Hp Hk. eexists. split; [exact (Reschedule_pending s k Hp Hk)|].
    unfold outside_execution. sys. repeat split.
Qed.

(** ** Shutdown *)

Lemma Shutdown_returns (s : System) (tm : Timing) :
  perf_stats s = true -> timing s = Some tm -> telemetry_session s = true ->
  Shutdown s = Ok (emit_all Shutdown_calls (release_all s)).
Proof.
  intros Hp Ht Htel. unfold Shutdown, GetAndResetPerfStats.
  rewrite Hp, Ht. cbn [live deref res_bind]. sys.
  rewrite Htel. cbn [live res_bind]. unfold Shutdown_calls, Shutdown_fields.
  destruct room_member_present; f_equal; system_eq.
Qed.

Lemma Shutdown_inv (s s' : System) :
  Shutdown s = Ok s' ->
  perf_stats s = true /\ is_Some (timing s) /\ telemetry_session s = true
  /\ s' = emit_all Shutdown_calls (release_all s).
Proof.
  intros H.
  assert (Hp : perf_stats s = true).
  { unfold Shutdown, GetAndResetPerfStats in H. destruct (perf_stats s); [reflexivity|].
    discriminate H. }
  assert (Ht : is_Some (timing s)).
  { unfold Shutdown, GetAndResetPerfStats in H. rewrite Hp in H. cbn [live res_bind] in H.
    destruct (timing s); [eauto|]. discriminate H. }
  assert (Htel : telemetry_session s = true).
  { destruct Ht as [tm Ht]. unfold Shutdown, GetAndResetPerfStats in H.
    rewrite Hp, Ht in H. cbn [live deref res_bind] in H. sys_in H.
    destruct (telemetry_session s); [reflexivity|].
    discriminate H. }
  destruct Ht as [tm Ht].
  rewrite (Shutdown_returns s tm Hp Ht Htel) in H. injection H as <-. eauto.
Qed.

Lemma Shutdown_releases (s s' : System) : Shutdown s = Ok s' -> all_released s'.
Proof.
  intros H. apply Shutdown_inv in H. destruct H as (_ & _ & _ & ->).
  unfold all_released. sys. repeat split.
Qed.

(** [Shutdown] starts by dereferencing [perf_stats]. *)
Lemma Shutdown_without_perf_stats (s : System) :
  perf_stats s = false -> Shutdown s = Err NullDeref.
Proof.
  intros H. unfold Shutdown, GetAndResetPerfStats. rewrite H. reflexivity.
Qed.

(** ** Init and Load *)

Lemma is_Success_true (r : ResultStatus) : is_Success r = true <-> r = Success.
Proof. destruct r; cbn; split; congruence. Qed.

Lemma Init_result (w : EmuWindow) (m n : Z) (s : System) :
  fst (Init w m n s) = VideoCore_Init w.
Proof.
  unfold Init. destruct (is_Success (VideoCore_Init w)) eqn:E; cbn [negb fst].
  - apply is_Success_true in E. congruence.
  - reflexivity.
Qed.

(** [Init] builds the clock, the kernel and the telemetry session, and leaves
    [perf_stats], the loader, the settings and the scheduling flags alone. *)
Lemma Init_state (w : EmuWindow) (m n : Z) (s : System) :
  telemetry_session (snd (Init w m n s)) = true
  /\ is_Some (kernel (snd (Init w m n s)))
  /\ is_Some (timing (snd (Init w m n s)))
  /\ perf_stats (snd (Init w m n s)) = perf_stats s
  /\ app_loader (snd (Init w m n s)) = app_loader s
  /\ settings (snd (Init w m n s)) = settings s
  /\ reschedule_pending (snd (Init w m n s)) = reschedule_pending s
  /\ reset_requested (snd (Init w m n s)) = reset_requested s
  /\ shutdown_requested (snd (Init w m n s)) = shutdown_requested s
  /\ status (snd (Init w m n s)) = status s
  /\ count_AddToGlobalTicks (log (snd (Init w m n s))) = count_AddToGlobalTicks (log s).
Proof.
  unfold Init.
  destruct (is_Success (VideoCore_Init w)); cbn [negb snd]; sys; count_calls;
    repeat split; eauto; lia.
Qed.

Lemma Load_no_loader (w : EmuWindow) (path : string) (s : System) :
  GetLoader path = None ->
  Load w path s = Ok (ErrorGetLoader, set_app_loader None s).
Proof. intros H. unfold Load. sys. rewrite H. reflexivity. Qed.

Lemma Load_system_mode_failure (w : EmuWindow) (path : string) (s : System)
    (loader : AppLoader) :
  GetLoader path = Some loader ->
  Loader.is_Success (snd (LoadKernelSystemMode loader)) = false ->
  Load w path s
  = Ok (system_mode_error (snd (LoadKernelSystemMode loader)),
        set_app_loader (Some loader) s).
Proof.
  intros H Hm. unfold Load. sys. rewrite H, Hm. reflexivity.
Qed.

Lemma Load_Init_failure (w : EmuWindow) (path : string) (s : System)
    (loader : AppLoader) (m n : Z) :
  GetLoader path = Some loader ->
  Loader.is_Success (snd (LoadKernelSystemMode loader)) = true ->
  fst (LoadKernelSystemMode loader) = Some m ->
  fst (LoadKernelN3dsMode loader) = Some n ->
  is_Success (VideoCore_Init w) = false ->
  Load w path s
  = do s' <- Shutdown (snd (Init w m n (set_app_loader (Some loader) s))) ;
    Ok (VideoCore_Init w, s').
Proof.
  intros H Hs Hm Hn Hv. unfold Load. sys.
  rewrite H, Hs, Hm, Hn. cbn [negb ASSERT_value res_bind].
  pose proof (Init_result w m n (set_app_loader (Some loader) s)) as Hr.
  destruct (Init w m n (set_app_loader (Some loader) s)) as [r s1]. cbn [fst snd] in *.
  subst r. rewrite Hv. reflexivity.
Qed.

Lemma Load_process_failure (w : EmuWindow) (path : string) (s : System)
    (loader : AppLoader) (m n : Z) :
  GetLoader path = Some loader ->
  Loader.is_Success (snd (LoadKernelSystemMode loader)) = true ->
  fst (LoadKernelSystemMode loader) = Some m ->
  fst (LoadKernelN3dsMode loader) = Some n ->
  is_Success (VideoCore_Init w) = true ->
  Loader.is_Success (LoadProcess loader) = false ->
  exists k : KernelSystem,
    kernel (snd (Init w m n (set_app_loader (Some loader) s))) = Some k
    /\ Load w path s
       = do s' <- Shutdown (process_load_failed w m n loader s k) ;
         Ok (load_error (LoadProcess loader), s').
Proof.
  intros H Hs Hm Hn Hv Hl.
  destruct (Init_state w m n (set_app_loader (Some loader) s)) as (Htel & [k Hk] & _).
  exists k. split; [exact Hk|].
  unfold Load, process_load_failed. sys.
  rewrite H, Hs, Hm, Hn. cbn [negb ASSERT_value res_bind].
  pose proof (Init_result w m n (set_app_loader (Some loader) s)) as Hr.
  destruct (Init w m n (set_app_loader (Some loader) s)) as [r s1]. cbn [fst snd] in *.
  subst r. rewrite Hv. cbn [negb]. rewrite Htel. cbn [live res_bind].
  sys. rewrite Hk. cbn [deref res_bind]. rewrite Hl. reflexivity.
Qed.

Lemma Init_frame (w : EmuWindow) (m n : Z) (s : System) :
  outside_lifecycle (snd (Init w m n s)) = outside_lifecycle s.
Proof.
  destruct (Init_state w m n s) as (_ & _ & _ & _ & _ & _ & Hp & Hr & Hs & _ & Hc).
  apply outside_lifecycle_eq; assumption.
Qed.

Lemma apply_title_overrides_frame (id : Z) (s : System) :
  perf_stats (apply_title_overrides id s) = perf_stats s
  /\ timing (apply_title_overrides id s) = timing s
  /\ app_loader (apply_title_overrides id s) = app_loader s
  /\ status (apply_title_overrides id s) = status s
  /\ outside_lifecycle (apply_title_overrides id s) = outside_lifecycle s.
Proof.
  unfold apply_title_overrides.
  destruct (_ || _); [sys; repeat split|].
  destruct (id =? _); sys; repeat split; lifecycle_eq.
Qed.

Lemma Load_success (w : EmuWindow) (path : string) (s : System)
    (loader : AppLoader) (m n : Z) :
  GetLoader path = Some loader ->
  Loader.is_Success (snd (LoadKernelSystemMode loader)) = true ->
  fst (LoadKernelSystemMode loader) = Some m ->
  fst (LoadKernelN3dsMode loader) = Some n ->
  is_Success (VideoCore_Init w) = true ->
  Loader.is_Success (LoadProcess loader) = true ->
  exists (s0 s' : System),
    Load w path s = Ok (Success, s')
    /\ settings s0 = settings s
    /\ settings s' = settings (apply_title_overrides (resolved_title_id loader) s0)
    /\ app_loader s' = Some loader
    /\ perf_stats s' = true
    /\ outside_lifecycle s' = outside_lifecycle s.
Proof.
  intros H Hs Hm Hn Hv Hl.
  destruct (Init_state w m n (set_app_loader (Some loader) s))
    as (Htel & [k Hk] & [tm Htm] & _ & Hal & Hset & _).
  pose proof (Init_frame w m n (set_app_loader (Some loader) s)) as Hframe.
  unfold Load. sys.
  rewrite H, Hs, Hm, Hn. cbn [negb ASSERT_value res_bind].
  pose proof (Init_result w m n (set_app_loader (Some loader) s)) as Hr.
  destruct (Init w m n (set_app_loader (Some loader) s)) as [r s1]. cbn [fst snd] in *.
  subst r. rewrite Hv. cbn [negb]. rewrite Htel. cbn [live res_bind].
  sys. rewrite Hk. cbn [deref res_bind]. rewrite Hl. cbn [negb].
  match goal with
  | |- context [apply_title_overrides ?id ?x] =>
      set (s0 := x);
      destruct (apply_title_overrides_frame id s0) as (Hp & Ht & Ha & Hst & Hout)
  end.
  assert (Hs0 : perf_stats s0 = true /\ timing s0 = Some tm /\ status s0 = Success
                /\ settings s0 = settings s /\ app_loader s0 = Some loader
                /\ outside_lifecycle s0 = outside_lifecycle s).
  { clear Hp Ht Ha Hst Hout. subst s0.
    apply outside_lifecycle_inv in Hframe. destruct Hframe as (Hf1 & Hf2 & Hf3 & Hf4).
    sys_in Hal. sys_in Hset. sys_in Hf1. sys_in Hf2. sys_in Hf3. sys_in Hf4.
    destruct (Settings.custom_textures _), (Settings.preload_textures _); sys;
      repeat split; try assumption; lifecycle_eq. }
  destruct Hs0 as (Hp0 & Ht0 & Hst0 & Hset0 & Ha0 & Hout0).
  exists s0. eexists.
  unfold GetAndResetPerfStats. rewrite Hp, Ht, Hp0, Ht0. cbn [live deref res_bind].
  sys. rewrite Hp, Hp0. cbn [live res_bind]. sys. rewrite Hst, Hst0.
  split; [reflexivity|].
  sys. rewrite Ha, Hp, <- Hout0, <- Hout.
  repeat split; try assumption. lifecycle_eq.
Qed.

Lemma Load_assert_failure (w : EmuWindow) (path : string) (s : System) (loader : AppLoader) :
  GetLoader path = Some loader ->
  Loader.is_Success (snd (LoadKernelSystemMode loader)) = true ->
  fst (LoadKernelSystemMode loader) = None \/ fst (LoadKernelN3dsMode loader) = None ->
  Load w path s = Err AssertFailed.
Proof.
  intros H Hs Hnone. unfold Load. sys. rewrite H, Hs.
  cbn [negb].
  destruct (fst (LoadKernelSystemMode loader)) as [m|]; [|reflexivity].
  destruct Hnone as [Hm | Hn]; [discriminate Hm|]. rewrite Hn. reflexivity.
Qed.

Lemma Load_paths (w : EmuWindow) (path : string) (s : System) : LoadPath w path s.
Proof.
  destruct (GetLoader path) as [loader|] eqn:H; [|apply NoLoader; exact H].
  destruct (Loader.is_Success (snd (LoadKernelSystemMode loader))) eqn:Hs;
    [|eapply SystemModeFailure; eassumption].
  destruct (fst (LoadKernelSystemMode loader)) as [m|] eqn:Hm;
    [|eapply ModeAssertFailure; eauto].
  destruct (fst (LoadKernelN3dsMode loader)) as [n|] eqn:Hn;
    [|eapply ModeAssertFailure; eauto].
  destruct (is_Success (VideoCore_Init w)) eqn:Hv; [|eapply InitFailure; eassumption].
  destruct (Loader.is_Success (LoadProcess loader)) eqn:Hl;
    [eapply Loaded | eapply ProcessFailure]; eassumption.
Qed.

Lemma system_mode_error_not_Success (r : Loader.ResultStatus) :
  system_mode_error r <> Success.
Proof. destruct r; discriminate. Qed.

Lemma load_error_not_Success (r : Loader.ResultStatus) : load_error r <> Success.
Proof. destruct r; discriminate. Qed.

Lemma Load_Success_inv (w : EmuWindow) (path : string) (s s' : System) :
  Load w path s = Ok (Success, s') ->
  exists (loader : AppLoader) (m n : Z),
    GetLoader path = Some loader
    /\ Loader.is_Success (snd (LoadKernelSystemMode loader)) = true
    /\ fst (LoadKernelSystemMode loader) = Some m
    /\ fst (LoadKernelN3dsMode loader) = Some n
    /\ is_Success (VideoCore_Init w) = true
    /\ Loader.is_Success (LoadProcess loader) = true.
Proof.
  intros HL.
  destruct (Load_paths w path s) as [H | loader H Hs | loader H Hs Hnone
    | loader m n H Hs Hm Hn Hv | loader m n H Hs Hm Hn Hv Hl | loader m n H Hs Hm Hn Hv Hl].
  - rewrite (Load_no_loader w path s H) in HL. discriminate HL.
  - rewrite (Load_system_mode_failure w path s loader H Hs) in HL.
    injection HL as HL _. exfalso. exact (system_mode_error_not_Success _ HL).
  - rewrite (Load_assert_failure w path s loader H Hs Hnone) in HL. discriminate HL.
  - rewrite (Load_Init_failure w path s loader m n H Hs Hm Hn Hv) in HL.
    destruct (Shutdown _); cbn [res_bind] in HL; [|discriminate HL].
    injection HL as HL _. rewrite HL in Hv. discriminate Hv.
  - destruct (Load_process_failure w path s loader m n H Hs Hm Hn Hv Hl) as (k & _ & HL').
    rewrite HL' in HL.
    destruct (Shutdown _); cbn [res_bind] in HL; [|discriminate HL].
    injection HL as HL _. exfalso. exact (load_error_not_Success _ HL).
  - exists loader, m, n. repeat split; assumption.
Qed.

(** C3, as the code has it.  A [Load] that returns a failure after [Init] ran
    has called [Shutdown] first, and every owning member, the loader
    included, is then null.  A [Load] that fails before [Init] (no loader, or
    no system mode) returns at once: [Shutdown] is not called, and the system
    is as it was but for [app_loader], which holds what [GetLoader] gave. *)
Theorem C3_failed_Load_cleanup (w : EmuWindow) (path : string) (s s' : System)
    (r : ResultStatus) :
  Load w path s = Ok (r, s') ->
  r <> Success ->
  ((GetLoader path = None
    \/ exists loader : AppLoader,
         GetLoader path = Some loader
         /\ Loader.is_Success (snd (LoadKernelSystemMode loader)) = false)
   /\ s' = set_app_loader (GetLoader path) s)
  \/ (exists (loader : AppLoader) (m n : Z) (s1 : System),
        GetLoader path = Some loader
        /\ fst (LoadKernelSystemMode loader) = Some m
        /\ fst (LoadKernelN3dsMode loader) = Some n
        /\ log s1 = log (snd (Init w m n (set_app_loader (Some loader) s)))
                     ++ (if is_Success (VideoCore_Init w)
                         then [EvTelemetryAddInitialInfo; EvLoaderLoad; EvSetCurrentProcess]
                         else [])
        /\ Shutdown s1 = Ok s'
        /\ all_released s').
Proof.
  intros HL Hr.
  destruct (Load_paths w path s) as [H | loader H Hs | loader H Hs Hnone
    | loader m n H Hs Hm Hn Hv | loader m n H Hs Hm Hn Hv Hl | loader m n H Hs Hm Hn Hv Hl].
  - left. rewrite (Load_no_loader w path s H) in HL. injection HL as _ <-.
    rewrite H. split; [left|]; reflexivity.
  - left. rewrite (Load_system_mode_failure w path s loader H Hs) in HL.
    injection HL as _ <-. rewrite H.
    split; [right; exists loader; split; [reflexivity | assumption]|].
    reflexivity.
  - rewrite (Load_assert_failure w path s loader H Hs Hnone) in HL. discriminate HL.
  - right. rewrite (Load_Init_failure w path s loader m n H Hs Hm Hn Hv) in HL.
    destruct (Shutdown _) as [s2|] eqn:Hsh; cbn [res_bind] in HL; [|discriminate HL].
    injection HL as _ <-.
    eexists loader, m, n, _. rewrite Hv, app_nil_r.
    repeat (split; [eassumption || reflexivity|]).
    exact (Shutdown_releases _ _ Hsh).
  - right.
    destruct (Load_process_failure w path s loader m n H Hs Hm Hn Hv Hl) as (k & Hk & HL').
    rewrite HL' in HL.
    destruct (Shutdown _) as [s2|] eqn:Hsh; cbn [res_bind] in HL; [|discriminate HL].
    injection HL as _ <-.
    eexists loader, m, n, _. rewrite Hv.
    split; [exact H|]. split; [exact Hm|]. split; [exact Hn|].
    split; [|split; [exact Hsh | exact (Shutdown_releases _ _ Hsh)]].
    unfold process_load_failed. sys. rewrite <- !app_assoc. reflexivity.
  - destruct (Load_success w path s loader m n H Hs Hm Hn Hv Hl) as (s0 & s2 & HL' & _).
    rewrite HL' in HL. injection HL as <- _. contradiction.
Qed.

(** C4, on the code.  A [Shutdown] that ran to its end leaves [perf_stats]
    null, and [Shutdown] starts by dereferencing it: a second call in
    succession is a null dereference. *)
Theorem C4_second_Shutdown_faults (s s' : System) :
  Shutdown s = Ok s' -> Shutdown s' = Err NullDeref.
Proof.
  intros H. apply Shutdown_without_perf_stats.
  destruct (Shutdown_releases s s' H) as (_ & _ & _ & _ & _ & _ & _ & _ & _ & _ & _ & Hp & _).
  exact Hp.
Qed.

(** The same on a partially initialized system: [Init] does not create
    [perf_stats], so a [Shutdown] right after it faults unless an earlier
    session left [perf_stats] behind. *)
Lemma Shutdown_after_Init_faults (w : EmuWindow) (m n : Z) (s : System) :
  perf_stats s = false -> Shutdown (snd (Init w m n s)) = Err NullDeref.
Proof.
  intros H. apply Shutdown_without_perf_stats.
  destruct (Init_state w m n s) as (_ & _ & _ & Hp & _). congruence.
Qed.

(** C7, on the code.  When the loader fails to materialize the process after
    [Init], [Load] calls [Shutdown] before it maps the failure; with
    [perf_stats] null (it is created only further down in [Load]) that call
    is a null dereference, and no result kind is returned. *)
Theorem C7_process_failure_faults (w : EmuWindow) (path : string) (s : System)
    (loader : AppLoader) (m n : Z) :
  perf_stats s = false ->
  GetLoader path = Some loader ->
  Loader.is_Success (snd (LoadKernelSystemMode loader)) = true ->
  fst (LoadKernelSystemMode loader) = Some m ->
  fst (LoadKernelN3dsMode loader) = Some n ->
  is_Success (VideoCore_Init w) = true ->
  Loader.is_Success (LoadProcess loader) = false ->
  Load w path s = Err NullDeref.
Proof.
  intros Hp H Hs Hm Hn Hv Hl.
  destruct (Load_process_failure w path s loader m n H Hs Hm Hn Hv Hl) as (k & Hk & HL).
  rewrite HL, Shutdown_without_perf_stats; [reflexivity|].
  unfold process_load_failed. sys.
  destruct (Init_state w m n (set_app_loader (Some loader) s)) as (_ & _ & _ & Hp' & _).
  rewrite Hp'. exact Hp.
Qed.

(** X1. On every path on which [Load] returns, the result kind is the one
    the failure maps to: [ErrorGetLoader] without a loader; the encrypted,
    invalid-format or [ErrorSystemMode] kind when the system mode cannot be
    read; what [VideoCore::Init] reported when [Init] fails; the encrypted,
    invalid-format or [ErrorLoader] kind when the process cannot be
    materialized; and [Success] otherwise. *)
Theorem Load_failure_kinds (w : EmuWindow) (path : string) (s s' : System) (r : ResultStatus) :
  Load w path s = Ok (r, s') ->
  match GetLoader path with
  | None => r = ErrorGetLoader
  | Some loader =>
      match snd (LoadKernelSystemMode loader) with
      | Loader.Success =>
          if is_Success (VideoCore_Init w)
          then match LoadProcess loader with
               | Loader.Success => r = Success
               | Loader.ErrorEncrypted => r = ErrorLoader_ErrorEncrypted
               | Loader.ErrorInvalidFormat => r = ErrorLoader_ErrorInvalidFormat
               | Loader.Error _ => r = ErrorLoader
               end
          else r = VideoCore_Init w
      | Loader.ErrorEncrypted => r = ErrorLoader_ErrorEncrypted
      | Loader.ErrorInvalidFormat => r = ErrorLoader_ErrorInvalidFormat
      | Loader.Error _ => r = ErrorSystemMode
      end
  end.
Proof.
  intros HL.
  destruct (Load_paths w path s) as [H | loader H Hs | loader H Hs Hnone
    | loader m n H Hs Hm Hn Hv | loader m n H Hs Hm Hn Hv Hl | loader m n H Hs Hm Hn Hv Hl];
    rewrite H.
  - rewrite (Load_no_loader w path s H) in HL. injection HL as <- _. reflexivity.
  - rewrite (Load_system_mode_failure w path s loader H Hs) in HL. injection HL as <- _.
    destruct (snd (LoadKernelSystemMode loader)); try reflexivity. discriminate Hs.
  - rewrite (Load_assert_failure w path s loader H Hs Hnone) in HL. discriminate HL.
  - rewrite (Load_Init_failure w path s loader m n H Hs Hm Hn Hv) in HL.
    destruct (Shutdown _); cbn [res_bind] in HL; [|discriminate HL].
    injection HL as <- _. rewrite Hv.
    destruct (snd (LoadKernelSystemMode loader)); try discriminate Hs. reflexivity.
  - destruct (Load_process_failure w path s loader m n H Hs Hm Hn Hv Hl) as (k & _ & HL').
    rewrite HL' in HL.
    destruct (Shutdown _); cbn [res_bind] in HL; [|discriminate HL].
    injection HL as <- _. rewrite Hv.
    destruct (snd (LoadKernelSystemMode loader)); try discriminate Hs.
    destruct (LoadProcess loader); try reflexivity. discriminate Hl.
  - destruct (Load_success w path s loader m n H Hs Hm Hn Hv Hl) as (s0 & s2 & HL' & _).
    rewrite HL' in HL. injection HL as <- _. rewrite Hv.
    destruct (snd (LoadKernelSystemMode loader)); try discriminate Hs.
    destruct (LoadProcess loader); try discriminate Hl. reflexivity.
Qed.

(** C9. After a successful [Load], a program identifier that is one of the
    three of the first override entry has exactly that entry's three flags
    written and every other setting as before; any other identifier, the
    unresolved one (0) included, leaves the settings as they were. *)
Theorem C9_title_overrides (w : EmuWindow) (path : string) (s s' : System) :
  Load w path s = Ok (Success, s') ->
  exists loader : AppLoader,
    GetLoader path = Some loader
    /\ (In (resolved_title_id loader) display_transfer_titles ->
        Settings.display_transfer_hack (settings s') = true
        /\ Settings.skip_slow_draw (settings s') = true
        /\ Settings.texture_load_hack (settings s') = false
        /\ other_settings (settings s') = other_settings (settings s))
    /\ (~ In (resolved_title_id loader) display_transfer_titles -> settings s' = settings s)
    /\ (ReadProgramId loader = None ->
        resolved_title_id loader = 0 /\ settings s' = settings s).
Proof.
  intros HL.
  destruct (Load_Success_inv w path s s' HL) as (loader & m & n & H & Hs & Hm & Hn & Hv & Hl).
  destruct (Load_success w path s loader m n H Hs Hm Hn Hv Hl)
    as (s0 & s2 & HL' & Hset0 & Hset & _).
  rewrite HL' in HL. injection HL as <-.
  exists loader. split; [exact H|].
  assert (Hin : In (resolved_title_id loader) display_transfer_titles ->
                settings s2
                = Settings.set_texture_load_hack false
                    (Settings.set_skip_slow_draw true
                       (Settings.set_display_transfer_hack true (settings s)))).
  { intros Hin. rewrite Hset. unfold apply_title_overrides.
    cbn [In display_transfer_titles] in Hin.
    destruct Hin as [<- | [<- | [<- | []]]]; cbn [Z.eqb Pos.eqb orb]; sys;
      rewrite Hset0; reflexivity. }
  assert (Hout : ~ In (resolved_title_id loader) display_transfer_titles ->
                 settings s2 = settings s).
  { intros Hnot. rewrite Hset. unfold apply_title_overrides.
    destruct (Z.eqb_spec (resolved_title_id loader) 0x0004000000068B00) as [E|_];
      [exfalso; apply Hnot; rewrite E; cbn; tauto|].
    destruct (Z.eqb_spec (resolved_title_id loader) 0x0004000000061300) as [E|_];
      [exfalso; apply Hnot; rewrite E; cbn; tauto|].
    destruct (Z.eqb_spec (resolved_title_id loader) 0x000400000004A700) as [E|_];
      [exfalso; apply Hnot; rewrite E; cbn; tauto|].
    cbn [orb]. destruct (_ =? _); sys; exact Hset0. }
  split; [|split].
  - intros Hyes. rewrite (Hin Hyes). cbn. repeat split.
  - exact Hout.
  - intros Hnone. unfold resolved_title_id in *. rewrite Hnone in *.
    split; [reflexivity|]. apply Hout. cbn. intros [Hx | [Hx | [Hx | []]]]; discriminate Hx.
Qed.

(** ** What the lifecycle operations leave alone *)

Lemma Shutdown_frame (s s' : System) :
  Shutdown s = Ok s' -> outside_lifecycle s' = outside_lifecycle s.
Proof.
  intros H. apply Shutdown_inv in H. destruct H as (_ & _ & _ & ->).
  unfold Shutdown_calls, Shutdown_fields.
  destruct room_member_present; lifecycle_eq.
Qed.

Lemma Load_frame (w : EmuWindow) (path : string) (s s' : System) (r : ResultStatus) :
  Load w path s = Ok (r, s') -> outside_lifecycle s' = outside_lifecycle s.
Proof.
  intros HL.
  destruct (Load_paths w path s) as [H | loader H Hs | loader H Hs Hnone
    | loader m n H Hs Hm Hn Hv | loader m n H Hs Hm Hn Hv Hl | loader m n H Hs Hm Hn Hv Hl].
  - rewrite (Load_no_loader w path s H) in HL. injection HL as _ <-. reflexivity.
  - rewrite (Load_system_mode_failure w path s loader H Hs) in HL.
    injection HL as _ <-. reflexivity.
  - rewrite (Load_assert_failure w path s loader H Hs Hnone) in HL. discriminate HL.
  - rewrite (Load_Init_failure w path s loader m n H Hs Hm Hn Hv) in HL.
    destruct (Shutdown _) as [s2|] eqn:Hsh; cbn [res_bind] in HL; [|discriminate HL].
    injection HL as _ <-.
    rewrite (Shutdown_frame _ _ Hsh), Init_frame. reflexivity.
  - destruct (Load_process_failure w path s loader m n H Hs Hm Hn Hv Hl) as (k & Hk & HL').
    rewrite HL' in HL.
    destruct (Shutdown _) as [s2|] eqn:Hsh; cbn [res_bind] in HL; [|discriminate HL].
    injection HL as _ <-.
    rewrite (Shutdown_frame _ _ Hsh).
    pose proof (Init_frame w m n (set_app_loader (Some loader) s)) as Hi.
    apply outside_lifecycle_inv in Hi. destruct Hi as (Hf1 & Hf2 & Hf3 & Hf4).
    sys_in Hf1. sys_in Hf2. sys_in Hf3. sys_in Hf4.
    unfold process_load_failed. lifecycle_eq.
  - destruct (Load_success w path s loader m n H Hs Hm Hn Hv Hl)
      as (s0 & s2 & HL' & _ & _ & _ & _ & Hout).
    rewrite HL' in HL. injection HL as _ <-. exact Hout.
Qed.

Lemma Reset_frame (s s' : System) :
  Reset s = Ok s' -> outside_lifecycle s' = outside_lifecycle s.
Proof.
  unfold Reset. intros H.
  destruct (Shutdown s) as [s1|] eqn:Hsh; cbn [res_bind] in H; [|discriminate H].
  destruct (m_emu_window s1) as [w|]; cbn [deref res_bind] in H; [|discriminate H].
  destruct (Load w (m_filepath s1) s1) as [[r s2]|] eqn:HL; cbn [res_bind] in H;
    [|discriminate H].
  injection H as <-.
  rewrite (Load_frame _ _ _ _ _ HL). exact (Shutdown_frame _ _ Hsh).
Qed.

(** ** A whole round *)

Lemma catch_up_events_quiet (g : Z) (cores : list ARM) :
  forall i : nat,
    count_AddToGlobalTicks (catch_up_events g i cores) = 0%nat
    /\ requests_reschedule (catch_up_events g i cores) = false.
Proof.
  induction cores as [|c rest IH]; intros i; [split; reflexivity|].
  cbn [catch_up_events]. destruct (IH (S i)) as [Hc Hr].
  rewrite count_AddToGlobalTicks_app, requests_reschedule_app, Hc, Hr.
  destruct (0 <? core_delay g c); split; reflexivity.
Qed.

Lemma advance_events_quiet (max_slice : Z) (cores : list ARM) :
  forall i : nat,
    count_AddToGlobalTicks (advance_events max_slice i cores) = 0%nat
    /\ requests_reschedule (advance_events max_slice i cores) = false.
Proof.
  induction cores as [|c rest IH]; intros i; [split; reflexivity|].
  cbn [advance_events]. destruct (IH (S i)) as [Hc Hr].
  split; [cbn [count_AddToGlobalTicks is_AddToGlobalTicks]; rewrite Hc; reflexivity|].
  unfold requests_reschedule in *. cbn [existsb is_CorePrepareReschedule orb]. exact Hr.
Qed.

Lemma core_block_quiet (i : nat) (blk : list Event) :
  core_block i blk -> count_AddToGlobalTicks blk = 0%nat.
Proof. intros [-> | [-> | ->]]; reflexivity. Qed.

Lemma core_blocks_quiet (idx : list nat) (blocks : list (list Event)) :
  Forall2 core_block idx blocks -> count_AddToGlobalTicks (concat blocks) = 0%nat.
Proof.
  induction 1 as [|i blk idx blocks Hblk _ IH]; [reflexivity|].
  cbn [concat]. rewrite count_AddToGlobalTicks_app, (core_block_quiet i blk Hblk), IH.
  reflexivity.
Qed.

(** The execution phase of a round runs to its end on a system whose clock
    and kernel are live. *)
Lemma execute_round_returns (s : System) (tm : Timing) (k : KernelSystem) :
  timing s = Some tm ->
  kernel s = Some k ->
  exists (s1 : System) (l : list Event),
    execute_round s = Ok s1
    /\ log s1 = log s ++ l
    /\ count_AddToGlobalTicks l
       = (if needs_catch_up (GetGlobalTicks tm) (cpu_cores s) then 0 else 1)%nat
    /\ reschedule_pending s1 = reschedule_pending s || requests_reschedule l
    /\ is_Some (kernel s1)
    /\ timing s1
       = (if needs_catch_up (GetGlobalTicks tm) (cpu_cores s) then Some tm
          else Some (AddToGlobalTicks (round_max_slice tm s) tm))
    /\ reset_requested s1 = reset_requested s
    /\ shutdown_requested s1 = shutdown_requested s
    /\ status s1 = status s
    /\ map core_id (cpu_cores s1) = map core_id (cpu_cores s).
Proof.
  intros Htm Hk.
  destruct (needs_catch_up (GetGlobalTicks tm) (cpu_cores s)) eqn:Hlag.
  - destruct (execute_round_catch_up s tm Htm Hlag) as (i & c & Hc & _ & _ & _ & Hround).
    assert (Hc' : cpu_cores (after_catch_up tm s) !! i
                  = Some (caught_up (GetGlobalTicks tm) c)).
    { unfold after_catch_up. sys. rewrite list_lookup_fmap, Hc. reflexivity. }
    destruct (execute_core_spec (after_catch_up tm s) i _ k Hc' Hk)
      as (s1 & blk & Hexec & Hblk & Hlog & Hout & Hk1 & _ & Hids & _ & Hpend & _).
    destruct (catch_up_events_quiet (GetGlobalTicks tm) (cpu_cores s) 0) as [Hq1 Hq2].
    exists s1, (catch_up_events (GetGlobalTicks tm) 0 (cpu_cores s) ++ blk).
    rewrite Hround. split; [exact Hexec|].
    unfold outside_execution in Hout. injection Hout as _ _ Ht _ _ _ _ _ _ _ _ Hrr Hsr Hst _ _ _ _.
    unfold after_catch_up in *. sys_in Hlog. sys_in Ht. sys_in Hrr. sys_in Hsr. sys_in Hst.
    sys_in Hpend. sys_in Hids.
    split; [rewrite Hlog, app_assoc; reflexivity|].
    split; [rewrite count_AddToGlobalTicks_app, Hq1, (core_block_quiet i blk Hblk); reflexivity|].
    split; [rewrite requests_reschedule_app, Hq2; exact Hpend|].
    split; [exact Hk1|].
    split; [congruence|].
    repeat split; try assumption.
    rewrite Hids, map_map. apply map_ext. intros c0.
    unfold caught_up. destruct (0 <? _); reflexivity.
  - destruct (execute_round_synchronized s tm k Htm Hk Hlag)
      as (s2 & blocks & _ & _ & Hb & Hlog & Hout & Hk2 & Hids & Hpend & Hround).
    destruct (catch_up_events_quiet (GetGlobalTicks tm) (cpu_cores s) 0) as [Hq1 Hq2].
    destruct (advance_events_quiet (round_max_slice tm s)
                (map (caught_up (GetGlobalTicks tm)) (cpu_cores s)) 0) as [Hq3 Hq4].
    exists (emit (EvAddToGlobalTicks (round_max_slice tm s))
              (set_timing (Some (AddToGlobalTicks (round_max_slice tm s) tm)) s2)),
      ((catch_up_events (GetGlobalTicks tm) 0 (cpu_cores s)
          ++ advance_events (round_max_slice tm s) 0
               (map (caught_up (GetGlobalTicks tm)) (cpu_cores s)))
         ++ concat blocks ++ [EvAddToGlobalTicks (round_max_slice tm s)]).
    split; [exact Hround|].
    unfold outside_execution in Hout. injection Hout as _ _ _ _ _ _ _ _ _ _ _ Hrr Hsr Hst _ _ _ _.
    unfold before_execution in Hlog. sys_in Hlog. sys.
    split; [rewrite Hlog; unfold round_max_slice; rewrite <- !app_assoc; reflexivity|].
    split.
    { rewrite !count_AddToGlobalTicks_app, Hq1, Hq3, (core_blocks_quiet _ _ Hb). reflexivity. }
    split.
    { rewrite Hpend, !requests_reschedule_app, Hq2, Hq4.
      cbn [requests_reschedule existsb is_CorePrepareReschedule orb].
      rewrite orb_false_r. reflexivity. }
    repeat split; assumption.
Qed.

Lemma reschedule_events_quiet (cores : list ARM) :
  count_AddToGlobalTicks (reschedule_events cores) = 0%nat.
Proof. induction cores as [|c rest IH]; [reflexivity|]. cbn. exact IH. Qed.

(** [Reschedule], when it returns, has lowered [reschedule_pending]. *)
Lemma Reschedule_inv (s s' : System) :
  Reschedule s = Ok s' ->
  s' = (if reschedule_pending s
        then match kernel s with
             | Some k =>
                 emit_all (reschedule_events (cpu_cores s))
                   (set_kernel (Some (rescheduled_kernel (cpu_cores s) k))
                      (set_reschedule_pending false s))
             | None => set_reschedule_pending false s
             end
        else s).
Proof.
  intros H. destruct (reschedule_pending s) eqn:Hp.
  - destruct (kernel s) as [k|] eqn:Hk.
    + rewrite (Reschedule_pending s k Hp Hk) in H. injection H as <-. reflexivity.
    + unfold Reschedule in H. rewrite Hp in H. cbn [negb] in H.
      destruct (cpu_cores s) as [|c rest]; cbn [Reschedule_cores] in H.
      * injection H as <-. reflexivity.
      * unfold Reschedule_core in H. sys_in H. rewrite Hk in H. discriminate H.
  - rewrite (Reschedule_not_pending s Hp) in H. injection H as <-. reflexivity.
Qed.

Lemma Reschedule_frame (s s' : System) :
  Reschedule s = Ok s' ->
  reschedule_pending s' = false
  /\ reset_requested s' = reset_requested s
  /\ shutdown_requested s' = shutdown_requested s
  /\ status s' = status s
  /\ timing s' = timing s
  /\ cpu_cores s' = cpu_cores s
  /\ log s' = log s ++ (if reschedule_pending s then
                          match kernel s with
                          | Some _ => reschedule_events (cpu_cores s)
                          | None => []
                          end
                        else []).
Proof.
  intros H. apply Reschedule_inv in H. subst s'.
  destruct (reschedule_pending s) eqn:Hp; [destruct (kernel s)|]; sys;
    rewrite ?app_nil_r; repeat split; assumption.
Qed.

Lemma Reschedule_returns (s : System) (k : KernelSystem) :
  kernel s = Some k -> exists s' : System, Reschedule s = Ok s'.
Proof.
  intros Hk. destruct (reschedule_pending s) eqn:Hp.
  - eexists. exact (Reschedule_pending s k Hp Hk).
  - eexists. exact (Reschedule_not_pending s Hp).
Qed.

(** The ways [finish_round] can return. *)
Lemma finish_round_inv (s1 s' : System) (r : ResultStatus) :
  finish_round s1 = Ok (r, s') ->
  exists s2 : System,
    Reschedule (emit EvHWUpdate s1) = Ok s2
    /\ ((reset_requested s1 = true
         /\ Reset (set_reset_requested false s2) = Ok s' /\ r = status s')
        \/ (reset_requested s1 = false /\ shutdown_requested s1 = true
            /\ r = ShutdownRequested /\ s' = set_shutdown_requested false s2)
        \/ (reset_requested s1 = false /\ shutdown_requested s1 = false
            /\ r = status s1 /\ s' = s2)).
Proof.
  unfold finish_round. intros H.
  destruct (Reschedule (emit EvHWUpdate s1)) as [s2|] eqn:HR; cbn [res_bind] in H;
    [|discriminate H].
  exists s2. split; [reflexivity|].
  destruct (Reschedule_frame _ _ HR) as (_ & Hrr & Hsr & Hst & _).
  sys_in Hrr. sys_in Hsr. sys_in Hst. rewrite Hrr, Hsr in H.
  destruct (reset_requested s1).
  - left. destruct (Reset _) as [s3|] eqn:HReset; cbn [res_bind] in H; [|discriminate H].
    injection H as <- <-. repeat split.
  - destruct (shutdown_requested s1).
    + right. left. injection H as <- <-. repeat split.
    + right. right. injection H as <- <-. repeat split. exact Hst.
Qed.

(** C10. Whenever [RunLoop] returns, [reschedule_pending] is false; and on a
    running system (clock and kernel live, no reset requested) it does
    return, and a reschedule requested during the execution phase, by an
    idled core or from within [Run], has the thread manager of every core
    reschedule before [RunLoop] returns. *)
Theorem C10_reschedule_never_carries_over (tight_loop : bool) (s : System) :
  (forall (r : ResultStatus) (s' : System),
      RunLoop tight_loop s = Ok (r, s') -> reschedule_pending s' = false)
  /\ (forall (tm : Timing) (k : KernelSystem),
        timing s = Some tm -> kernel s = Some k -> reset_requested s = false ->
        exists (s1 s' : System) (l : list Event) (r : ResultStatus),
          execute_round s = Ok s1
          /\ log s1 = log s ++ l
          /\ reschedule_pending s1 = reschedule_pending s || requests_reschedule l
          /\ RunLoop tight_loop s = Ok (r, s')
          /\ reschedule_pending s' = false
          /\ log s' = log s1 ++ EvHWUpdate
                        :: (if reschedule_pending s1
                            then map (fun c => EvThreadManagerReschedule (core_id c))
                                   (cpu_cores s1)
                            else [])
          /\ map core_id (cpu_cores s1) = map core_id (cpu_cores s)).
Proof.
  split.
  - intros r s' H. unfold RunLoop in H.
    destruct (execute_round s) as [s1|]; cbn [res_bind] in H; [|discriminate H].
    destruct (finish_round_inv s1 s' r H) as (s2 & HR & Hcase).
    destruct (Reschedule_frame _ _ HR) as (Hp & _).
    destruct Hcase as [(_ & HReset & _) | [(_ & _ & _ & ->) | (_ & _ & _ & ->)]].
    + apply Reset_frame, outside_lifecycle_inv in HReset. destruct HReset as (Hrp & _).
      rewrite Hrp. sys. exact Hp.
    + sys. exact Hp.
    + exact Hp.
  - intros tm k Htm Hk Hreset.
    destruct (execute_round_returns s tm k Htm Hk)
      as (s1 & l & Hround & Hlog & _ & Hpend & [k1 Hk1] & _ & Hrr & Hsr & _ & Hids).
    destruct (Reschedule_returns (emit EvHWUpdate s1) k1 Hk1) as [s2 HR].
    destruct (Reschedule_frame _ _ HR) as (Hp & Hrr2 & Hsr2 & _ & _ & _ & Hlog2).
    sys_in Hrr2. sys_in Hsr2. sys_in Hlog2. rewrite Hk1 in Hlog2.
    exists s1.
    unfold RunLoop, finish_round. rewrite Hround. cbn [res_bind]. rewrite HR. cbn [res_bind].
    rewrite Hrr2, Hrr, Hreset, Hsr2.
    destruct (shutdown_requested s1); eexists _, l, _;
      (split; [reflexivity|]); (split; [exact Hlog|]); (split; [exact Hpend|]);
      (split; [reflexivity|]); sys; (split; [exact Hp|]);
      (split; [|exact Hids]); rewrite Hlog2, <- app_assoc; reflexivity.
Qed.

(** C6. Once the execution phase of a round is over, in either shape, the
    hardware update runs, then [Reschedule]; then [reset_requested] is taken
    and cleared, and if it was set [Reset] is performed and the status it
    leaves is returned, [shutdown_requested] being left as it is; otherwise
    [shutdown_requested] is taken and cleared, and if it was set
    [ShutdownRequested] is returned; otherwise the current status is. *)
Theorem C6_end_of_round (tight_loop : bool) (s s1 : System) (k : KernelSystem) :
  execute_round s = Ok s1 ->
  kernel s1 = Some k ->
  exists s2 : System,
    Reschedule (emit EvHWUpdate s1) = Ok s2
    /\ log s2 = log s1 ++ EvHWUpdate
                  :: (if reschedule_pending s1 then reschedule_events (cpu_cores s1) else [])
    /\ reschedule_pending s2 = false
    /\ reset_requested s2 = reset_requested s1
    /\ shutdown_requested s2 = shutdown_requested s1
    /\ status s2 = status s1
    /\ (reset_requested s1 = true ->
        RunLoop tight_loop s
        = (do s3 <- Reset (set_reset_requested false s2) ; Ok (status s3, s3))
        /\ shutdown_requested (set_reset_requested false s2) = shutdown_requested s1
        /\ forall s3 : System,
             Reset (set_reset_requested false s2) = Ok s3 ->
             reset_requested s3 = false /\ shutdown_requested s3 = shutdown_requested s1)
    /\ (reset_requested s1 = false -> shutdown_requested s1 = true ->
        RunLoop tight_loop s = Ok (ShutdownRequested, set_shutdown_requested false s2))
    /\ (reset_requested s1 = false -> shutdown_requested s1 = false ->
        RunLoop tight_loop s = Ok (status s1, s2)).
Proof.
  intros Hround Hk.
  destruct (Reschedule_returns (emit EvHWUpdate s1) k Hk) as [s2 HR].
  destruct (Reschedule_frame _ _ HR) as (Hp & Hrr & Hsr & Hst & _ & _ & Hlog).
  sys_in Hrr. sys_in Hsr. sys_in Hst. sys_in Hlog. rewrite Hk in Hlog.
  exists s2.
  split; [exact HR|].
  split; [rewrite Hlog, <- app_assoc; reflexivity|].
  split; [exact Hp|]. split; [exact Hrr|]. split; [exact Hsr|]. split; [exact Hst|].
  unfold RunLoop, finish_round. rewrite Hround. cbn [res_bind]. rewrite HR. cbn [res_bind].
  rewrite Hrr, Hsr, Hst.
  split; [|split].
  - intros ->. split; [reflexivity|]. sys. split; [exact Hsr|].
    intros s3 HReset. apply Reset_frame, outside_lifecycle_inv in HReset.
    destruct HReset as (_ & H1 & H2 & _). sys_in H1. sys_in H2.
    split; [exact H1 | congruence].
  - intros -> ->. reflexivity.
  - intros -> ->. reflexivity.
Qed.

(** C5, as the code has it.  A synchronized round calls [AddToGlobalTicks]
    exactly once, with the round's slice length, after every core was
    advanced by that length and executed, and the Global Clock moves on by
    it (modulo 2^64: it does not decrease while no wrap occurs and the slice
    length is not negative).  A catch-up round does not call it and leaves
    the Global Clock where it was.  What follows the execution phase calls
    it in neither case. *)
Theorem C5_global_clock (tight_loop : bool) (s : System) (tm : Timing) (k : KernelSystem) :
  timing s = Some tm ->
  kernel s = Some k ->
  exists s1 : System,
    execute_round s = Ok s1
    /\ (needs_catch_up (GetGlobalTicks tm) (cpu_cores s) = true ->
        timing s1 = Some tm
        /\ count_AddToGlobalTicks (log s1) = count_AddToGlobalTicks (log s))
    /\ (needs_catch_up (GetGlobalTicks tm) (cpu_cores s) = false ->
        exists blocks : list (list Event),
          log s1
          = log s
            ++ (catch_up_events (GetGlobalTicks tm) 0 (cpu_cores s)
                  ++ advance_events (round_max_slice tm s) 0
                       (map (caught_up (GetGlobalTicks tm)) (cpu_cores s))
                  ++ concat blocks)
            ++ [EvAddToGlobalTicks (round_max_slice tm s)]
          /\ Forall2 core_block (seq 0 (length (cpu_cores s))) blocks
          /\ count_AddToGlobalTicks (log s1) = S (count_AddToGlobalTicks (log s))
          /\ timing s1 = Some (AddToGlobalTicks (round_max_slice tm s) tm)
          /\ GetGlobalTicks (AddToGlobalTicks (round_max_slice tm s) tm)
             = wrap_u64 (GetGlobalTicks tm + round_max_slice tm s)
          /\ (0 <= GetGlobalTicks tm -> 0 <= round_max_slice tm s ->
              GetGlobalTicks tm + round_max_slice tm s < 2 ^ 64 ->
              GetGlobalTicks tm <= GetGlobalTicks (AddToGlobalTicks (round_max_slice tm s) tm)))
    /\ (forall (r : ResultStatus) (s' : System),
          RunLoop tight_loop s = Ok (r, s') ->
          count_AddToGlobalTicks (log s') = count_AddToGlobalTicks (log s1))
    /\ (reset_requested s = false ->
        exists (r : ResultStatus) (s' : System),
          RunLoop tight_loop s = Ok (r, s') /\ timing s' = timing s1).
Proof.
  intros Htm Hk.
  destruct (execute_round_returns s tm k Htm Hk)
    as (s1 & l & Hround & Hlog & Hcount & _ & [k1 Hk1] & Ht1 & Hrr & Hsr & _ & _).
  exists s1. split; [exact Hround|].
  split; [|split; [|split]].
  - intros Hlag. rewrite Hlag in *. split; [exact Ht1|].
    rewrite Hlog, count_AddToGlobalTicks_app, Hcount. lia.
  - intros Hsync.
    destruct (execute_round_synchronized s tm k Htm Hk Hsync)
      as (s2 & blocks & _ & _ & Hb & Hlog2 & _ & _ & _ & _ & Hround2).
    rewrite Hround2 in Hround. injection Hround as <-.
    exists blocks.
    unfold before_execution in Hlog2. sys_in Hlog2. sys.
    split; [rewrite Hlog2; unfold round_max_slice; rewrite <- !app_assoc; reflexivity|].
    split; [exact Hb|].
    split.
    { sys_in Hlog. rewrite Hlog, count_AddToGlobalTicks_app, Hcount, Hsync. lia. }
    split; [reflexivity|].
    split; [reflexivity|].
    intros Hg Hm Hno. unfold AddToGlobalTicks, GetGlobalTicks in *. cbn [global_timer].
    rewrite wrap_u64_small; lia.
  - intros r s' H. unfold RunLoop in H. rewrite Hround in H. cbn [res_bind] in H.
    destruct (finish_round_inv s1 s' r H) as (s2 & HR & Hcase).
    destruct (Reschedule_frame _ _ HR) as (_ & _ & _ & _ & _ & _ & Hlog2).
    sys_in Hlog2.
    assert (Hc2 : count_AddToGlobalTicks (log s2) = count_AddToGlobalTicks (log s1)).
    { rewrite Hlog2, !count_AddToGlobalTicks_app.
      cbn [count_AddToGlobalTicks is_AddToGlobalTicks].
      destruct (reschedule_pending s1); [destruct (kernel s1)|];
        rewrite ?reschedule_events_quiet; cbn [count_AddToGlobalTicks]; lia. }
    destruct Hcase as [(_ & HReset & _) | [(_ & _ & _ & ->) | (_ & _ & _ & ->)]].
    + apply Reset_frame, outside_lifecycle_inv in HReset.
      destruct HReset as (_ & _ & _ & Hc). sys_in Hc. congruence.
    + sys. exact Hc2.
    + exact Hc2.
  - intros Hreset.
    destruct (Reschedule_returns (emit EvHWUpdate s1) k1 Hk1) as [s2 HR].
    destruct (Reschedule_frame _ _ HR) as (_ & Hrr2 & Hsr2 & _ & Ht2 & _).
    sys_in Hrr2. sys_in Hsr2. sys_in Ht2.
    unfold RunLoop, finish_round. rewrite Hround. cbn [res_bind]. rewrite HR. cbn [res_bind].
    rewrite Hrr2, Hrr, Hreset.
    destruct (shutdown_requested s2); eexists _, _; (split; [reflexivity|]); sys; exact Ht2.
Qed.

(** ** The slice length of a synchronized round *)

Lemma fold_min_spec (cores : list ARM) :
  forall init : Z,
    fold_left (fun m c => Z.min m (Timer_GetMaxSliceLength (timer c))) cores init <= init
    /\ Forall (fun c =>
                 fold_left (fun m c => Z.min m (Timer_GetMaxSliceLength (timer c))) cores init
                 <= Timer_GetMaxSliceLength (timer c)) cores
    /\ (fold_left (fun m c => Z.min m (Timer_GetMaxSliceLength (timer c))) cores init = init
        \/ Exists (fun c =>
                     fold_left (fun m c => Z.min m (Timer_GetMaxSliceLength (timer c)))
                       cores init
                     = Timer_GetMaxSliceLength (timer c)) cores).
Proof.
  induction cores as [|c rest IH]; intros init; cbn [fold_left].
  - split; [lia|]. split; [constructor|]. left. reflexivity.
  - destruct (IH (Z.min init (Timer_GetMaxSliceLength (timer c)))) as (Hle & Hall & Hcase).
    split; [lia|]. split; [constructor; [lia | exact Hall]|].
    destruct Hcase as [Heq | Hex].
    + destruct (Z.min_spec init (Timer_GetMaxSliceLength (timer c))) as [[_ Hm] | [_ Hm]].
      * left. congruence.
      * right. constructor. congruence.
    + right. apply Exists_cons_tl. exact Hex.
Qed.

Lemma caught_up_ticks (g : Z) (c : ARM) :
  Advance_adds_ticks ->
  0 < core_delay g c ->
  Timer_GetTicks (timer (caught_up g c)) = wrap_u64 g.
Proof.
  intros Hadv Hlag. unfold caught_up.
  apply Z.ltb_lt in Hlag. rewrite Hlag. cbn [timer with_timer].
  rewrite Hadv. unfold core_delay.
  rewrite Z.add_comm, <- wrap_u64_add_l, to_s64_congruent, wrap_u64_add_l.
  f_equal. lia.
Qed.

(** C1, as the code has it.  In a synchronized round [max_slice] is the
    least of [MAX_SLICE_LENGTH] and every core's [GetMaxSliceLength()], read
    once the lagging cores have been brought up to the Global Clock; so it
    exceeds neither.  Every core's timer is then advanced by [max_slice]:
    with [Advance] adding its argument to the tick count, a core that was
    not behind stands, before its execution step, at its old ticks plus
    [max_slice], and one that was behind at the Global Clock plus
    [max_slice].  After the cores' execution steps the Global Clock is
    advanced by [max_slice].  Tick counts are modulo 2^64.  The round goes
    through [after_catch_up] (first loop) and [before_execution] (Advance
    loop), then executes the cores. *)
Theorem C1_synchronized_round (s : System) (tm : Timing) (k : KernelSystem) :
  timing s = Some tm ->
  kernel s = Some k ->
  Forall (fun c => core_delay (GetGlobalTicks tm) c <= 4096) (cpu_cores s) ->
  (round_max_slice tm s <= MAX_SLICE_LENGTH
   /\ Forall (fun c => round_max_slice tm s <= Timer_GetMaxSliceLength (timer c))
        (map (caught_up (GetGlobalTicks tm)) (cpu_cores s))
   /\ (round_max_slice tm s = MAX_SLICE_LENGTH
       \/ Exists (fun c => round_max_slice tm s = Timer_GetMaxSliceLength (timer c))
            (map (caught_up (GetGlobalTicks tm)) (cpu_cores s))))
  /\ (Advance_adds_ticks ->
      forall (i : nat) (c : ARM),
        cpu_cores s !! i = Some c ->
        exists c1 : ARM,
          cpu_cores (before_execution tm s) !! i = Some c1
          /\ Timer_GetTicks (timer c1)
             = (if 0 <? core_delay (GetGlobalTicks tm) c
                then wrap_u64 (GetGlobalTicks tm + round_max_slice tm s)
                else wrap_u64 (Timer_GetTicks (timer c) + round_max_slice tm s)))
  /\ exists (s2 s' : System),
      catch_up s
      = Ok (after_catch_up tm s,
            fst (most_delayed (GetGlobalTicks tm) 0 (cpu_cores s) 0 None),
            snd (most_delayed (GetGlobalTicks tm) 0 (cpu_cores s) 0 None))
      /\ (4096 <? fst (most_delayed (GetGlobalTicks tm) 0 (cpu_cores s) 0 None)) = false
      /\ for_each_index (fun i => advance_core i (round_max_slice tm s))
           (length (cpu_cores s)) 0 (after_catch_up tm s) = Ok (before_execution tm s)
      /\ for_each_index execute_core (length (cpu_cores s)) 0 (before_execution tm s) = Ok s2
      /\ execute_round s = Ok s'
      /\ s' = emit (EvAddToGlobalTicks (round_max_slice tm s))
                (set_timing (Some (AddToGlobalTicks (round_max_slice tm s) tm)) s2)
      /\ timing s'
         = Some {| global_timer := wrap_u64 (GetGlobalTicks tm + round_max_slice tm s) |}.
Proof.
  intros Htm Hk Hnear.
  assert (Hsync : needs_catch_up (GetGlobalTicks tm) (cpu_cores s) = false).
  { unfold needs_catch_up. destruct (existsb _ _) eqn:Hex; [|reflexivity].
    apply existsb_exists in Hex. destruct Hex as (c & Hin & Hc).
    apply Z.ltb_lt in Hc. rewrite Forall_forall in Hnear.
    apply list_elem_of_In, Hnear in Hin. lia. }
  split; [|split].
  - unfold round_max_slice, compute_max_slice.
    exact (fold_min_spec (map (caught_up (GetGlobalTicks tm)) (cpu_cores s)) MAX_SLICE_LENGTH).
  - intros Hadv i c Hc.
    exists (advanced (round_max_slice tm s) (caught_up (GetGlobalTicks tm) c)).
    split.
    { unfold before_execution. sys. fold (round_max_slice tm s).
      rewrite !list_lookup_fmap, Hc. reflexivity. }
    unfold advanced. cbn [timer with_timer]. rewrite Hadv.
    destruct (0 <? core_delay (GetGlobalTicks tm) c) eqn:Hlag.
    + apply Z.ltb_lt in Hlag.
      rewrite (caught_up_ticks _ c Hadv Hlag), wrap_u64_add_l. reflexivity.
    + unfold caught_up. rewrite Hlag. reflexivity.
  - destruct (execute_round_synchronized s tm k Htm Hk Hsync)
      as (s2 & blocks & Hadvance & Hloop & _ & _ & _ & _ & _ & _ & Hround).
    eexists s2, _.
    split; [exact (catch_up_spec s tm Htm)|].
    split; [rewrite most_delayed_threshold, Hsync; reflexivity|].
    split; [exact Hadvance|]. split; [exact Hloop|]. split; [exact Hround|].
    split; [reflexivity|]. sys. reflexivity.
Qed.

(** C2. When some core lags the Global Clock by more than 4096 ticks, the
    round advances every lagging core by its delay (to the Global Clock, by
    what [Advance] is specified to do) and then executes one core only: the
    first one with the largest delay.  It becomes [running_core]; with no
    current thread its timer is idled and a reschedule is requested;
    otherwise it is run.  No other core is idled or run, and
    [AddToGlobalTicks] is not called. *)
Theorem C2_catch_up_round (tight_loop : bool) (s : System) (tm : Timing) (k : KernelSystem) :
  timing s = Some tm ->
  kernel s = Some k ->
  Exists (fun c => 4096 < core_delay (GetGlobalTicks tm) c) (cpu_cores s) ->
  exists (i : nat) (c : ARM) (s' : System),
    cpu_cores s !! i = Some c
    /\ 4096 < core_delay (GetGlobalTicks tm) c
    /\ Forall (fun c' => core_delay (GetGlobalTicks tm) c' <= core_delay (GetGlobalTicks tm) c)
         (cpu_cores s)
    /\ (forall (j : nat) (c' : ARM),
          (j < i)%nat -> cpu_cores s !! j = Some c' ->
          core_delay (GetGlobalTicks tm) c' < core_delay (GetGlobalTicks tm) c)
    /\ execute_round s = Ok s'
    /\ RunLoop tight_loop s = finish_round s'
    /\ running_core s' = Some i
    /\ timing s' = Some tm
    /\ (forall j : nat,
          j <> i -> cpu_cores s' !! j = caught_up (GetGlobalTicks tm) <$> cpu_cores s !! j)
    /\ (Advance_adds_ticks ->
        forall (j : nat) (c' : ARM),
          cpu_cores s !! j = Some c' -> 0 < core_delay (GetGlobalTicks tm) c' ->
          Timer_GetTicks (timer (caught_up (GetGlobalTicks tm) c'))
          = wrap_u64 (GetGlobalTicks tm))
    /\ (Kernel_CurrentThreadIsNull (Kernel_SetRunningCPU (core_id c) k) = true ->
        log s' = log s ++ catch_up_events (GetGlobalTicks tm) 0 (cpu_cores s)
                       ++ [EvSetRunningCPU i; EvTimerIdle i; EvCorePrepareReschedule i]
        /\ reschedule_pending s' = true
        /\ timer <$> cpu_cores s' !! i
           = Some (Timer_Idle (timer (caught_up (GetGlobalTicks tm) c)))
        /\ kernel s' = Some (Kernel_SetRunningCPU (core_id c) k))
    /\ (Kernel_CurrentThreadIsNull (Kernel_SetRunningCPU (core_id c) k) = false ->
        exists (cpu' : CpuState) (timer' : Timer) (k' : KernelSystem) (requested : bool),
          ARM_Run (core_id c) (cpu c) (timer (caught_up (GetGlobalTicks tm) c))
            (Kernel_SetRunningCPU (core_id c) k)
          = (cpu', timer', k', requested)
          /\ log s' = log s ++ catch_up_events (GetGlobalTicks tm) 0 (cpu_cores s)
                         ++ [EvSetRunningCPU i; EvCoreRun i]
                         ++ (if requested then [EvCorePrepareReschedule i] else [])
          /\ reschedule_pending s' = reschedule_pending s || requested
          /\ timer <$> cpu_cores s' !! i = Some timer'
          /\ kernel s' = Some k').
Proof.
  intros Htm Hk Hlag.
  assert (Hneeds : needs_catch_up (GetGlobalTicks tm) (cpu_cores s) = true).
  { unfold needs_catch_up. apply existsb_exists. apply Exists_exists in Hlag.
    destruct Hlag as (c & Hin & Hc). exists c.
    split; [apply list_elem_of_In; exact Hin | apply Z.ltb_lt; exact Hc]. }
  destruct (execute_round_catch_up s tm Htm Hneeds)
    as (i & c & Hc & Hbig & Hmax & Hfirst & Hround).
  set (g := GetGlobalTicks tm) in *.
  assert (Hc0 : cpu_cores (after_catch_up tm s) !! i = Some (caught_up g c)).
  { unfold after_catch_up. sys. rewrite list_lookup_fmap, Hc. reflexivity. }
  assert (Hk0 : kernel (after_catch_up tm s) = Some k) by exact Hk.
  assert (Hid : core_id (caught_up g c) = core_id c).
  { unfold caught_up. destruct (0 <? _); reflexivity. }
  assert (Hcpu : cpu (caught_up g c) = cpu c).
  { unfold caught_up. destruct (0 <? _); reflexivity. }
  assert (Hlen : (i < length (map (caught_up g) (cpu_cores s)))%nat).
  { rewrite length_map. eapply lookup_lt_Some. exact Hc. }
  assert (Hothers : forall (c1 : ARM) (j : nat), j <> i ->
            <[i := c1]> (map (caught_up g) (cpu_cores s)) !! j
            = caught_up g <$> cpu_cores s !! j).
  { intros c1 j Hj. rewrite list_lookup_insert_ne by congruence.
    apply list_lookup_fmap. }
  destruct (Kernel_CurrentThreadIsNull (Kernel_SetRunningCPU (core_id c) k)) eqn:Hnull.
  - pose proof (execute_core_idle (after_catch_up tm s) i (caught_up g c) k Hc0 Hk0) as Hidle.
    rewrite Hid in Hidle. specialize (Hidle Hnull).
    match type of Hidle with _ = Ok ?x => exists i, c, x end.
    rewrite Hround, Hidle. unfold RunLoop. rewrite Hround, Hidle. cbn [res_bind].
    unfold after_catch_up. fold g. sys.
    repeat (split; [first [assumption | reflexivity]|]).
    split; [intros j Hj; apply Hothers; exact Hj|].
    split; [intros Hadv j c' _ Hc'; exact (caught_up_ticks g c' Hadv Hc')|].
    split; [|intros Hx; rewrite Hnull in Hx; discriminate Hx].
    intros _. split; [rewrite <- app_assoc; reflexivity|]. split; [reflexivity|].
    split; [|reflexivity].
    rewrite list_lookup_insert_eq by exact Hlen. reflexivity.
  - destruct (ARM_Run (core_id c) (cpu c) (timer (caught_up g c))
                (Kernel_SetRunningCPU (core_id c) k))
      as [[[cpu' timer'] k'] requested] eqn:Hrun.
    pose proof (execute_core_run (after_catch_up tm s) i (caught_up g c) k k' cpu' timer'
                  requested Hc0 Hk0) as Hexec.
    rewrite Hid, Hcpu in Hexec. specialize (Hexec Hnull Hrun).
    match type of Hexec with _ = Ok ?x => exists i, c, x end.
    rewrite Hround, Hexec. unfold RunLoop. rewrite Hround, Hexec. cbn [res_bind].
    unfold after_catch_up. fold g. sys.
    repeat (split; [first [assumption | reflexivity]|]).
    split; [intros j Hj; apply Hothers; exact Hj|].
    split; [intros Hadv j c' _ Hc'; exact (caught_up_ticks g c' Hadv Hc')|].
    split; [intros Hx; rewrite Hnull in Hx; discriminate Hx|].
    intros _. exists cpu', timer', k', requested.
    split; [exact Hrun|]. split; [rewrite <- !app_assoc; reflexivity|].
    split; [reflexivity|]. split; [|reflexivity].
    rewrite list_lookup_insert_eq by exact Hlen. reflexivity.
Qed.

(** ** Init, member by member *)

Lemma Init_built (w : EmuWindow) (m n : Z) (s : System) :
  memory (snd (Init w m n s)) = true
  /\ timing (snd (Init w m n s)) = Some (Timing_new (num_cores (settings s)))
  /\ kernel (snd (Init w m n s)) = Some (Init_kernel m n s)
  /\ cpu_cores (snd (Init w m n s)) = cpu_cores s ++ fresh_cores (settings s)
  /\ running_core (snd (Init w m n s)) = Some 0%nat
  /\ dsp_core (snd (Init w m n s)) = true
  /\ telemetry_session (snd (Init w m n s)) = true
  /\ rpc_server (snd (Init w m n s)) = true
  /\ service_manager (snd (Init w m n s)) = true
  /\ archive_manager (snd (Init w m n s)) = true.
Proof.
  unfold Init, Init_kernel, fresh_cores, num_cores, core_variant.
  destruct (is_Success (VideoCore_Init w)); cbn [negb snd]; sys; repeat split.
Qed.

Lemma Init_kept (w : EmuWindow) (m n : Z) (s : System) :
  app_loader (snd (Init w m n s)) = app_loader s
  /\ cheat_engine (snd (Init w m n s)) = cheat_engine s
  /\ perf_stats (snd (Init w m n s)) = perf_stats s
  /\ custom_tex_cache (snd (Init w m n s)) = custom_tex_cache s
  /\ reschedule_pending (snd (Init w m n s)) = reschedule_pending s
  /\ reset_requested (snd (Init w m n s)) = reset_requested s
  /\ shutdown_requested (snd (Init w m n s)) = shutdown_requested s
  /\ status (snd (Init w m n s)) = status s
  /\ m_emu_window (snd (Init w m n s)) = m_emu_window s
  /\ m_filepath (snd (Init w m n s)) = m_filepath s
  /\ settings (snd (Init w m n s)) = settings s
  /\ initalized (snd (Init w m n s)) = is_Success (VideoCore_Init w) || initalized s
  /\ log (snd (Init w m n s)) = log s ++ Init_calls.
Proof.
  unfold Init, Init_calls.
  destruct (is_Success (VideoCore_Init w)); cbn [negb snd orb]; sys;
    rewrite <- ?app_assoc; repeat split.
Qed.

(** ** Load, member by member *)

Lemma apply_title_overrides_eq (id : Z) (s : System) :
  apply_title_overrides id s
  = set_settings (title_settings id (settings s))
      (emit_all (if id =? 0x00040000001D3A00 then [EvCreateSaveData id] else []) s).
Proof.
  unfold apply_title_overrides, title_settings.
  destruct ((id =? 0x0004000000068B00) || (id =? 0x0004000000061300)
            || (id =? 0x000400000004A700)) eqn:E.
  - assert (Hother : (id =? 0x00040000001D3A00) = false).
    { apply Z.eqb_neq. intros ->. discriminate E. }
    rewrite Hother. system_eq. symmetry. apply app_nil_r.
  - destruct (id =? 0x00040000001D3A00); system_eq. symmetry. apply app_nil_r.
Qed.

Lemma Load_success_eq (w : EmuWindow) (path : string) (s : System)
    (loader : AppLoader) (m n : Z) :
  GetLoader path = Some loader ->
  Loader.is_Success (snd (LoadKernelSystemMode loader)) = true ->
  fst (LoadKernelSystemMode loader) = Some m ->
  fst (LoadKernelN3dsMode loader) = Some n ->
  is_Success (VideoCore_Init w) = true ->
  Loader.is_Success (LoadProcess loader) = true ->
  Load w path s = Ok (Success, Loaded_system w path loader m n s).
Proof.
  intros H Hs Hm Hn Hv Hl.
  destruct (Init_built w m n (set_app_loader (Some loader) s))
    as (Hmem & Htm & Hk & Hcores & Hrun & Hdsp & Htel & Hrpc & Hsm & Ham).
  destruct (Init_kept w m n (set_app_loader (Some loader) s))
    as (Hal & Hce & Hps & Hctc & Hrp & Hrr & Hsr & Hst & Hwin & Hfp & Hset & Hini & Hlog).
  pose proof (Init_result w m n (set_app_loader (Some loader) s)) as Hr.
  unfold Init_kernel in Hk. sys_in Hk. sys_in Htm. sys_in Hcores. sys_in Hal.
  sys_in Hrp. sys_in Hrr. sys_in Hsr. sys_in Hset. sys_in Hlog. rewrite Hv in Hini.
  cbn [orb] in Hini.
  unfold Load. sys.
  rewrite H, Hs, Hm, Hn. cbn [negb ASSERT_value res_bind].
  destruct (Init w m n (set_app_loader (Some loader) s)) as [r s1]. cbn [fst snd] in *.
  subst r. rewrite Hv. cbn [negb]. rewrite Htel. cbn [live res_bind].
  sys. rewrite Hk. cbn [deref res_bind]. rewrite Hl. cbn [negb].
  rewrite apply_title_overrides_eq.
  unfold GetAndResetPerfStats. sys. rewrite Hset.
  destruct (Settings.custom_textures (settings s)) eqn:Hct;
    destruct (Settings.preload_textures (settings s)) eqn:Hpt;
    sys; cbn [live res_bind]; rewrite ?Hset, ?Hct, ?Hpt; sys; rewrite ?Htm;
    cbn [live deref res_bind]; sys; cbn [live res_bind]; sys;
    (f_equal; f_equal; apply System_ext; unfold Loaded_system, Load_calls, Init_kernel; sys;
     rewrite ?Hct, ?Hpt, ?Hlog, ?Hset; rewrite <- ?app_assoc; cbn [app];
     try reflexivity; try assumption).
Qed.

Lemma Load_Success_eq_inv (w : EmuWindow) (path : string) (s s' : System) :
  Load w path s = Ok (Success, s') ->
  exists (loader : AppLoader) (m n : Z),
    GetLoader path = Some loader
    /\ Loader.is_Success (LoadProcess loader) = true
    /\ s' = Loaded_system w path loader m n s.
Proof.
  intros HL.
  destruct (Load_Success_inv w path s s' HL) as (loader & m & n & H & Hs & Hm & Hn & Hv & Hl).
  exists loader, m, n. split; [exact H|]. split; [exact Hl|].
  rewrite (Load_success_eq w path s loader m n H Hs Hm Hn Hv Hl) in HL.
  injection HL as <-. reflexivity.
Qed.

Lemma length_fresh_cores (v : Settings.Values) : length (fresh_cores v) = num_cores v.
Proof. unfold fresh_cores. rewrite length_map, length_seq. reflexivity. Qed.

(** ** Init *)

(** X2.  [Init] pushes its cores onto [cpu_cores] without clearing it: two
    cores, four with [is_new_3ds], numbered from 0 in the order they are
    pushed, all of one engine (Dynarmic only when the CPU JIT is requested
    and the host has it), core [i] on [timing->GetTimer(i)].  It makes
    position 0 of [cpu_cores] the running core, builds the Global Clock for
    that many cores and the kernel for every element of [cpu_cores]. *)
Theorem Init_creates_cores (w : EmuWindow) (m n : Z) (s : System) :
  cpu_cores (snd (Init w m n s)) = cpu_cores s ++ fresh_cores (settings s)
  /\ length (fresh_cores (settings s))
     = (if Settings.is_new_3ds (settings s) then 4 else 2)%nat
  /\ map core_id (fresh_cores (settings s)) = seq 0 (length (fresh_cores (settings s)))
  /\ Forall (fun c => variant c = core_variant (settings s)
                      /\ timer c = Timing_GetTimer (core_id c)
                      /\ cpu c = ARM_new (core_variant (settings s)) (core_id c))
       (fresh_cores (settings s))
  /\ (core_variant (settings s) = ARM_Dynarmic
      <-> Settings.use_cpu_jit (settings s) = true /\ host_has_dynarmic = true)
  /\ running_core (snd (Init w m n s)) = Some 0%nat
  /\ timing (snd (Init w m n s)) = Some (Timing_new (length (fresh_cores (settings s))))
  /\ kernel (snd (Init w m n s))
     = Some (Kernel_SetRunningCPU
               (match cpu_cores s ++ fresh_cores (settings s) with
                | c :: _ => core_id c
                | [] => 0%nat
                end)
               (Kernel_SetCPUs (map core_id (cpu_cores s ++ fresh_cores (settings s)))
                  (KernelSystem_new m (length (fresh_cores (settings s))) n))).
Proof.
  destruct (Init_built w m n s) as (_ & Htm & Hk & Hcores & Hrun & _).
  rewrite length_fresh_cores.
  split; [exact Hcores|].
  split; [reflexivity|].
  split.
  { unfold fresh_cores. rewrite map_map. cbn [new_core core_id]. apply map_id. }
  split.
  { apply List.Forall_forall. intros c Hin. unfold fresh_cores in Hin.
    apply in_map_iff in Hin. destruct Hin as (i & <- & _).
    cbn [new_core variant timer cpu core_id]. auto. }
  split.
  { unfold core_variant. split.
    - intros H.
      destruct (Settings.use_cpu_jit (settings s)), host_has_dynarmic;
        cbn [andb] in H; try discriminate H; auto.
    - intros [Hjit Hhost]. rewrite Hjit, Hhost. reflexivity. }
  split; [exact Hrun|]. split; [exact Htm | exact Hk].
Qed.

(** X3.  [Init] constructs every subsystem before it asks the video core:
    it returns what [VideoCore::Init] returns, and whatever that is the
    memory, the clock, the kernel, the DSP, the telemetry session, the RPC
    server and the service and archive managers are live afterwards.
    [initalized] is set on success and left as it was on failure; the cheat
    engine, [perf_stats] and the texture cache are not [Init]'s to create, so
    their accessors fault after [Init] on a fresh system. *)
Theorem Init_outcome (w : EmuWindow) (m n : Z) (s : System) :
  fst (Init w m n s) = VideoCore_Init w
  /\ Memory (snd (Init w m n s)) = Ok tt
  /\ (exists tm : Timing, CoreTiming (snd (Init w m n s)) = Ok tm)
  /\ (exists k : KernelSystem, Kernel (snd (Init w m n s)) = Ok k)
  /\ ServiceManager (snd (Init w m n s)) = Ok tt
  /\ ArchiveManager (snd (Init w m n s)) = Ok tt
  /\ dsp_core (snd (Init w m n s)) = true
  /\ telemetry_session (snd (Init w m n s)) = true
  /\ rpc_server (snd (Init w m n s)) = true
  /\ CheatEngine (snd (Init w m n s)) = CheatEngine s
  /\ CustomTexCache (snd (Init w m n s)) = CustomTexCache s
  /\ perf_stats (snd (Init w m n s)) = perf_stats s
  /\ initalized (snd (Init w m n s)) = is_Success (VideoCore_Init w) || initalized s
  /\ status (snd (Init w m n s)) = status s
  /\ log (snd (Init w m n s)) = log s ++ Init_calls.
Proof.
  destruct (Init_built w m n s)
    as (Hmem & Htm & Hk & _ & _ & Hdsp & Htel & Hrpc & Hsm & Ham).
  destruct (Init_kept w m n s)
    as (_ & Hce & Hps & Hctc & _ & _ & _ & Hst & _ & _ & _ & Hini & Hlog).
  unfold Memory, CoreTiming, Kernel, ServiceManager, ArchiveManager, CheatEngine,
    CustomTexCache.
  rewrite Hmem, Htm, Hk, Hsm, Ham, Hce, Hctc. cbn [live deref].
  split; [apply Init_result|].
  repeat split; eauto.
Qed.

(** ** Shutdown *)

Lemma Shutdown_kept (s s' : System) :
  Shutdown s = Ok s' ->
  kept_by_Shutdown s' = kept_by_Shutdown s /\ log s' = log s ++ Shutdown_calls.
Proof.
  intros H. apply Shutdown_inv in H. destruct H as (_ & _ & _ & ->).
  unfold kept_by_Shutdown. sys. split; reflexivity.
Qed.

Lemma kept_by_Shutdown_inv (s1 s2 : System) :
  kept_by_Shutdown s1 = kept_by_Shutdown s2 ->
  running_core s1 = running_core s2
  /\ reschedule_pending s1 = reschedule_pending s2
  /\ reset_requested s1 = reset_requested s2
  /\ shutdown_requested s1 = shutdown_requested s2
  /\ status s1 = status s2
  /\ initalized s1 = initalized s2
  /\ m_emu_window s1 = m_emu_window s2
  /\ m_filepath s1 = m_filepath s2
  /\ settings s1 = settings s2.
Proof.
  unfold kept_by_Shutdown. intros H.
  injection H as H1 H2 H3 H4 H5 H6 H7 H8 H9. repeat split; assumption.
Qed.

(** ** Load *)

(** X4.  A [Load] that returns [Success] leaves a complete session: every
    accessor returns, the loader of the file is kept, [status] is [Success],
    [initalized] is set, and the window and the path are remembered for
    [Reset].  The cores of the session are appended to the ones that were
    there: [Load] on a system that was not shut down keeps the old cores,
    and the running core is the first of the whole list. *)
Theorem Load_success_state (w : EmuWindow) (path : string) (s s' : System) :
  Load w path s = Ok (Success, s') ->
  all_live s'
  /\ Memory s' = Ok tt
  /\ CoreTiming s' = Ok (Timing_new (num_cores (settings s)))
  /\ (exists k : KernelSystem, Kernel s' = Ok k)
  /\ ServiceManager s' = Ok tt
  /\ ArchiveManager s' = Ok tt
  /\ CheatEngine s' = Ok tt
  /\ CustomTexCache s' = Ok tt
  /\ app_loader s' = GetLoader path
  /\ status s' = Success
  /\ initalized s' = true
  /\ m_emu_window s' = Some w
  /\ m_filepath s' = path
  /\ cpu_cores s' = cpu_cores s ++ fresh_cores (settings s)
  /\ running_core s' = Some 0%nat
  /\ reschedule_pending s' = reschedule_pending s
  /\ reset_requested s' = reset_requested s
  /\ shutdown_requested s' = shutdown_requested s.
Proof.
  intros HL.
  destruct (Load_Success_eq_inv w path s s' HL) as (loader & m & n & H & _ & ->).
  unfold all_live, Memory, CoreTiming, Kernel, ServiceManager, ArchiveManager, CheatEngine,
    CustomTexCache, Loaded_system.
  sys. cbn [live deref]. rewrite H.
  repeat split; eauto.
Qed.

(** X5.  The collaborator calls of a [Load] that returns [Success], in
    order: those of [Init], the initial telemetry, the loader's [Load] and
    [SetCurrentProcess]; the texture directory of the title and the texture
    scan when [custom_textures] is set; the preload when [preload_textures]
    is set; the save-data file for title 0x00040000001D3A00 and for no other;
    the reset of the performance counters and the start of the first frame.
    A title whose program id cannot be read counts as title 0. *)
Theorem Load_success_calls (w : EmuWindow) (path : string) (s s' : System) :
  Load w path s = Ok (Success, s') ->
  exists loader : AppLoader,
    GetLoader path = Some loader
    /\ log s' = log s ++ Init_calls ++ Load_calls (settings s) (resolved_title_id loader)
    /\ (ReadProgramId loader = None ->
        Load_calls (settings s) (resolved_title_id loader) = Load_calls (settings s) 0).
Proof.
  intros HL.
  destruct (Load_Success_eq_inv w path s s' HL) as (loader & m & n & H & _ & ->).
  exists loader. split; [exact H|]. split; [reflexivity|].
  intros Hid. unfold resolved_title_id. rewrite Hid. reflexivity.
Qed.

Lemma Load_failure_members (w : EmuWindow) (path : string) (s s' : System)
    (r : ResultStatus) :
  Load w path s = Ok (r, s') ->
  r <> Success ->
  status s' = status s
  /\ m_emu_window s' = m_emu_window s
  /\ m_filepath s' = m_filepath s
  /\ settings s' = settings s
  /\ reschedule_pending s' = reschedule_pending s
  /\ reset_requested s' = reset_requested s
  /\ shutdown_requested s' = shutdown_requested s
  /\ (initalized s = true -> initalized s' = true).
Proof.
  intros HL Hr.
  destruct (Load_paths w path s)
    as [H | loader H Hs | loader H Hs Hnone | loader m n H Hs Hm Hn Hv
        | loader m n H Hs Hm Hn Hv Hl | loader m n H Hs Hm Hn Hv Hl].
  - rewrite (Load_no_loader w path s H) in HL. injection HL as _ <-. sys. repeat split; auto.
  - rewrite (Load_system_mode_failure w path s loader H Hs) in HL. injection HL as _ <-.
    sys. repeat split; auto.
  - rewrite (Load_assert_failure w path s loader H Hs Hnone) in HL. discriminate HL.
  - rewrite (Load_Init_failure w path s loader m n H Hs Hm Hn Hv) in HL.
    destruct (Shutdown _) as [s2|] eqn:HS; [|discriminate HL].
    cbn [res_bind] in HL. injection HL as _ <-.
    destruct (Shutdown_kept _ _ HS) as (Hkept & _).
    apply kept_by_Shutdown_inv in Hkept.
    destruct Hkept as (_ & Hrp & Hrr & Hsr & Hst & Hini & Hwin & Hfp & Hset).
    destruct (Init_kept w m n (set_app_loader (Some loader) s))
      as (_ & _ & _ & _ & Hrp' & Hrr' & Hsr' & Hst' & Hwin' & Hfp' & Hset' & Hini' & _).
    sys_in Hrp'. sys_in Hrr'. sys_in Hsr'. sys_in Hst'. sys_in Hwin'. sys_in Hfp'.
    sys_in Hset'. sys_in Hini'.
    rewrite Hrp, Hrr, Hsr, Hst, Hini, Hwin, Hfp, Hset, Hrp', Hrr', Hsr', Hst', Hwin', Hfp',
      Hset', Hini'.
    repeat split. intros ->. apply orb_true_r.
  - destruct (Load_process_failure w path s loader m n H Hs Hm Hn Hv Hl) as (k & Hk & HL').
    rewrite HL' in HL.
    destruct (Shutdown _) as [s2|] eqn:HS; [|discriminate HL].
    cbn [res_bind] in HL. injection HL as _ <-.
    destruct (Shutdown_kept _ _ HS) as (Hkept & _).
    apply kept_by_Shutdown_inv in Hkept.
    destruct Hkept as (_ & Hrp & Hrr & Hsr & Hst & Hini & Hwin & Hfp & Hset).
    destruct (Init_kept w m n (set_app_loader (Some loader) s))
      as (_ & _ & _ & _ & Hrp' & Hrr' & Hsr' & Hst' & Hwin' & Hfp' & Hset' & Hini' & _).
    sys_in Hrp'. sys_in Hrr'. sys_in Hsr'. sys_in Hst'. sys_in Hwin'. sys_in Hfp'.
    sys_in Hset'. sys_in Hini'.
    unfold process_load_failed in Hrp, Hrr, Hsr, Hst, Hini, Hwin, Hfp, Hset.
    sys_in Hrp. sys_in Hrr. sys_in Hsr. sys_in Hst. sys_in Hini. sys_in Hwin. sys_in Hfp.
    sys_in Hset.
    rewrite Hrp, Hrr, Hsr, Hst, Hini, Hwin, Hfp, Hset, Hrp', Hrr', Hsr', Hst', Hwin', Hfp',
      Hset', Hini'.
    repeat split. intros ->. apply orb_true_r.
  - rewrite (Load_success_eq w path s loader m n H Hs Hm Hn Hv Hl) in HL.
    injection HL as <- _. contradiction.
Qed.

(** X6.  A [Load] that fails and returns never assigns [status], the
    remembered window and path, the settings or the request flags, and never
    clears [initalized]: [status] goes on reporting the outcome of the last
    successful [Load]. *)
Theorem failed_Load_keeps_status (w : EmuWindow) (path : string) (s s' : System)
    (r : ResultStatus) :
  Load w path s = Ok (r, s') ->
  r <> Success ->
  status s' = status s
  /\ m_emu_window s' = m_emu_window s
  /\ m_filepath s' = m_filepath s
  /\ settings s' = settings s
  /\ reschedule_pending s' = reschedule_pending s
  /\ reset_requested s' = reset_requested s
  /\ shutdown_requested s' = shutdown_requested s
  /\ (initalized s = true -> initalized s' = true).
Proof. exact (Load_failure_members w path s s' r). Qed.

(** ** RunLoop: what a round needs, and what it leaves alone *)

Lemma execute_round_without_timing (s : System) :
  timing s = None -> execute_round s = Err NullDeref.
Proof.
  intros Ht. unfold execute_round, catch_up.
  destruct (cpu_cores s) as [|c cores] eqn:Hc; cbn [length for_each_index res_bind].
  - change (4096 <? 0) with false. cbv iota.
    unfold synchronized_round. rewrite Hc. cbn [length for_each_index res_bind].
    rewrite Hc. cbn [length for_each_index res_bind]. rewrite Ht. reflexivity.
  - unfold catch_up_core at 1. rewrite Ht. reflexivity.
Qed.

Lemma execute_core_without_kernel (s : System) (i : nat) (c : ARM) :
  cpu_cores s !! i = Some c -> kernel s = None -> execute_core i s = Err NullDeref.
Proof.
  intros Hc Hk. unfold execute_core, element. rewrite Hc. cbn [res_bind]. sys.
  rewrite Hk. reflexivity.
Qed.

Lemma execute_round_without_kernel (s : System) (tm : Timing) :
  timing s = Some tm -> kernel s = None -> cpu_cores s <> [] ->
  execute_round s = Err NullDeref.
Proof.
  intros Htm Hk Hcores.
  destruct (needs_catch_up (GetGlobalTicks tm) (cpu_cores s)) eqn:Hlag.
  - destruct (execute_round_catch_up s tm Htm Hlag) as (i & c & Hc & _ & _ & _ & Hround).
    rewrite Hround.
    apply (execute_core_without_kernel _ i (caught_up (GetGlobalTicks tm) c)).
    + unfold after_catch_up. sys. rewrite list_lookup_fmap, Hc. reflexivity.
    + unfold after_catch_up. sys. exact Hk.
  - unfold execute_round. rewrite (catch_up_spec s tm Htm). cbn [res_bind].
    rewrite (most_delayed_threshold (GetGlobalTicks tm) (cpu_cores s)), Hlag.
    fold (after_catch_up tm s). unfold synchronized_round.
    pose proof (advance_from (compute_max_slice (cpu_cores (after_catch_up tm s)))
                  (cpu_cores (after_catch_up tm s)) [] (after_catch_up tm s) eq_refl) as Hx.
    cbn [app length] in Hx. rewrite Hx. cbn [res_bind]. sys.
    destruct (cpu_cores s) as [|c cores] eqn:Hcs; [contradiction|].
    unfold after_catch_up. sys. rewrite Hcs. cbn [map length for_each_index].
    match goal with
    | |- context [execute_core 0 ?x] =>
        rewrite (execute_core_without_kernel x 0
                   (advanced (compute_max_slice
                                (caught_up (GetGlobalTicks tm) c
                                   :: map (caught_up (GetGlobalTicks tm)) cores))
                      (caught_up (GetGlobalTicks tm) c)))
    end.
    + reflexivity.
    + reflexivity.
    + sys. exact Hk.
Qed.

Lemma execute_round_no_cores (s : System) (tm : Timing) :
  timing s = Some tm -> cpu_cores s = [] ->
  execute_round s
  = Ok (emit (EvAddToGlobalTicks MAX_SLICE_LENGTH)
          (set_timing (Some (AddToGlobalTicks MAX_SLICE_LENGTH tm)) s)).
Proof.
  intros Htm Hc. unfold execute_round, catch_up. rewrite Hc.
  cbn [length for_each_index res_bind]. change (4096 <? 0) with false. cbv iota.
  unfold synchronized_round, compute_max_slice. rewrite Hc.
  cbn [length for_each_index res_bind fold_left]. rewrite Hc.
  cbn [length for_each_index res_bind]. rewrite Htm. reflexivity.
Qed.

Lemma session_members_inv (s1 s2 : System) :
  session_members s1 = session_members s2 ->
  app_loader s1 = app_loader s2
  /\ memory s1 = memory s2
  /\ dsp_core s1 = dsp_core s2
  /\ telemetry_session s1 = telemetry_session s2
  /\ rpc_server s1 = rpc_server s2
  /\ service_manager s1 = service_manager s2
  /\ archive_manager s1 = archive_manager s2
  /\ cheat_engine s1 = cheat_engine s2
  /\ perf_stats s1 = perf_stats s2
  /\ custom_tex_cache s1 = custom_tex_cache s2
  /\ status s1 = status s2
  /\ initalized s1 = initalized s2
  /\ m_emu_window s1 = m_emu_window s2
  /\ m_filepath s1 = m_filepath s2
  /\ settings s1 = settings s2.
Proof.
  unfold session_members. intros H.
  injection H as H1 H2 H3 H4 H5 H6 H7 H8 H9 H10 H11 H12 H13 H14 H15.
  repeat split; assumption.
Qed.

Lemma outside_execution_session (s1 s2 : System) :
  outside_execution s1 = outside_execution s2 -> session_members s1 = session_members s2.
Proof.
  unfold outside_execution, session_members. intros H.
  injection H as H1 H2 H3 H4 H5 H6 H7 H8 H9 H10 H11 H12 H13 H14 H15 H16 H17 H18.
  congruence.
Qed.

(** The execution phase of a round assigns no member of the session. *)
Lemma execute_round_session (s s1 : System) :
  execute_round s = Ok s1 ->
  session_members s1 = session_members s
  /\ reset_requested s1 = reset_requested s
  /\ shutdown_requested s1 = shutdown_requested s
  /\ map core_id (cpu_cores s1) = map core_id (cpu_cores s)
  /\ is_Some (timing s1)
  /\ (is_Some (kernel s1) \/ cpu_cores s1 = []).
Proof.
  intros Hround.
  destruct (timing s) as [tm|] eqn:Htm;
    [|rewrite (execute_round_without_timing s Htm) in Hround; discriminate Hround].
  destruct (kernel s) as [k|] eqn:Hk.
  - destruct (execute_round_returns s tm k Htm Hk)
      as (s1' & l & Hround' & _ & _ & _ & Hk1 & Ht1 & Hrr & Hsr & _ & Hids).
    rewrite Hround in Hround'. injection Hround' as <-.
    split.
    { destruct (needs_catch_up (GetGlobalTicks tm) (cpu_cores s)) eqn:Hlag.
      - destruct (execute_round_catch_up s tm Htm Hlag) as (i & c & Hc & _ & _ & _ & Hexec).
        assert (Hc' : cpu_cores (after_catch_up tm s) !! i
                      = Some (caught_up (GetGlobalTicks tm) c)).
        { unfold after_catch_up. sys. rewrite list_lookup_fmap, Hc. reflexivity. }
        destruct (execute_core_spec (after_catch_up tm s) i _ k Hc' Hk)
          as (s2 & blk & Hexec2 & _ & _ & Hout & _).
        rewrite Hround, Hexec2 in Hexec. injection Hexec as ->.
        apply outside_execution_session in Hout. rewrite Hout.
        unfold session_members, after_catch_up. sys. reflexivity.
      - destruct (execute_round_synchronized s tm k Htm Hk Hlag)
          as (s2 & blocks & _ & _ & _ & _ & Hout & _ & _ & _ & Hexec).
        rewrite Hround in Hexec. injection Hexec as ->.
        apply outside_execution_session in Hout. rewrite <- Hout.
        unfold session_members. sys. reflexivity. }
    split; [exact Hrr|]. split; [exact Hsr|]. split; [exact Hids|].
    split; [|left; exact Hk1].
    rewrite Ht1. destruct (needs_catch_up _ _); eauto.
  - destruct (cpu_cores s) as [|c cores] eqn:Hc.
    + rewrite (execute_round_no_cores s tm Htm Hc) in Hround. injection Hround as <-.
      unfold session_members. sys. rewrite Hc. repeat split; eauto.
    + rewrite (execute_round_without_kernel s tm Htm Hk) in Hround;
        [discriminate Hround | rewrite Hc; discriminate].
Qed.

Lemma Reschedule_session (s s' : System) :
  Reschedule s = Ok s' -> session_members s' = session_members s.
Proof.
  intros H. apply Reschedule_inv in H. subst s'. unfold session_members.
  destruct (reschedule_pending s); [|reflexivity].
  destruct (kernel s); sys; reflexivity.
Qed.

(** [Reschedule] needs the kernel only when a request is pending and there
    is a core to reschedule. *)
Lemma Reschedule_no_cores (s : System) :
  cpu_cores s = [] -> exists s' : System, Reschedule s = Ok s'.
Proof.
  intros Hc. unfold Reschedule. rewrite Hc.
  destruct (reschedule_pending s); cbn [negb Reschedule_cores]; eauto.
Qed.

Lemma finish_round_returns (s1 : System) :
  reset_requested s1 = false ->
  is_Some (kernel s1) \/ cpu_cores s1 = [] ->
  exists (r : ResultStatus) (s' : System), finish_round s1 = Ok (r, s').
Proof.
  intros Hreset Hk.
  assert (HR : exists s2 : System, Reschedule (emit EvHWUpdate s1) = Ok s2).
  { destruct Hk as [[k Hk] | Hc].
    - apply (Reschedule_returns _ k). sys. exact Hk.
    - apply Reschedule_no_cores. sys. exact Hc. }
  destruct HR as [s2 HR].
  destruct (Reschedule_frame _ _ HR) as (_ & Hrr & _). sys_in Hrr.
  unfold finish_round. rewrite HR. cbn [res_bind]. rewrite Hrr, Hreset.
  destruct (shutdown_requested s2); eauto.
Qed.

Lemma RunLoop_returns_aux (tight_loop : bool) (s : System) (tm : Timing) (k : KernelSystem) :
  timing s = Some tm ->
  kernel s = Some k ->
  reset_requested s = false ->
  exists (r : ResultStatus) (s' : System), RunLoop tight_loop s = Ok (r, s').
Proof.
  intros Htm Hk Hreset.
  destruct (execute_round_returns s tm k Htm Hk) as (s1 & l & Hround & _).
  destruct (execute_round_session s s1 Hround) as (_ & Hrr & _ & _ & _ & Hk1).
  unfold RunLoop. rewrite Hround. cbn [res_bind].
  apply finish_round_returns; [congruence | exact Hk1].
Qed.

(** X7.  With no reset requested, [RunLoop] returns exactly when the Global
    Clock is live and the kernel is live or there is no core to execute. *)
Theorem RunLoop_returns_iff (tight_loop : bool) (s : System) :
  reset_requested s = false ->
  (exists (r : ResultStatus) (s' : System), RunLoop tight_loop s = Ok (r, s'))
  <-> is_Some (timing s) /\ (is_Some (kernel s) \/ cpu_cores s = []).
Proof.
  intros Hreset. split.
  - intros (r & s' & H). unfold RunLoop in H.
    destruct (timing s) as [tm|] eqn:Htm;
      [|rewrite (execute_round_without_timing s Htm) in H; discriminate H].
    split; [eauto|].
    destruct (kernel s) as [k|] eqn:Hk; [left; eauto|].
    destruct (cpu_cores s) as [|c cores] eqn:Hc; [right; reflexivity|].
    rewrite (execute_round_without_kernel s tm Htm Hk) in H;
      [discriminate H | rewrite Hc; discriminate].
  - intros ([tm Htm] & Hk).
    assert (Hround : exists s1 : System, execute_round s = Ok s1).
    { destruct Hk as [[k Hk] | Hc].
      - destruct (execute_round_returns s tm k Htm Hk) as (s1 & l & Hround & _). eauto.
      - rewrite (execute_round_no_cores s tm Htm Hc). eauto. }
    destruct Hround as [s1 Hround].
    destruct (execute_round_session s s1 Hround) as (_ & Hrr & _ & _ & _ & Hk1).
    unfold RunLoop. rewrite Hround. cbn [res_bind].
    apply finish_round_returns; [congruence | exact Hk1].
Qed.

Lemma RunLoop_session (tight_loop : bool) (s s' : System) (r : ResultStatus) :
  reset_requested s = false ->
  RunLoop tight_loop s = Ok (r, s') ->
  session_members s' = session_members s
  /\ map core_id (cpu_cores s') = map core_id (cpu_cores s)
  /\ is_Some (timing s')
  /\ reset_requested s' = false.
Proof.
  intros Hreset H. unfold RunLoop in H.
  destruct (execute_round s) as [s1|] eqn:Hround; cbn [res_bind] in H; [|discriminate H].
  destruct (execute_round_session s s1 Hround) as (Hses & Hrr & _ & Hids & Ht & _).
  destruct (finish_round_inv s1 s' r H) as (s2 & HR & Hcase).
  pose proof (Reschedule_session _ _ HR) as Hses2.
  destruct (Reschedule_frame _ _ HR) as (_ & Hrr2 & _ & _ & Ht2 & Hc2 & _).
  sys_in Hrr2. sys_in Ht2. sys_in Hc2.
  assert (Hs2 : session_members s2 = session_members s).
  { rewrite Hses2, <- Hses. unfold session_members. sys. reflexivity. }
  destruct Hcase as [(Hset & _) | [(_ & _ & _ & ->) | (_ & _ & _ & ->)]].
  - congruence.
  - split; [rewrite <- Hs2; unfold session_members; sys; reflexivity|].
    sys. rewrite Hc2, Ht2. split; [exact Hids|]. split; [exact Ht | congruence].
  - split; [exact Hs2|]. rewrite Hc2, Ht2.
    split; [exact Hids|]. split; [exact Ht | congruence].
Qed.

(** X8.  A round in which no reset is requested assigns no member of the
    session: the loader, the subsystem handles, [status], [initalized], the
    remembered window and path and the settings are what they were, the
    cores are the same in number, order and id, and the Global Clock is
    still live. *)
Theorem round_keeps_session (tight_loop : bool) (s s' : System) (r : ResultStatus) :
  reset_requested s = false ->
  RunLoop tight_loop s = Ok (r, s') ->
  session_members s' = session_members s
  /\ map core_id (cpu_cores s') = map core_id (cpu_cores s)
  /\ is_Some (timing s')
  /\ reset_requested s' = false.
Proof. exact (RunLoop_session tight_loop s s' r). Qed.

(** ** Shutdown and what follows it *)

(** X9.  [Shutdown] returns exactly when [perf_stats], the Global Clock and
    the telemetry session are live.  It then records the four telemetry
    fields, shuts down the GDB stub, the video core and the hardware, and
    tells the room member (if there is one) last; it releases every owning
    member, and leaves [running_core], [initalized], [status], the
    remembered window and path, the settings and the request flags as they
    were. *)
Theorem Shutdown_effect (s : System) :
  ((exists s' : System, Shutdown s = Ok s')
   <-> perf_stats s = true /\ is_Some (timing s) /\ telemetry_session s = true)
  /\ (forall s' : System,
        Shutdown s = Ok s' ->
        log s' = log s ++ Shutdown_calls
        /\ all_released s'
        /\ running_core s' = running_core s
        /\ initalized s' = initalized s
        /\ status s' = status s
        /\ m_emu_window s' = m_emu_window s
        /\ m_filepath s' = m_filepath s
        /\ settings s' = settings s
        /\ reschedule_pending s' = reschedule_pending s
        /\ reset_requested s' = reset_requested s
        /\ shutdown_requested s' = shutdown_requested s).
Proof.
  split.
  - split.
    + intros [s' H]. apply Shutdown_inv in H. destruct H as (Hp & Ht & Htel & _). auto.
    + intros (Hp & [tm Ht] & Htel). rewrite (Shutdown_returns s tm Hp Ht Htel). eauto.
  - intros s' H.
    destruct (Shutdown_kept s s' H) as (Hkept & Hlog).
    apply kept_by_Shutdown_inv in Hkept.
    destruct Hkept as (Hrun & Hrp & Hrr & Hsr & Hst & Hini & Hwin & Hfp & Hset).
    split; [exact Hlog|]. split; [exact (Shutdown_releases s s' H)|].
    repeat split; assumption.
Qed.

(** X10.  After a [Shutdown] nothing of the session can be used: each of
    the accessors of lines 307-361 is a null dereference, and so are
    [GetAndResetPerfStats], [RunLoop], [SingleStep] and [Reset];
    [running_core] still points at the core that was running, which
    [cpu_cores] no longer holds, so [PrepareReschedule] reads a destroyed
    core.  [Reschedule] alone still returns, and calls nothing. *)
Theorem use_after_Shutdown (s s' : System) :
  Shutdown s = Ok s' ->
  Kernel s' = Err NullDeref
  /\ CoreTiming s' = Err NullDeref
  /\ Memory s' = Err NullDeref
  /\ ServiceManager s' = Err NullDeref
  /\ ArchiveManager s' = Err NullDeref
  /\ CheatEngine s' = Err NullDeref
  /\ CustomTexCache s' = Err NullDeref
  /\ GetAndResetPerfStats s' = Err NullDeref
  /\ (forall tight_loop : bool, RunLoop tight_loop s' = Err NullDeref)
  /\ SingleStep s' = Err NullDeref
  /\ Reset s' = Err NullDeref
  /\ (forall i : nat, running_core s = Some i -> PrepareReschedule s' = Err UseAfterFree)
  /\ (exists s2 : System, Reschedule s' = Ok s2 /\ log s2 = log s').
Proof.
  intros H.
  destruct (Shutdown_releases s s' H)
    as (_ & Hmem & Htm & Hk & Hc & _ & _ & _ & Hsm & Ham & Hce & Hps & Hctc).
  destruct (Shutdown_kept s s' H) as (Hkept & _).
  apply kept_by_Shutdown_inv in Hkept. destruct Hkept as (Hrun & _).
  assert (HRun : forall tight_loop : bool, RunLoop tight_loop s' = Err NullDeref).
  { intros tl. unfold RunLoop. rewrite (execute_round_without_timing s' Htm). reflexivity. }
  unfold Kernel, CoreTiming, Memory, ServiceManager, ArchiveManager, CheatEngine,
    CustomTexCache, GetAndResetPerfStats, SingleStep.
  rewrite Hmem, Htm, Hk, Hsm, Ham, Hce, Hctc, Hps. cbn [live deref res_bind].
  repeat (split; [reflexivity|]).
  split; [exact HRun|]. split; [apply HRun|].
  split.
  { unfold Reset. rewrite (Shutdown_without_perf_stats s' Hps). reflexivity. }
  split.
  { intros i Hi. unfold PrepareReschedule, element. rewrite Hrun, Hi, Hc. reflexivity. }
  unfold Reschedule. rewrite Hc.
  destruct (reschedule_pending s'); cbn [negb Reschedule_cores]; eexists; split;
    try reflexivity.
Qed.

(** ** Reset *)

(** With [perf_stats] null, a [Load] that fails and returns has failed before
    [Init]: after it, the failing paths go through [Shutdown]. *)
Lemma Load_failure_without_perf_stats (w : EmuWindow) (path : string) (s s' : System)
    (r : ResultStatus) :
  perf_stats s = false ->
  Load w path s = Ok (r, s') ->
  r <> Success ->
  s' = set_app_loader (GetLoader path) s.
Proof.
  intros Hps HL Hr.
  destruct (Load_paths w path s)
    as [H | loader H Hs | loader H Hs Hnone | loader m n H Hs Hm Hn Hv
        | loader m n H Hs Hm Hn Hv Hl | loader m n H Hs Hm Hn Hv Hl].
  - rewrite (Load_no_loader w path s H) in HL. injection HL as _ <-. rewrite H. reflexivity.
  - rewrite (Load_system_mode_failure w path s loader H Hs) in HL. injection HL as _ <-.
    rewrite H. reflexivity.
  - rewrite (Load_assert_failure w path s loader H Hs Hnone) in HL. discriminate HL.
  - rewrite (Load_Init_failure w path s loader m n H Hs Hm Hn Hv) in HL.
    rewrite Shutdown_after_Init_faults in HL by (sys; exact Hps). discriminate HL.
  - destruct (Load_process_failure w path s loader m n H Hs Hm Hn Hv Hl) as (k & Hk & HL').
    rewrite HL' in HL.
    rewrite Shutdown_without_perf_stats in HL; [discriminate HL|].
    destruct (Init_kept w m n (set_app_loader (Some loader) s)) as (_ & _ & Hps' & _).
    unfold process_load_failed. sys. rewrite Hps'. sys. exact Hps.
  - rewrite (Load_success_eq w path s loader m n H Hs Hm Hn Hv Hl) in HL.
    injection HL as <- _. contradiction.
Qed.

(** X11.  [Reset] shuts the session down and loads the remembered file
    again, and returns whatever [Load] reports.  When the reload succeeds
    the session is a fresh one: the old cores are gone and the new ones are
    those of one [Init], the Global Clock is a new one, and the calls are
    those of [Shutdown], [Init] and [Load] in that order.  When it fails and
    returns, it has failed before [Init] (a later failure is a fault):
    everything but the loader handle stays released, and [status] is the one
    the old session had. *)
Theorem Reset_reloads (s s1 s' : System) (w : EmuWindow) (r : ResultStatus) :
  Shutdown s = Ok s1 ->
  m_emu_window s = Some w ->
  Load w (m_filepath s) s1 = Ok (r, s') ->
  Reset s = Ok s'
  /\ reset_requested s' = reset_requested s
  /\ shutdown_requested s' = shutdown_requested s
  /\ m_filepath s' = m_filepath s
  /\ (r = Success ->
      all_live s'
      /\ cpu_cores s' = fresh_cores (settings s)
      /\ running_core s' = Some 0%nat
      /\ CoreTiming s' = Ok (Timing_new (num_cores (settings s)))
      /\ status s' = Success
      /\ m_emu_window s' = Some w
      /\ exists loader : AppLoader,
          GetLoader (m_filepath s) = Some loader
          /\ log s' = log s ++ Shutdown_calls ++ Init_calls
                        ++ Load_calls (settings s) (resolved_title_id loader))
  /\ (r <> Success ->
      s' = set_app_loader (GetLoader (m_filepath s)) s1
      /\ status s' = status s
      /\ log s' = log s ++ Shutdown_calls
      /\ forall tight_loop : bool, RunLoop tight_loop s' = Err NullDeref).
Proof.
  intros HS Hw HL.
  destruct (Shutdown_kept s s1 HS) as (Hkept & Hlog).
  apply kept_by_Shutdown_inv in Hkept.
  destruct Hkept as (_ & _ & Hrr & Hsr & Hst & _ & Hwin & Hfp & Hset).
  destruct (Shutdown_releases s s1 HS)
    as (_ & _ & Htm & _ & Hc & _ & _ & _ & _ & _ & _ & Hps & _).
  split.
  { unfold Reset. rewrite HS. cbn [res_bind]. rewrite Hwin, Hw. cbn [deref res_bind].
    rewrite Hfp, HL. reflexivity. }
  destruct (is_Success r) eqn:Hr.
  - apply is_Success_true in Hr. subst r.
    destruct (Load_Success_eq_inv w (m_filepath s) s1 s' HL) as (loader & m & n & H & _ & ->).
    unfold all_live, CoreTiming, Loaded_system. sys. cbn [deref].
    rewrite Hrr, Hsr, Hc, Hset, Hlog, <- app_assoc.
    split; [reflexivity|]. split; [reflexivity|]. split; [reflexivity|].
    split; [|intros Hne; contradiction].
    intros _. repeat split; eauto.
  - assert (Hne : r <> Success).
    { intros ->. discriminate Hr. }
    pose proof (Load_failure_without_perf_stats w (m_filepath s) s1 s' r Hps HL Hne) as ->.
    sys. rewrite Hrr, Hsr, Hst, Hlog, Hfp.
    split; [reflexivity|]. split; [reflexivity|]. split; [reflexivity|].
    split; [intros ->; contradiction|].
    intros _. split; [reflexivity|]. split; [reflexivity|]. split; [reflexivity|].
    intros tl. unfold RunLoop. rewrite execute_round_without_timing; [reflexivity|].
    sys. exact Htm.
Qed.

(** X12.  [RunLoop] does not look at what the [Load] inside [Reset]
    reports.  On a running session with a reset requested whose file no
    loader accepts any more, the round is executed, the session is shut
    down, and [RunLoop] returns the [status] of the old session with every
    owning member released; the next [RunLoop] is a null dereference. *)
Theorem reset_with_missing_file (tight_loop : bool) (s : System) (tm : Timing)
    (k : KernelSystem) (w : EmuWindow) :
  timing s = Some tm ->
  kernel s = Some k ->
  perf_stats s = true ->
  telemetry_session s = true ->
  m_emu_window s = Some w ->
  reset_requested s = true ->
  GetLoader (m_filepath s) = None ->
  exists s' : System,
    RunLoop tight_loop s = Ok (status s, s')
    /\ all_released s'
    /\ reset_requested s' = false
    /\ forall tight_loop' : bool, RunLoop tight_loop' s' = Err NullDeref.
Proof.
  intros Htm Hk Hps Htel Hw Hreset Hnone.
  destruct (execute_round_returns s tm k Htm Hk)
    as (s1 & l & Hround & _ & _ & _ & [k1 Hk1] & Ht1 & Hrr & _ & Hst & _).
  destruct (execute_round_session s s1 Hround) as (Hses & _ & _ & _ & [tm1 Htm1] & _).
  apply session_members_inv in Hses.
  destruct Hses as (_ & _ & _ & Htel1 & _ & _ & _ & _ & Hps1 & _ & _ & _ & Hw1 & Hfp1 & _).
  destruct (Reschedule_returns (emit EvHWUpdate s1) k1 Hk1) as [s2 HR].
  pose proof (Reschedule_session _ _ HR) as Hses2. apply session_members_inv in Hses2.
  destruct Hses2
    as (_ & _ & _ & Htel2 & _ & _ & _ & _ & Hps2 & _ & Hst2 & _ & Hw2 & Hfp2 & _).
  destruct (Reschedule_frame _ _ HR) as (_ & Hrr2 & _ & _ & Ht2 & _).
  sys_in Htel2. sys_in Hps2. sys_in Hst2. sys_in Hw2. sys_in Hfp2. sys_in Hrr2. sys_in Ht2.
  assert (HS : Shutdown (set_reset_requested false s2)
               = Ok (emit_all Shutdown_calls (release_all (set_reset_requested false s2)))).
  { apply (Shutdown_returns _ tm1); sys; congruence. }
  eexists.
  split.
  { unfold RunLoop, finish_round. rewrite Hround. cbn [res_bind]. rewrite HR. cbn [res_bind].
    rewrite Hrr2, Hrr, Hreset. unfold Reset. rewrite HS. cbn [res_bind]. sys.
    rewrite Hw2, Hw1, Hw. cbn [deref res_bind].
    rewrite Load_no_loader by (rewrite Hfp2, Hfp1; exact Hnone).
    cbn [res_bind]. sys. rewrite Hst2, Hst. reflexivity. }
  split; [unfold all_released; sys; repeat split|].
  split; [reflexivity|].
  intros tl. unfold RunLoop. rewrite execute_round_without_timing; reflexivity.
Qed.

(** ** The per-title overrides over the life of the system *)

Lemma overrides_kept_refl (v : Settings.Values) : overrides_kept v v.
Proof. unfold overrides_kept. auto. Qed.

Lemma title_settings_kept (id : Z) (v : Settings.Values) :
  overrides_kept v (title_settings id v).
Proof.
  unfold title_settings.
  destruct (_ || _); [|apply overrides_kept_refl].
  unfold overrides_kept, other_settings. cbn. auto.
Qed.

Lemma Load_settings_kept (w : EmuWindow) (path : string) (s s' : System) (r : ResultStatus) :
  Load w path s = Ok (r, s') -> overrides_kept (settings s) (settings s').
Proof.
  intros HL. destruct (is_Success r) eqn:Hr.
  - apply is_Success_true in Hr. subst r.
    destruct (Load_Success_eq_inv w path s s' HL) as (loader & m & n & _ & _ & ->).
    unfold Loaded_system. sys. apply title_settings_kept.
  - assert (Hne : r <> Success).
    { intros ->. discriminate Hr. }
    destruct (Load_failure_members w path s s' r HL Hne) as (_ & _ & _ & Hset & _).
    rewrite Hset. apply overrides_kept_refl.
Qed.

Lemma Reset_settings_kept (s s' : System) :
  Reset s = Ok s' -> overrides_kept (settings s) (settings s').
Proof.
  unfold Reset. intros H.
  destruct (Shutdown s) as [s1|] eqn:HS; cbn [res_bind] in H; [|discriminate H].
  destruct (m_emu_window s1) as [w|]; cbn [deref res_bind] in H; [|discriminate H].
  destruct (Load w (m_filepath s1) s1) as [[r s2]|] eqn:HL; cbn [res_bind] in H;
    [|discriminate H].
  injection H as <-.
  destruct (Shutdown_kept s s1 HS) as (Hkept & _).
  apply kept_by_Shutdown_inv in Hkept.
  destruct Hkept as (_ & _ & _ & _ & _ & _ & _ & _ & Hset).
  rewrite <- Hset. exact (Load_settings_kept w _ s1 s2 r HL).
Qed.

(** X13.  Nothing in core.cpp undoes a per-title override.  [Init] and
    [Shutdown] leave the settings alone; [Load], whatever it returns,
    [Reset] and [RunLoop] change at most the three flags of the first
    override entry, and only in the direction the override sets them: once a
    listed title was loaded, [display_transfer_hack] and [skip_slow_draw]
    stay on and [texture_load_hack] stays off for every title loaded
    later. *)
Theorem overrides_never_undone (s : System) :
  (forall (w : EmuWindow) (m n : Z), settings (snd (Init w m n s)) = settings s)
  /\ (forall s' : System, Shutdown s = Ok s' -> settings s' = settings s)
  /\ (forall (w : EmuWindow) (path : string) (r : ResultStatus) (s' : System),
        Load w path s = Ok (r, s') -> overrides_kept (settings s) (settings s'))
  /\ (forall s' : System, Reset s = Ok s' -> overrides_kept (settings s) (settings s'))
  /\ (forall (tight_loop : bool) (r : ResultStatus) (s' : System),
        RunLoop tight_loop s = Ok (r, s') -> overrides_kept (settings s) (settings s')).
Proof.
  split.
  { intros w m n. destruct (Init_kept w m n s) as (_ & _ & _ & _ & _ & _ & _ & _ & _ & _ & H & _).
    exact H. }
  split.
  { intros s' H. destruct (Shutdown_kept s s' H) as (Hkept & _).
    apply kept_by_Shutdown_inv in Hkept. tauto. }
  split; [intros w path r s'; apply Load_settings_kept|].
  split; [apply Reset_settings_kept|].
  intros tl r s' H. unfold RunLoop in H.
  destruct (execute_round s) as [s1|] eqn:Hround; cbn [res_bind] in H; [|discriminate H].
  destruct (execute_round_session s s1 Hround) as (Hses & _).
  apply session_members_inv in Hses.
  destruct Hses as (_ & _ & _ & _ & _ & _ & _ & _ & _ & _ & _ & _ & _ & _ & Hset1).
  destruct (finish_round_inv s1 s' r H) as (s2 & HR & Hcase).
  pose proof (Reschedule_session _ _ HR) as Hses2. apply session_members_inv in Hses2.
  destruct Hses2 as (_ & _ & _ & _ & _ & _ & _ & _ & _ & _ & _ & _ & _ & _ & Hset2).
  sys_in Hset2.
  destruct Hcase as [(_ & HReset & _) | [(_ & _ & _ & ->) | (_ & _ & _ & ->)]].
  - apply Reset_settings_kept in HReset. sys_in HReset.
    rewrite Hset2, Hset1 in HReset. exact HReset.
  - sys. rewrite Hset2, Hset1. apply overrides_kept_refl.
  - rewrite Hset2, Hset1. apply overrides_kept_refl.
Qed.

(** ** The first loop of RunLoop brings the cores level *)

Lemma caught_up_level (g : Z) (c : ARM) :
  Advance_adds_ticks -> 0 <= g < 2 ^ 64 -> core_delay g (caught_up g c) <= 0.
Proof.
  intros Hadv Hg. destruct (0 <? core_delay g c) eqn:E.
  - apply Z.ltb_lt in E. unfold core_delay at 1.
    rewrite (caught_up_ticks g c Hadv E), (wrap_u64_small g Hg), Z.sub_diag.
    assert (H0 : to_s64 0 = 0) by reflexivity. rewrite H0. lia.
  - unfold caught_up. rewrite E. apply Z.ltb_ge. exact E.
Qed.

Lemma catch_up_nothing (g : Z) (cores : list ARM) :
  Forall (fun c => core_delay g c <= 0) cores ->
  forall (i : nat) (max_delay : Z) (current : option nat),
    map (caught_up g) cores = cores
    /\ catch_up_events g i cores = []
    /\ most_delayed g i cores max_delay current = (max_delay, current).
Proof.
  induction 1 as [|c cores Hc _ IH]; intros i max_delay current; [repeat split|].
  apply Z.ltb_ge in Hc.
  destruct (IH (S i) max_delay current) as (H1 & H2 & H3).
  cbn [map catch_up_events most_delayed]. unfold caught_up at 1.
  rewrite Hc, H1, H2, H3. repeat split.
Qed.

(** X14.  With [Advance(n)] adding [n] ticks and the Global Clock a [u64],
    the first loop of [RunLoop] leaves no core behind the Global Clock: a
    core that was behind stands exactly at the clock, a core that was not is
    not touched, and running the loop again advances nothing and selects no
    core. *)
Theorem catch_up_levels (s : System) (tm : Timing) :
  Advance_adds_ticks ->
  timing s = Some tm ->
  0 <= GetGlobalTicks tm < 2 ^ 64 ->
  exists (s1 : System) (max_delay : Z) (current : option nat),
    catch_up s = Ok (s1, max_delay, current)
    /\ Forall (fun c => core_delay (GetGlobalTicks tm) c <= 0) (cpu_cores s1)
    /\ (forall (i : nat) (c : ARM),
          cpu_cores s !! i = Some c ->
          exists c1 : ARM,
            cpu_cores s1 !! i = Some c1
            /\ core_id c1 = core_id c
            /\ (core_delay (GetGlobalTicks tm) c <= 0 -> c1 = c)
            /\ (0 < core_delay (GetGlobalTicks tm) c ->
                Timer_GetTicks (timer c1) = GetGlobalTicks tm))
    /\ catch_up s1 = Ok (s1, 0, None).
Proof.
  intros Hadv Htm Hg.
  rewrite (catch_up_spec s tm Htm). eexists _, _, _. split; [reflexivity|].
  sys.
  assert (Hlevel : Forall (fun c => core_delay (GetGlobalTicks tm) c <= 0)
                     (map (caught_up (GetGlobalTicks tm)) (cpu_cores s))).
  { apply List.Forall_forall. intros c Hin. apply in_map_iff in Hin.
    destruct Hin as (c0 & <- & _). apply caught_up_level; assumption. }
  split; [exact Hlevel|].
  split.
  { intros i c Hc. exists (caught_up (GetGlobalTicks tm) c).
    split; [rewrite list_lookup_fmap, Hc; reflexivity|].
    split; [unfold caught_up; destruct (0 <? _); reflexivity|].
    split.
    - intros Hle. apply Z.ltb_ge in Hle. unfold caught_up. rewrite Hle. reflexivity.
    - intros Hlt. rewrite (caught_up_ticks _ c Hadv Hlt). apply wrap_u64_small. exact Hg. }
  match goal with
  | |- catch_up ?x = _ =>
      rewrite (catch_up_spec x tm) by (sys; exact Htm);
        destruct (catch_up_nothing (GetGlobalTicks tm) (cpu_cores x)
                    ltac:(sys; exact Hlevel) 0%nat 0 None) as (H1 & H2 & H3);
        rewrite H1, H2, H3, emit_all_nil, set_cpu_cores_same
  end.
  reflexivity.
Qed.

(** X15.  How line 49 reads a delay.  For a [u64] clock and a [u64] tick
    count the delay is their difference as long as that fits an [s64].  A
    core [2^63] ticks or more behind the Global Clock gets a negative delay:
    its iteration of the first loop of [RunLoop] advances nothing and leaves
    [max_delay] and the selected core as they were.  A core more than [2^63]
    ticks ahead of the clock gets a positive one. *)
Theorem core_delay_wraps (s : System) (tm : Timing) (i : nat) (c : ARM) :
  timing s = Some tm ->
  cpu_cores s !! i = Some c ->
  0 <= GetGlobalTicks tm < 2 ^ 64 ->
  0 <= Timer_GetTicks (timer c) < 2 ^ 64 ->
  (- 2 ^ 63 <= GetGlobalTicks tm - Timer_GetTicks (timer c) < 2 ^ 63 ->
   core_delay (GetGlobalTicks tm) c = GetGlobalTicks tm - Timer_GetTicks (timer c))
  /\ (2 ^ 63 <= GetGlobalTicks tm - Timer_GetTicks (timer c) ->
      core_delay (GetGlobalTicks tm) c
      = GetGlobalTicks tm - Timer_GetTicks (timer c) - 2 ^ 64
      /\ core_delay (GetGlobalTicks tm) c < 0
      /\ forall (max_delay : Z) (current : option nat),
          catch_up_core i (s, max_delay, current) = Ok (s, max_delay, current))
  /\ (GetGlobalTicks tm - Timer_GetTicks (timer c) < - 2 ^ 63 ->
      core_delay (GetGlobalTicks tm) c
      = GetGlobalTicks tm - Timer_GetTicks (timer c) + 2 ^ 64
      /\ 0 < core_delay (GetGlobalTicks tm) c).
Proof.
  intros Htm Hc Hg Ht.
  set (g := GetGlobalTicks tm) in *.
  assert (Hd : - 2 ^ 64 < g - Timer_GetTicks (timer c) < 2 ^ 64) by lia.
  split; [|split].
  - intros Hfit. unfold core_delay, to_s64. rewrite Z.mod_small by lia. lia.
  - intros Hfar.
    assert (Hdelay : core_delay g c = g - Timer_GetTicks (timer c) - 2 ^ 64).
    { unfold core_delay, to_s64.
      rewrite <- (Zmod_unique (g - Timer_GetTicks (timer c) + 2 ^ 63) (2 ^ 64) 1
                 (g - Timer_GetTicks (timer c) + 2 ^ 63 - 2 ^ 64)) by lia.
      lia. }
    split; [exact Hdelay|]. split; [lia|].
    intros max_delay current. unfold catch_up_core, element.
    rewrite Htm, Hc. cbn [deref res_bind]. fold g.
    assert (Hneg : (0 <? core_delay g c) = false) by (apply Z.ltb_ge; lia).
    rewrite Hneg. reflexivity.
  - intros Hfar.
    assert (Hdelay : core_delay g c = g - Timer_GetTicks (timer c) + 2 ^ 64).
    { unfold core_delay, to_s64.
      rewrite <- (Zmod_unique (g - Timer_GetTicks (timer c) + 2 ^ 63) (2 ^ 64) (-1)
                 (g - Timer_GetTicks (timer c) + 2 ^ 63 + 2 ^ 64)) by lia.
      lia. }
    split; [exact Hdelay | lia].
Qed.

(** ** The running core after a round *)

Lemma execute_cores_running (n : nat) :
  forall (i : nat) (s : System) (k : KernelSystem),
    kernel s = Some k ->
    (i + S n <= length (cpu_cores s))%nat ->
    exists s' : System,
      for_each_index execute_core (S n) i s = Ok s'
      /\ running_core s' = Some (i + n)%nat.
Proof.
  induction n as [|n IH]; intros i s k Hk Hlen.
  - destruct (lookup_lt_is_Some_2 (cpu_cores s) i) as [c Hc]; [lia|].
    destruct (execute_core_spec s i c k Hc Hk) as (s1 & blk & Hexec & _ & _ & _ & _ & _ & _ & Hrun & _).
    exists s1. cbn [for_each_index]. rewrite Hexec. cbn [res_bind].
    rewrite Nat.add_0_r. split; [reflexivity | exact Hrun].
  - destruct (lookup_lt_is_Some_2 (cpu_cores s) i) as [c Hc]; [lia|].
    destruct (execute_core_spec s i c k Hc Hk)
      as (s1 & blk & Hexec & _ & _ & _ & [k1 Hk1] & Hlen1 & _).
    destruct (IH (S i) s1 k1 Hk1) as (s' & Hloop & Hrun); [rewrite Hlen1; lia|].
    exists s'. split.
    + change (for_each_index execute_core (S (S n)) i s)
        with (do a' <- execute_core i s ; for_each_index execute_core (S n) (S i) a').
      rewrite Hexec. cbn [res_bind]. exact Hloop.
    + rewrite Hrun. f_equal. lia.
Qed.

(** X16.  In a synchronized round every core is made the running core in
    turn, so on a running session with no reset requested [RunLoop] returns
    with [running_core] on the last element of [cpu_cores], which is still
    there: a [PrepareReschedule] that arrives between two rounds flags that
    core. *)
Theorem synchronized_round_running_core (tight_loop : bool) (s : System) (tm : Timing)
    (k : KernelSystem) :
  timing s = Some tm ->
  kernel s = Some k ->
  reset_requested s = false ->
  cpu_cores s <> [] ->
  needs_catch_up (GetGlobalTicks tm) (cpu_cores s) = false ->
  exists (r : ResultStatus) (s' : System),
    RunLoop tight_loop s = Ok (r, s')
    /\ running_core s' = Some (length (cpu_cores s) - 1)%nat
    /\ length (cpu_cores s') = length (cpu_cores s)
    /\ exists s2 : System,
        PrepareReschedule s' = Ok s2
        /\ reschedule_pending s2 = true
        /\ log s2 = log s' ++ [EvCorePrepareReschedule (length (cpu_cores s) - 1)].
Proof.
  intros Htm Hk Hreset Hcores Hsync.
  destruct (execute_round_synchronized s tm k Htm Hk Hsync)
    as (s2 & blocks & _ & Hloop & _ & _ & _ & _ & Hids & _ & Hround).
  assert (Hlen : exists n : nat, length (cpu_cores s) = S n).
  { destruct (cpu_cores s) as [|c cores]; [contradiction|]. cbn [length]. eauto. }
  destruct Hlen as [n Hlen].
  assert (Hrun2 : running_core s2 = Some n).
  { destruct (execute_cores_running n 0 (before_execution tm s) k) as (s2' & Hloop' & Hrun).
    - unfold before_execution. sys. exact Hk.
    - unfold before_execution. sys. rewrite !length_map. lia.
    - rewrite Hlen, Hloop' in Hloop. injection Hloop as <-. exact Hrun. }
  assert (Hlen2 : length (cpu_cores s2) = S n).
  { rewrite <- Hlen, <- (length_map core_id (cpu_cores s2)), Hids. apply length_map. }
  destruct (RunLoop_returns_aux tight_loop s tm k Htm Hk Hreset) as (r & s' & HRun).
  exists r, s'. split; [exact HRun|].
  unfold RunLoop in HRun. rewrite Hround in HRun. cbn [res_bind] in HRun.
  destruct (finish_round_inv _ s' r HRun) as (s3 & HR & Hcase).
  apply Reschedule_inv in HR. sys_in HR.
  assert (H3 : running_core s3 = Some n /\ length (cpu_cores s3) = S n).
  { subst s3. destruct (reschedule_pending s2); [destruct (kernel s2)|]; sys; auto. }
  destruct H3 as (Hrun3 & Hlen3).
  destruct (execute_round_session s _ Hround) as (_ & Hrr & _). sys_in Hrr.
  assert (H' : running_core s' = Some n /\ length (cpu_cores s') = S n).
  { destruct Hcase as [(Hset & _) | [(_ & _ & _ & ->) | (_ & _ & _ & ->)]]; sys; auto.
    sys_in Hset. congruence. }
  destruct H' as (Hrun' & Hlen').
  rewrite Hlen. replace (S n - 1)%nat with n by lia.
  split; [exact Hrun'|]. split; [exact Hlen'|].
  destruct (lookup_lt_is_Some_2 (cpu_cores s') n) as [c Hc]; [lia|].
  eexists. unfold PrepareReschedule, element. rewrite Hrun'. cbn [deref res_bind].
  rewrite Hc. cbn [res_bind]. split; [reflexivity|]. sys. split; reflexivity.
Qed.

(** ** The modes a loader reports *)

(** X17.  How [Load] reads the two modes of a loader whose system-mode
    status is [Success].  A mode with no value is a failed [ASSERT], before
    [Init] and whatever else the loader would report.  The status that comes
    with the New 3DS mode is never looked at: with both values present, the
    video core up and the process loaded, [Load] returns [Success] even when
    that status is an error. *)
Theorem Load_mode_asserts (w : EmuWindow) (path : string) (s : System) (loader : AppLoader) :
  GetLoader path = Some loader ->
  Loader.is_Success (snd (LoadKernelSystemMode loader)) = true ->
  (fst (LoadKernelSystemMode loader) = None \/ fst (LoadKernelN3dsMode loader) = None ->
   Load w path s = Err AssertFailed)
  /\ (forall m n : Z,
        fst (LoadKernelSystemMode loader) = Some m ->
        fst (LoadKernelN3dsMode loader) = Some n ->
        snd (LoadKernelN3dsMode loader) <> Loader.Success ->
        is_Success (VideoCore_Init w) = true ->
        Loader.is_Success (LoadProcess loader) = true ->
        exists s' : System,
          Load w path s = Ok (Success, s')
          /\ kernel s' = Some (Kernel_SetCurrentProcess (LoadProcess loader)
                                 (Init_kernel m n (set_app_loader (Some loader) s)))).
Proof.
  intros H Hs. split.
  - apply Load_assert_failure; assumption.
  - intros m n Hm Hn _ Hv Hl.
    rewrite (Load_success_eq w path s loader m n H Hs Hm Hn Hv Hl).
    eexists. split; reflexivity.
Qed.

(** ** A session from Load to Shutdown *)

(** X18.  A session that [Load] reports as loaded can be run and shut down:
    with no reset requested [RunLoop] returns, with [ShutdownRequested] if a
    shutdown was requested and with [Success] otherwise, and the [Shutdown]
    that follows returns with every owning member released, [status] still
    [Success] and [initalized] still set. *)
Theorem session_lifecycle (w : EmuWindow) (path : string) (tight_loop : bool)
    (s s1 : System) :
  Load w path s = Ok (Success, s1) ->
  reset_requested s = false ->
  exists (r : ResultStatus) (s2 s3 : System),
    RunLoop tight_loop s1 = Ok (r, s2)
    /\ r = (if shutdown_requested s then ShutdownRequested else Success)
    /\ Shutdown s2 = Ok s3
    /\ all_released s3
    /\ status s3 = Success
    /\ initalized s3 = true.
Proof.
  intros HL Hreset.
  destruct (Load_Success_eq_inv w path s s1 HL) as (loader & m & n & _ & _ & Hs1).
  assert (H1 : timing s1 = Some (Timing_new (num_cores (settings s)))
               /\ kernel s1 = Some (Kernel_SetCurrentProcess (LoadProcess loader)
                                      (Init_kernel m n s))
               /\ reset_requested s1 = false
               /\ shutdown_requested s1 = shutdown_requested s
               /\ perf_stats s1 = true /\ telemetry_session s1 = true
               /\ status s1 = Success /\ initalized s1 = true).
  { subst s1. unfold Loaded_system. sys. repeat split. exact Hreset. }
  destruct H1 as (Htm & Hk & Hrr & Hsr & Hps & Htel & Hst & Hini).
  destruct (RunLoop_returns_aux tight_loop s1 _ _ Htm Hk Hrr) as (r & s2 & HRun).
  destruct (RunLoop_session tight_loop s1 s2 r Hrr HRun) as (Hses & _ & [tm2 Htm2] & _).
  apply session_members_inv in Hses.
  destruct Hses as (_ & _ & _ & Htel2 & _ & _ & _ & _ & Hps2 & _ & Hst2 & Hini2 & _).
  assert (HS : Shutdown s2 = Ok (emit_all Shutdown_calls (release_all s2))).
  { apply (Shutdown_returns s2 tm2); congruence. }
  exists r, s2, (emit_all Shutdown_calls (release_all s2)).
  split; [exact HRun|].
  split.
  { unfold RunLoop in HRun.
    destruct (execute_round s1) as [s1'|] eqn:Hround; cbn [res_bind] in HRun;
      [|discriminate HRun].
    destruct (execute_round_session s1 s1' Hround) as (Hses1 & Hrr1 & Hsr1 & _).
    apply session_members_inv in Hses1.
    destruct Hses1 as (_ & _ & _ & _ & _ & _ & _ & _ & _ & _ & Hst1 & _).
    destruct (finish_round_inv s1' s2 r HRun)
      as (s2' & _ & [(Hset & _) | [(_ & Hshut & -> & _) | (_ & Hshut & -> & _)]]).
    - congruence.
    - rewrite <- Hsr, <- Hsr1, Hshut. reflexivity.
    - rewrite <- Hsr, <- Hsr1, Hshut. congruence. }
  split; [exact HS|].
  split; [exact (Shutdown_releases s2 _ HS)|].
  sys. split; congruence.
Qed.

End Properties.


(** * The properties on the concrete machine *)

Section Scenarios.

Import Scenario.

#[local] Existing Instance machine.

Lemma machine_Advance_adds_ticks : Advance_adds_ticks.
Proof. intros n t. reflexivity. Defined.

(** The spec's first scenario: the catch-up branch selects core 0, and core
    0 alone executes. *)
Example catch_up_scenario :
  RunLoop false behind_session = Ok (Success, behind_result)
  /\ running_core behind_result = Some 0%nat
  /\ log behind_result = [EvTimerAdvance 0 5000; EvSetRunningCPU 0; EvCoreRun 0; EvHWUpdate]
  /\ timing behind_result = Some {| global_timer := 5000 |}.
Proof. repeat split. Qed.

(** The spec's second scenario: both cores advance by 150, and so does the
    Global Clock. *)
Example synchronized_scenario :
  RunLoop false level_session = Ok (Success, level_result)
  /\ map (fun c => Timer_GetTicks (timer c)) (cpu_cores level_result) = [5150; 5150]
  /\ timing level_result = Some {| global_timer := 5150 |}
  /\ log level_result
     = [EvTimerAdvance 0 150; EvTimerAdvance 1 150; EvSetRunningCPU 0; EvCoreRun 0;
        EvSetRunningCPU 1; EvCoreRun 1; EvAddToGlobalTicks 150; EvHWUpdate].
Proof. repeat split. Qed.

(** C1 on the lagging session: the slice length is 150, and the Global Clock
    moves from 5000 to 5150. *)
Lemma C1_synchronized_round_witness :
  Forall (fun c => core_delay 5000 c <= 4096) (cpu_cores lagging_session)
  /\ round_max_slice {| global_timer := 5000 |} lagging_session <= MAX_SLICE_LENGTH
  /\ (exists c1 : ARM,
        cpu_cores (before_execution {| global_timer := 5000 |} lagging_session) !! 0%nat
        = Some c1
        /\ Timer_GetTicks (timer c1) = 5150)
  /\ exists s' : System,
      execute_round lagging_session = Ok s'
      /\ timing s' = Some {| global_timer := 5150 |}.
Proof.
  assert (Hnear : Forall (fun c => core_delay 5000 c <= 4096) (cpu_cores lagging_session)).
  { repeat constructor; apply Z.leb_le; reflexivity. }
  destruct (C1_synchronized_round lagging_session {| global_timer := 5000 |}
              {| running_cpu := 0; has_thread := [0%nat; 1%nat] |}
              eq_refl eq_refl Hnear)
    as ((Hle & _) & Hticks & s2 & s' & _ & _ & _ & _ & Hround & _ & Ht).
  split; [exact Hnear|]. split; [exact Hle|].
  split; [exact (Hticks machine_Advance_adds_ticks 0%nat (core 0 4900 300) eq_refl)|].
  exists s'. split; [exact Hround | exact Ht].
Defined.

(** C1 as stated fails on the lagging session: the round is a synchronized
    one and its slice length is 150, but core 0, a hundred ticks behind the
    Global Clock, gains 250 ticks. *)
Lemma C1_counterexample :
  needs_catch_up 5000 (cpu_cores lagging_session) = false
  /\ round_max_slice {| global_timer := 5000 |} lagging_session = 150
  /\ execute_round lagging_session = Ok lagging_round
  /\ ~ every_timer_gains 150 lagging_session lagging_round.
Proof.
  split; [reflexivity|]. split; [reflexivity|]. split; [reflexivity|].
  intros H.
  specialize (H 0%nat (core 0 4900 300) (core 0 5150 300) eq_refl eq_refl).
  discriminate H.
Qed.

(** C2 on the spec's first scenario. *)
Lemma C2_catch_up_round_witness :
  Exists (fun c => 4096 < core_delay 5000 c) (cpu_cores behind_session)
  /\ exists (i : nat) (c : ARM) (s' : System),
      cpu_cores behind_session !! i = Some c
      /\ 4096 < core_delay 5000 c
      /\ execute_round behind_session = Ok s'
      /\ running_core s' = Some i
      /\ timing s' = Some {| global_timer := 5000 |}.
Proof.
  assert (Hlag : Exists (fun c => 4096 < core_delay 5000 c) (cpu_cores behind_session)).
  { apply Exists_cons_hd. apply Z.ltb_lt. reflexivity. }
  split; [exact Hlag|].
  destruct (C2_catch_up_round false behind_session {| global_timer := 5000 |}
              {| running_cpu := 0; has_thread := [0%nat; 1%nat] |} eq_refl eq_refl Hlag)
    as (i & c & s' & Hc & Hbig & _ & _ & Hround & _ & Hrun & Ht & _).
  exists i, c, s'. repeat split; assumption.
Defined.

(** C3 as stated fails when the system mode cannot be read: [Load] returns
    the encrypted kind, [Shutdown] was never called, and the loader handle is
    live. *)
Lemma C3_counterexample :
  Load tt "encrypted_header.3ds" unloaded = Ok (ErrorLoader_ErrorEncrypted, header_rejected)
  /\ app_loader header_rejected = Some encrypted_header
  /\ log header_rejected = []
  /\ ~ all_released header_rejected.
Proof.
  split; [reflexivity|]. split; [reflexivity|]. split; [reflexivity|].
  intros (H & _). discriminate H.
Qed.

(** C3 on a session that is loaded again with a title whose code is
    encrypted: [Init] has run, [Shutdown] is called, everything is released. *)
Lemma C3_failed_Load_cleanup_witness :
  Load tt "encrypted_code.3ds" loaded = Ok (ErrorLoader_ErrorEncrypted, code_rejected)
  /\ ErrorLoader_ErrorEncrypted <> Success
  /\ all_released code_rejected.
Proof.
  assert (HL : Load tt "encrypted_code.3ds" loaded
               = Ok (ErrorLoader_ErrorEncrypted, code_rejected)) by reflexivity.
  assert (Hr : ErrorLoader_ErrorEncrypted <> Success) by discriminate.
  split; [exact HL|]. split; [exact Hr|].
  destruct (C3_failed_Load_cleanup (C := machine) tt "encrypted_code.3ds" loaded code_rejected
              ErrorLoader_ErrorEncrypted HL Hr)
    as [[[Hnone | (loader & Hsome & Hmode)] _]
       | (loader & m & n & s1 & _ & _ & _ & _ & _ & Hrel)].
  - discriminate Hnone.
  - injection Hsome as <-. discriminate Hmode.
  - exact Hrel.
Defined.

(** C4 on a loaded session: the first [Shutdown] runs to its end, the second
    is a null dereference. *)
Lemma C4_second_Shutdown_faults_witness :
  Shutdown loaded = Ok stopped /\ Shutdown stopped = Err NullDeref.
Proof.
  assert (H : Shutdown loaded = Ok stopped) by reflexivity.
  split; [exact H|]. exact (C4_second_Shutdown_faults loaded stopped H).
Defined.

(** C5 as stated fails on the spec's first scenario: in a catch-up round
    [AddToGlobalTicks] is not called and the Global Clock stays at 5000. *)
Lemma C5_counterexample :
  RunLoop false behind_session = Ok (Success, behind_result)
  /\ count_AddToGlobalTicks (log behind_result) = 0%nat
  /\ timing behind_result = timing behind_session.
Proof. repeat split. Qed.

(** C5 on the spec's second scenario: one call, and the clock at 5150. *)
Lemma C5_global_clock_witness :
  exists s1 : System,
    execute_round level_session = Ok s1
    /\ count_AddToGlobalTicks (log s1) = 1%nat
    /\ timing s1 = Some {| global_timer := 5150 |}.
Proof.
  destruct (C5_global_clock false level_session {| global_timer := 5000 |}
              {| running_cpu := 0; has_thread := [0%nat; 1%nat] |} eq_refl eq_refl)
    as (s1 & Hround & _ & Hsync & _).
  destruct (Hsync eq_refl) as (blocks & _ & _ & Hcount & Ht & _).
  exists s1. split; [exact Hround|]. split; [exact Hcount | exact Ht].
Defined.

(** C6 on a session with a shutdown requested: the round ends with the
    hardware update, and [ShutdownRequested] is returned with the flag
    cleared. *)
Lemma C6_end_of_round_witness :
  execute_round closing_session = Ok closing_round
  /\ exists s2 : System,
      RunLoop false closing_session = Ok (ShutdownRequested, set_shutdown_requested false s2)
      /\ log s2 = log closing_round ++ [EvHWUpdate]
      /\ shutdown_requested (set_shutdown_requested false s2) = false.
Proof.
  assert (Hround : execute_round closing_session = Ok closing_round) by reflexivity.
  split; [exact Hround|].
  destruct (C6_end_of_round false closing_session closing_round
              {| running_cpu := 1; has_thread := [0%nat; 1%nat] |} Hround eq_refl)
    as (s2 & _ & Hlog & _ & _ & _ & _ & _ & Hshutdown & _).
  exists s2. split; [exact (Hshutdown eq_refl eq_refl)|]. split; [exact Hlog | reflexivity].
Defined.

(** C7 on a stopped session: loading a title whose code cannot be
    materialized is a null dereference, not [ErrorLoader_ErrorEncrypted]. *)
Lemma C7_process_failure_faults_witness :
  perf_stats stopped = false
  /\ LoadProcess encrypted_code = Loader.ErrorEncrypted
  /\ Load tt "encrypted_code.3ds" stopped = Err NullDeref.
Proof.
  split; [reflexivity|]. split; [reflexivity|].
  exact (C7_process_failure_faults (C := machine) tt "encrypted_code.3ds" stopped encrypted_code 2 0
           eq_refl eq_refl eq_refl eq_refl eq_refl eq_refl eq_refl).
Defined.

(** X1 on a title whose header is encrypted. *)
Lemma Load_failure_kinds_witness :
  Load tt "encrypted_header.3ds" unloaded = Ok (ErrorLoader_ErrorEncrypted, header_rejected)
  /\ GetLoader "encrypted_header.3ds" = Some encrypted_header.
Proof.
  assert (HL : Load tt "encrypted_header.3ds" unloaded
               = Ok (ErrorLoader_ErrorEncrypted, header_rejected)) by reflexivity.
  split; [exact HL|].
  pose proof (Load_failure_kinds (C := machine) tt "encrypted_header.3ds" unloaded
                header_rejected ErrorLoader_ErrorEncrypted HL) as Hkind.
  destruct (GetLoader "encrypted_header.3ds") as [loader|] eqn:Hsome;
    [|discriminate Hkind].
  f_equal. injection Hsome as <-. reflexivity.
Defined.

(** C8 on the level session, before and after a reschedule was requested. *)
Lemma C8_reschedule_coordinator_witness :
  PrepareReschedule level_session
  = Ok (set_reschedule_pending true (emit (EvCorePrepareReschedule 0) level_session))
  /\ Reschedule level_session = Ok level_session
  /\ exists s' : System,
      Reschedule (set_reschedule_pending true level_session) = Ok s'
      /\ reschedule_pending s' = false
      /\ log s' = [EvThreadManagerReschedule 0; EvThreadManagerReschedule 1].
Proof.
  destruct (C8_reschedule_coordinator level_session) as (Hprepare & Hnone & _).
  destruct (C8_reschedule_coordinator (set_reschedule_pending true level_session))
    as (_ & _ & Hsome).
  split; [exact (Hprepare 0%nat (core 0 5000 300) eq_refl eq_refl)|].
  split; [exact (Hnone eq_refl)|].
  destruct (Hsome {| running_cpu := 0; has_thread := [0%nat; 1%nat] |} eq_refl eq_refl)
    as (s' & HR & Hp & Hlog & _).
  exists s'. split; [exact HR|]. split; [exact Hp | exact Hlog].
Defined.

(** C9 on a title of the first override entry. *)
Lemma C9_title_overrides_witness :
  Load tt "retail.3ds" unloaded = Ok (Success, retail_loaded)
  /\ Settings.display_transfer_hack (settings retail_loaded) = true
  /\ Settings.skip_slow_draw (settings retail_loaded) = true
  /\ Settings.texture_load_hack (settings retail_loaded) = false
  /\ other_settings (settings retail_loaded) = other_settings default_settings.
Proof.
  assert (HL : Load tt "retail.3ds" unloaded = Ok (Success, retail_loaded)) by reflexivity.
  split; [exact HL|].
  destruct (C9_title_overrides (C := machine) tt "retail.3ds" unloaded retail_loaded HL)
    as (loader & Hsome & Hin & _).
  injection Hsome as <-.
  apply Hin. right. left. reflexivity.
Defined.

(** C10 on a session whose core 1 has no thread: it is idled, a reschedule
    is requested, and both thread managers reschedule before [RunLoop]
    returns. *)
Lemma C10_reschedule_never_carries_over_witness :
  RunLoop false idle_session = Ok (Success, idle_result)
  /\ reschedule_pending idle_result = false
  /\ log idle_result
     = [EvTimerAdvance 0 150; EvTimerAdvance 1 150; EvSetRunningCPU 0; EvCoreRun 0;
        EvSetRunningCPU 1; EvTimerIdle 1; EvCorePrepareReschedule 1;
        EvAddToGlobalTicks 150; EvHWUpdate;
        EvThreadManagerReschedule 0; EvThreadManagerReschedule 1].
Proof.
  assert (HL : RunLoop false idle_session = Ok (Success, idle_result)) by reflexivity.
  destruct (C10_reschedule_never_carries_over false idle_session) as (Hclear & _).
  split; [exact HL|]. split; [exact (Hclear Success idle_result HL) | reflexivity].
Defined.

(** X2 on a fresh system with the default settings: two Dynarmic cores,
    numbered 0 and 1. *)
Lemma Init_creates_cores_witness :
  map core_id (cpu_cores (snd (Init tt 2 0 unloaded))) = [0%nat; 1%nat]
  /\ map variant (cpu_cores (snd (Init tt 2 0 unloaded))) = [ARM_Dynarmic; ARM_Dynarmic]
  /\ running_core (snd (Init tt 2 0 unloaded)) = Some 0%nat.
Proof.
  destruct (Init_creates_cores (C := machine) tt 2 0 unloaded)
    as (Hcores & _ & _ & _ & _ & Hrun & _).
  rewrite Hcores. split; [reflexivity|]. split; [reflexivity | exact Hrun].
Defined.

(** X3 on a fresh system: the video core comes up, the kernel is there, the
    cheat engine is not. *)
Lemma Init_outcome_witness :
  fst (Init tt 2 0 unloaded) = Success
  /\ ServiceManager (snd (Init tt 2 0 unloaded)) = Ok tt
  /\ CheatEngine (snd (Init tt 2 0 unloaded)) = Err NullDeref
  /\ initalized (snd (Init tt 2 0 unloaded)) = true.
Proof.
  destruct (Init_outcome (C := machine) tt 2 0 unloaded)
    as (Hres & _ & _ & _ & Hsm & _ & _ & _ & _ & Hce & _ & _ & Hini & _).
  split; [exact Hres|]. split; [exact Hsm|]. split; [exact Hce | exact Hini].
Defined.

(** X4 on a second [Load] of plain.3ds with no [Shutdown] between: the
    session is complete, and the two cores of the first [Load] are still in
    [cpu_cores]. *)
Lemma Load_success_state_witness :
  Load tt "plain.3ds" loaded = Ok (Success, loaded_twice)
  /\ CheatEngine loaded_twice = Ok tt
  /\ m_filepath loaded_twice = "plain.3ds"
  /\ length (cpu_cores loaded_twice) = 4%nat
  /\ running_core loaded_twice = Some 0%nat.
Proof.
  assert (HL : Load tt "plain.3ds" loaded = Ok (Success, loaded_twice)) by reflexivity.
  destruct (Load_success_state (C := machine) tt "plain.3ds" loaded loaded_twice HL)
    as (_ & _ & _ & _ & _ & _ & Hce & _ & _ & _ & _ & _ & Hfp & Hcores & Hrun & _).
  split; [exact HL|]. split; [exact Hce|]. split; [exact Hfp|].
  split; [rewrite Hcores; reflexivity | exact Hrun].
Defined.

(** X5 on a listed title with custom textures and their preload on. *)
Lemma Load_success_calls_witness :
  Load tt "retail.3ds" textured = Ok (Success, textured_loaded)
  /\ log textured_loaded
     = [EvKernelSetCPUs; EvSetRunningCPU 0; EvDspSetup;
        EvHWInit; EvServiceInit; EvGDBStubInit; EvVideoCoreInit;
        EvTelemetryAddInitialInfo; EvLoaderLoad; EvSetCurrentProcess;
        EvCreateTextureDir 0x0004000000061300; EvFindCustomTextures; EvPreloadTextures;
        EvGetAndResetStats; EvBeginSystemFrame].
Proof.
  assert (HL : Load tt "retail.3ds" textured = Ok (Success, textured_loaded)) by reflexivity.
  split; [exact HL|].
  destruct (Load_success_calls (C := machine) tt "retail.3ds" textured textured_loaded HL)
    as (loader & Hsome & Hlog & _).
  injection Hsome as <-. exact Hlog.
Defined.

(** X6 on a loaded session that is loaded again with a title whose code is
    encrypted: everything is released, and [status] still says [Success]. *)
Lemma failed_Load_keeps_status_witness :
  Load tt "encrypted_code.3ds" loaded = Ok (ErrorLoader_ErrorEncrypted, code_rejected)
  /\ status code_rejected = Success
  /\ m_filepath code_rejected = "plain.3ds".
Proof.
  assert (HL : Load tt "encrypted_code.3ds" loaded
               = Ok (ErrorLoader_ErrorEncrypted, code_rejected)) by reflexivity.
  assert (Hr : ErrorLoader_ErrorEncrypted <> Success) by discriminate.
  destruct (failed_Load_keeps_status (C := machine) tt "encrypted_code.3ds" loaded
              code_rejected ErrorLoader_ErrorEncrypted HL Hr)
    as (Hst & _ & Hfp & _).
  split; [exact HL|]. split; [exact Hst | exact Hfp].
Defined.

(** X7 on the level session, which has both the clock and the kernel. *)
Lemma RunLoop_returns_iff_witness :
  reset_requested level_session = false
  /\ ((exists (r : ResultStatus) (s' : System), RunLoop false level_session = Ok (r, s'))
      <-> is_Some (timing level_session)
          /\ (is_Some (kernel level_session) \/ cpu_cores level_session = [])).
Proof.
  split; [reflexivity|]. exact (RunLoop_returns_iff false level_session eq_refl).
Defined.

(** X8 on the spec's second scenario. *)
Lemma round_keeps_session_witness :
  RunLoop false level_session = Ok (Success, level_result)
  /\ session_members level_result = session_members level_session
  /\ map core_id (cpu_cores level_result) = [0%nat; 1%nat].
Proof.
  assert (HL : RunLoop false level_session = Ok (Success, level_result)) by reflexivity.
  destruct (round_keeps_session false level_session level_result Success eq_refl HL)
    as (Hses & Hids & _).
  split; [exact HL|]. split; [exact Hses | exact Hids].
Defined.

(** X9 on the loaded session: the calls of [Shutdown], and [initalized]
    still set after it. *)
Lemma Shutdown_effect_witness :
  Shutdown loaded = Ok stopped
  /\ log stopped
     = log loaded
       ++ [EvGetAndResetStats;
           EvTelemetryAddField "Shutdown_EmulationSpeed";
           EvTelemetryAddField "Shutdown_Framerate";
           EvTelemetryAddField "Shutdown_Frametime";
           EvTelemetryAddField "Mean_Frametime_MS";
           EvGDBStubShutdown; EvVideoCoreShutdown; EvHWShutdown]
  /\ initalized stopped = true
  /\ running_core stopped = Some 0%nat.
Proof.
  assert (HS : Shutdown loaded = Ok stopped) by reflexivity.
  destruct (Shutdown_effect loaded) as (_ & Heffect).
  destruct (Heffect stopped HS) as (Hlog & _ & Hrun & Hini & _).
  split; [exact HS|]. split; [exact Hlog|]. split; [exact Hini | exact Hrun].
Defined.

(** X10 on the stopped session. *)
Lemma use_after_Shutdown_witness :
  Shutdown loaded = Ok stopped
  /\ Kernel stopped = Err NullDeref
  /\ RunLoop false stopped = Err NullDeref
  /\ PrepareReschedule stopped = Err UseAfterFree.
Proof.
  assert (HS : Shutdown loaded = Ok stopped) by reflexivity.
  destruct (use_after_Shutdown loaded stopped HS)
    as (Hk & _ & _ & _ & _ & _ & _ & _ & HRun & _ & _ & Hprep & _).
  split; [exact HS|]. split; [exact Hk|]. split; [exact (HRun false)|].
  exact (Hprep 0%nat eq_refl).
Defined.

(** X11 on the loaded session: the reload succeeds, and the session has the
    two cores of one [Init] and a clock at tick 0. *)
Lemma Reset_reloads_witness :
  Shutdown loaded = Ok stopped
  /\ Load tt "plain.3ds" stopped = Ok (Success, reloaded)
  /\ Reset loaded = Ok reloaded
  /\ length (cpu_cores reloaded) = 2%nat
  /\ CoreTiming reloaded = Ok {| global_timer := 0 |}.
Proof.
  assert (HS : Shutdown loaded = Ok stopped) by reflexivity.
  assert (HL : Load tt (m_filepath loaded) stopped = Ok (Success, reloaded)) by reflexivity.
  destruct (Reset_reloads (C := machine) loaded stopped reloaded tt Success HS eq_refl HL)
    as (HReset & _ & _ & _ & Hok & _).
  destruct (Hok eq_refl) as (_ & Hcores & _ & Htm & _).
  split; [exact HS|]. split; [exact HL|]. split; [exact HReset|].
  split; [rewrite Hcores; reflexivity | exact Htm].
Defined.

(** X12 on a session whose file is gone: the round runs, the session is shut
    down, and [RunLoop] returns [Success]. *)
Lemma reset_with_missing_file_witness :
  GetLoader "gone.3ds" = None
  /\ exists s' : System,
      RunLoop false orphaned_session = Ok (Success, s')
      /\ all_released s'
      /\ RunLoop false s' = Err NullDeref.
Proof.
  split; [reflexivity|].
  destruct (reset_with_missing_file (C := machine) false orphaned_session
              {| global_timer := 5000 |}
              {| running_cpu := 0; has_thread := [0%nat; 1%nat] |} tt
              eq_refl eq_refl eq_refl eq_refl eq_refl eq_refl eq_refl)
    as (s' & HRun & Hrel & _ & Hnext).
  exists s'. split; [exact HRun|]. split; [exact Hrel | exact (Hnext false)].
Defined.

(** X13 on an unlisted title loaded after a listed one: the overrides of
    the listed title are still in force. *)
Lemma overrides_never_undone_witness :
  Load tt "plain.3ds" retail_stopped = Ok (Success, retail_then_plain)
  /\ Settings.display_transfer_hack (settings retail_then_plain) = true
  /\ Settings.skip_slow_draw (settings retail_then_plain) = true
  /\ Settings.texture_load_hack (settings retail_then_plain) = false.
Proof.
  assert (HL : Load tt "plain.3ds" retail_stopped = Ok (Success, retail_then_plain))
    by reflexivity.
  destruct (overrides_never_undone retail_stopped) as (_ & _ & HLoad & _).
  destruct (HLoad tt "plain.3ds" Success retail_then_plain HL) as (_ & Hd & Hs & Ht).
  split; [exact HL|]. split; [exact (Hd eq_refl)|].
  split; [exact (Hs eq_refl) | exact (Ht eq_refl)].
Defined.

(** X14 on the spec's first scenario: core 0, 5000 ticks behind, is brought
    to tick 5000. *)
Lemma catch_up_levels_witness :
  exists (s1 : System) (max_delay : Z) (current : option nat),
    catch_up behind_session = Ok (s1, max_delay, current)
    /\ Forall (fun c => core_delay 5000 c <= 0) (cpu_cores s1)
    /\ catch_up s1 = Ok (s1, 0, None).
Proof.
  assert (Hg : 0 <= GetGlobalTicks {| global_timer := 5000 |} < 2 ^ 64).
  { split; [discriminate | reflexivity]. }
  destruct (catch_up_levels behind_session {| global_timer := 5000 |}
              machine_Advance_adds_ticks eq_refl Hg)
    as (s1 & d & cur & Hcatch & Hlevel & _ & Hagain).
  exists s1, d, cur. split; [exact Hcatch|]. split; [exact Hlevel | exact Hagain].
Defined.

(** X15 on a session whose clock stands at [2^63 + 5] with core 0 at tick
    0: the delay of core 0 is negative, and the loop passes it by. *)
Lemma core_delay_wraps_witness :
  2 ^ 63 <= GetGlobalTicks {| global_timer := 2 ^ 63 + 5 |}
            - Timer_GetTicks (timer (core 0 0 300))
  /\ core_delay (2 ^ 63 + 5) (core 0 0 300) < 0
  /\ catch_up_core 0 (far_session, 0, None) = Ok (far_session, 0, None).
Proof.
  assert (Hg : 0 <= GetGlobalTicks {| global_timer := 2 ^ 63 + 5 |} < 2 ^ 64)
    by (split; [discriminate | reflexivity]).
  assert (Ht : 0 <= Timer_GetTicks (timer (core 0 0 300)) < 2 ^ 64)
    by (split; [discriminate | reflexivity]).
  assert (Hfar : 2 ^ 63 <= GetGlobalTicks {| global_timer := 2 ^ 63 + 5 |}
                           - Timer_GetTicks (timer (core 0 0 300)))
    by discriminate.
  destruct (core_delay_wraps far_session {| global_timer := 2 ^ 63 + 5 |} 0%nat
              (core 0 0 300) eq_refl eq_refl Hg Ht)
    as (_ & Hwrap & _).
  destruct (Hwrap Hfar) as (_ & Hneg & Hpass).
  split; [exact Hfar|]. split; [exact Hneg | exact (Hpass 0 None)].
Defined.

(** X16 on the spec's second scenario: core 1 is the running core when
    [RunLoop] returns. *)
Lemma synchronized_round_running_core_witness :
  exists (r : ResultStatus) (s' : System),
    RunLoop false level_session = Ok (r, s')
    /\ running_core s' = Some 1%nat.
Proof.
  assert (Hcores : cpu_cores level_session <> []) by discriminate.
  destruct (synchronized_round_running_core false level_session {| global_timer := 5000 |}
              {| running_cpu := 0; has_thread := [0%nat; 1%nat] |}
              eq_refl eq_refl eq_refl Hcores eq_refl)
    as (r & s' & HRun & Hrun & _).
  exists r, s'. split; [exact HRun | exact Hrun].
Defined.

(** X17 on a loader that hands out no system mode, and on one whose New 3DS
    mode comes with an error status. *)
Lemma Load_mode_asserts_witness :
  Load (C := shelf headless_title) tt "any.3ds" (blank (shelf headless_title))
  = Err AssertFailed
  /\ exists s' : @System (shelf odd_title),
      Load (C := shelf odd_title) tt "any.3ds" (blank (shelf odd_title)) = Ok (Success, s').
Proof.
  destruct (Load_mode_asserts (C := shelf headless_title) tt "any.3ds"
              (blank (shelf headless_title)) headless_title eq_refl eq_refl)
    as (Hassert & _).
  destruct (Load_mode_asserts (C := shelf odd_title) tt "any.3ds"
              (blank (shelf odd_title)) odd_title eq_refl eq_refl)
    as (_ & Hload).
  split; [exact (Hassert (or_introl eq_refl))|].
  assert (Hodd : snd (LoadKernelN3dsMode odd_title) <> Loader.Success) by discriminate.
  destruct (Hload 2 0 eq_refl eq_refl Hodd eq_refl eq_refl) as (s' & HL & _).
  exists s'. exact HL.
Defined.

(** X18 on a fresh system: plain.3ds is loaded, a round is run, and the
    session is shut down. *)
Lemma session_lifecycle_witness :
  Load tt "plain.3ds" unloaded = Ok (Success, loaded)
  /\ exists s2 s3 : System,
      RunLoop false loaded = Ok (Success, s2)
      /\ Shutdown s2 = Ok s3
      /\ all_released s3.
Proof.
  assert (HL : Load tt "plain.3ds" unloaded = Ok (Success, loaded)) by reflexivity.
  split; [exact HL|].
  destruct (session_lifecycle (C := machine) tt "plain.3ds" false unloaded loaded HL eq_refl)
    as (r & s2 & s3 & HRun & -> & HS & Hrel & _).
  exists s2, s3. split; [exact HRun|]. split; [exact HS | exact Hrel].
Defined.

End Scenarios.
